(** * Footnote text from XBRL data: the notebook's pipeline, embedded

    The notebook [xbrl_footnote_text.ipynb] downloads one monthly archive of
    the SEC's "Financial Statements and Notes" data, loads [sub.tsv] and
    [txt.tsv], keeps the 10-K submissions, merges them with the text
    observations on the accession number [adsh], keeps the rows whose tag
    is one of the footnote tags, writes the table and counts words.

    The embedding follows the notebook cell by cell.  A data frame is a list
    of column labels and a list of rows; Python exceptions are the [Raise]
    results of an error monad; the file system and the network are an
    explicit state threaded through the download function.

    The calls into pandas, [csv], [re], [requests] and [zipfile] are
    modelled after what these libraries do; where releases of them differ
    in a way the notebook can observe, the release is a parameter.  Text is
    a [string] of 8-bit characters, read as the characters U+0000 to
    U+00FF.  Cells hold texts, integers and the missing value; a column
    has a type, and a number of a floating-point column is the whole
    number it equals.  Numbers with a fraction are not part of the model:
    where the loader would meet one, the model answers [Unmodelled]. *)

From Stdlib Require Import String Ascii ZArith NArith Bool Arith Lia List Permutation.
Import ListNotations.

Local Open Scope list_scope.

(* ===================================================================== *)
(** ** Exceptions and results *)
(* ===================================================================== *)

(** The Python exceptions the notebook's calls can raise. *)
Inductive exn : Type :=
| KeyError (key : string)      (* a requested column label is absent *)
| TypeError                    (* an operand of the wrong Python type *)
| ValueError                   (* a value of the right type, but unusable *)
| EmptyDataError               (* read_csv: no columns to parse *)
| ParserError                  (* read_csv: the file cannot be tokenized *)
| BadZipFile                   (* zipfile: the file is not an archive *)
| FileExistsError              (* mkdir: the path is an existing file *)
| NotADirectoryError           (* a file stands where a folder is needed *)
| IsADirectoryError            (* open: the path is a folder *)
| ConnectionError              (* requests: the transport failed *)
| Unmodelled.                  (* the input leaves the modelled fragment *)

Inductive result (A : Type) : Type :=
| Ok (a : A)
| Raise (e : exn).

Arguments Ok {A} a.
Arguments Raise {A} e.

Definition bind {A B : Type} (c : result A) (k : A -> result B) : result B :=
  match c with
  | Ok a => k a
  | Raise e => Raise e
  end.

Notation "x <- c ;; k" := (bind c (fun x => k))
  (at level 61, c at next level, right associativity).

(* ===================================================================== *)
(** ** The installed libraries *)
(* ===================================================================== *)

(** The notebook names no release of the libraries it calls.  Three of the
    behaviours it meets differ between releases, and the embedding takes
    them as a parameter instead of choosing one:
    - [merge] returns the rows of an inner join in the order of the left
      table, and the key column among the left columns of an empty left
      table, from pandas 2.2 on; earlier releases group the rows by key and
      take the key of an empty left table from the right table;
    - [read_csv] takes the field [None] for a missing value from pandas
      2.0 on;
    - the [csv] writer of recent releases of Python puts a field that
      holds a carriage return between quotes whatever the line terminator
      is; older ones, asked to end lines with a line feed as [to_csv] asks
      on POSIX systems, write such a field as it is. *)
Inductive pandas_release : Type :=
| Pandas1       (* 1.x *)
| Pandas20      (* 2.0 and 2.1 *)
| Pandas22.     (* 2.2 and later *)

Record platform : Type := mkPlatform {
  pandas : pandas_release;
  csv_quotes_cr : bool
}.

Definition keeps_left_order (p : platform) : bool :=
  match pandas p with
  | Pandas22 => true
  | _ => false
  end.

Definition none_is_missing (p : platform) : bool :=
  match pandas p with
  | Pandas1 => false
  | _ => true
  end.

(** The notebook's metadata names a kernel of Python 3.9.12, of 2022, when
    pandas 1.4 was current. *)
Definition notebook_platform : platform :=
  {| pandas := Pandas1; csv_quotes_cr := false |}.

Definition recent_platform : platform :=
  {| pandas := Pandas22; csv_quotes_cr := true |}.

(* ===================================================================== *)
(** ** Data frames *)
(* ===================================================================== *)

(** A cell holds what [pd.read_csv] puts in a frame: a text, a whole
    number or the missing value NaN. *)
Inductive cell : Type :=
| CStr (s : string)
| CInt (z : Z)
| CNaN.

(** The type of a column.  In an [Int64] column every cell is an integer
    of 64 bits.  A [Float64] column is what pandas makes of numbers with
    missing values among them: its cells are NaN or floating-point numbers,
    of which the model has the whole ones, [CInt z] standing for the
    double [z.0].  An [Object] column holds Python objects: texts,
    integers, NaN. *)
Inductive dtype : Type :=
| Int64
| Float64
| Object.

Definition dtype_eqb (a b : dtype) : bool :=
  match a, b with
  | Int64, Int64 | Float64, Float64 | Object, Object => true
  | _, _ => false
  end.

(** Equality as [isin] and [merge] see it: both hash their operands, and
    both let a missing value match a missing value. *)
Definition cell_eqb (a b : cell) : bool :=
  match a, b with
  | CStr s, CStr t => String.eqb s t
  | CInt x, CInt y => Z.eqb x y
  | CNaN, CNaN => true
  | _, _ => false
  end.

Definition row : Type := list cell.

Record DataFrame : Type := mkDataFrame {
  columns : list string;
  dtypes : list dtype;
  values : list row
}.

(** The type of the column at a position. *)
Definition dtype_at (ds : list dtype) (i : nat) : dtype := nth i ds Object.

(** The types of the columns of a frame, one per label. *)
Definition dtypes_of (df : DataFrame) : list dtype :=
  map (dtype_at (dtypes df)) (seq 0 (length (columns df))).

(** [Index.get_loc]: the position of a label, the first one if any. *)
Fixpoint get_loc (key : string) (labels : list string) : option nat :=
  match labels with
  | [] => None
  | l :: ls =>
      if String.eqb key l then Some 0
      else option_map S (get_loc key ls)
  end.

(** The cell of a row at a position; a frame is rectangular, so the
    default is never read on the frames the loader builds. *)
Definition take (r : row) (i : nat) : cell := nth i r CNaN.

(** Positions of a list of labels; the first absent label is reported. *)
Fixpoint get_indexer (labels keys : list string) : result (list nat) :=
  match keys with
  | [] => Ok []
  | k :: ks =>
      match get_loc k labels with
      | None => Raise (KeyError k)
      | Some i => ixs <- get_indexer labels ks ;; Ok (i :: ixs)
      end
  end.

(** [df[[k1, ..., kn]]]: the frame restricted to the listed columns, in the
    listed order. *)
Definition getitem_list (df : DataFrame) (keys : list string) : result DataFrame :=
  ixs <- get_indexer (columns df) keys ;;
  Ok {| columns := keys;
        dtypes := map (dtype_at (dtypes df)) ixs;
        values := map (fun r => map (take r) ixs) (values df) |}.

(** [df[k]]: one column, as the list of its cells. *)
Definition getitem (df : DataFrame) (key : string) : result (list cell) :=
  match get_loc key (columns df) with
  | None => Raise (KeyError key)
  | Some i => Ok (map (fun r => take r i) (values df))
  end.

(** [s.isin(vals)]: the boolean mask of the cells found in [vals]. *)
Definition isin (s : list cell) (vals : list cell) : list bool :=
  map (fun v => existsb (cell_eqb v) vals) s.

(** Rows kept by a boolean mask. *)
Fixpoint select (mask : list bool) (rs : list row) : list row :=
  match mask, rs with
  | b :: mask', r :: rs' =>
      if b then r :: select mask' rs' else select mask' rs'
  | _, _ => []
  end.

(** [df[mask]]: pandas refuses a mask whose length is not the frame's.
    The columns keep their types, also when no row is left. *)
Definition getitem_mask (df : DataFrame) (mask : list bool) : result DataFrame :=
  if Nat.eqb (length mask) (length (values df))
  then Ok {| columns := columns df; dtypes := dtypes df;
             values := select mask (values df) |}
  else Raise ValueError.

(** *** Merging *)

(** A row without its cell at position [j]. *)
Definition drop_at (j : nat) (r : row) : row := firstn j r ++ skipn (S j) r.

Definition drop_label (j : nat) (ls : list string) : list string :=
  firstn j ls ++ skipn (S j) ls.

Definition drop_at_types (j : nat) (ds : list dtype) : list dtype :=
  firstn j ds ++ skipn (S j) ds.

Definition mem_label (l : string) (ls : list string) : bool :=
  existsb (String.eqb l) ls.

(** Labels of a merged frame: the left labels, then the right labels
    without the key; a label found on both sides takes the suffix [_x] on
    the left and [_y] on the right. *)
Definition merge_columns (j : nat) (lc rc : list string) : list string :=
  let rc' := drop_label j rc in
  map (fun l => if mem_label l rc' then (l ++ "_x")%string else l) lc ++
  map (fun l => if mem_label l lc then (l ++ "_y")%string else l) rc'.

(** The same when the left frame has no rows, before pandas 2.2: there
    [_get_merge_keys] drops the key from the left frame instead of the
    right one ("avoid key upcast in corner case (length-0)"), so that the
    key stands where the right frame has it, after the other left
    labels. *)
Definition merge_columns_left_empty (i : nat) (lc rc : list string) : list string :=
  let lc' := drop_label i lc in
  map (fun l => if mem_label l rc then (l ++ "_x")%string else l) lc' ++
  map (fun l => if mem_label l lc' then (l ++ "_y")%string else l) rc.

Definition is_str (c : cell) : bool :=
  match c with
  | CStr _ => true
  | _ => false
  end.

Definition is_int (c : cell) : bool :=
  match c with
  | CInt _ => true
  | _ => false
  end.

Definition is_nan (c : cell) : bool :=
  match c with
  | CNaN => true
  | _ => false
  end.

(** What [lib.infer_dtype(values, skipna=False)] answers on a column. *)
Inductive inferred : Type :=
| I_empty
| I_string
| I_mixed
| I_mixed_integer
| I_integer
| I_integer_na
| I_floating.

Definition infer_dtype (dt : dtype) (vs : list cell) : inferred :=
  match dt with
  | Int64 => I_integer
  | Float64 => I_floating
  | Object =>
      match vs with
      | [] => I_empty
      | _ :: _ =>
          if existsb is_str vs then
            if existsb is_int vs then I_mixed_integer
            else if existsb is_nan vs then I_mixed
            else I_string
          else if existsb is_int vs then
            if existsb is_nan vs then I_integer_na else I_integer
          else I_floating
      end
  end.

(** The two lists of names in [_maybe_coerce_merge_keys]. *)
Definition bool_type (i : inferred) : bool :=
  match i with
  | I_integer | I_mixed_integer | I_empty => true
  | _ => false
  end.

Definition string_type (i : inferred) : bool :=
  match i with
  | I_string | I_mixed | I_empty => true
  | _ => false
  end.

(** The integers of 64 bits. *)
Definition int64 (z : Z) : bool :=
  Z.leb (- 2 ^ 63) z && Z.leb z (2 ^ 63 - 1).

(** A number that a double holds exactly. *)
Definition exact_double (c : cell) : bool :=
  match c with
  | CInt z => Z.leb (Z.abs z) (2 ^ 53)
  | _ => true
  end.

(** [_maybe_coerce_merge_keys] on the two key columns.  Nothing is checked
    when exactly one side has no rows, and nothing is done when the two
    columns have one type.  A column of objects is merged with a column of
    numbers unless one of the two holds text and the other does not: that
    raises [ValueError]; otherwise both keys are turned into objects,
    which the answer [true] reports.  Integers and floating-point numbers
    are merged as they are; pandas 1 compares them as Python numbers and
    pandas 2 as doubles, which is the same as long as a double holds each
    of them exactly, and left open beyond.  Left open is also the key
    column of floating-point numbers turned into objects, whose cells
    would be Python floats. *)
Definition coerce_merge_keys (ld rd : dtype) (lk rk : list cell) : result bool :=
  match lk, rk with
  | [], _ :: _ => Ok false
  | _ :: _, [] => Ok false
  | _, _ =>
      if dtype_eqb ld rd then Ok false
      else
        match ld, rd with
        | Object, _ | _, Object =>
            let il := infer_dtype ld lk in
            let ir := infer_dtype rd rk in
            if bool_type il && bool_type ir then Ok true
            else if xorb (string_type il) (string_type ir) then Raise ValueError
            else if dtype_eqb ld Float64 && negb (forallb is_nan lk)
            then Raise Unmodelled
            else Ok true
        | _, _ =>
            if forallb exact_double lk && forallb exact_double rk then Ok false
            else Raise Unmodelled
        end
  end.

(** The right rows whose key equals the key of a left row, in their
    order, each appended to the left row without its own key cell. *)
Definition join_row (i j : nat) (rrows : list row) (l : row) : list row :=
  map (fun r => l ++ drop_at j r)
      (filter (fun r => cell_eqb (take l i) (take r j)) rrows).

(** The distinct cells of a list, in the order of their first
    occurrence. *)
Fixpoint uniques (seen ks : list cell) : list cell :=
  match ks with
  | [] => []
  | k :: ks' =>
      if existsb (cell_eqb k) seen then uniques seen ks'
      else k :: uniques (k :: seen) ks'
  end.

(** The groups of [_factorize_keys]: a number for every key in the order
    of first occurrence, and a last one for the missing key. *)
Definition key_groups (ks : list cell) : list cell :=
  uniques [] (filter (fun k => negb (is_nan k)) ks) ++
  (if existsb is_nan ks then [CNaN] else []).

(** The rows of the inner join.  From pandas 2.2 on they follow the left
    frame: for every left row in turn its matches in the order of the
    right frame.  Before, [inner_join] goes through the key groups: for
    every key in turn the left rows that have it, each with its
    matches. *)
Definition merge_rows (p : platform) (i j : nat) (lrows rrows : list row) : list row :=
  if keeps_left_order p then flat_map (join_row i j rrows) lrows
  else
    flat_map (fun k =>
                flat_map (join_row i j rrows)
                         (filter (fun l => cell_eqb (take l i) k) lrows))
             (key_groups (map (fun l => take l i) lrows)).

(** The types of the columns at the positions [0, ..., n-1], the one at
    position [i] replaced. *)
Definition dtypes_with (ds : list dtype) (n i : nat) (d : dtype) : list dtype :=
  map (fun k => if Nat.eqb k i then d else dtype_at ds k) (seq 0 n).

Definition no_rows (df : DataFrame) : bool :=
  match values df with
  | [] => true
  | _ :: _ => false
  end.

(** [left.merge(right, on=key)]: the inner join on one shared column.  The
    key column of the result is the left one, or, before pandas 2.2 and
    with a left frame without rows, the right one. *)
Definition merge (p : platform) (left right : DataFrame) (on : string) : result DataFrame :=
  match get_loc on (columns left), get_loc on (columns right) with
  | Some i, Some j =>
      let ld := dtype_at (dtypes left) i in
      let rd := dtype_at (dtypes right) j in
      let n := length (columns left) in
      let m := length (columns right) in
      coerced <- coerce_merge_keys ld rd
                   (map (fun r => take r i) (values left))
                   (map (fun r => take r j) (values right)) ;;
      if no_rows left && negb (keeps_left_order p)
      then
        Ok {| columns := merge_columns_left_empty i (columns left) (columns right);
              dtypes := drop_at_types i (dtypes_with (dtypes left) n i ld) ++
                        dtypes_with (dtypes right) m j (if coerced then Object else rd);
              values := [] |}
      else
        Ok {| columns := merge_columns j (columns left) (columns right);
              dtypes := dtypes_with (dtypes left) n i (if coerced then Object else ld) ++
                        drop_at_types j (dtypes_with (dtypes right) m j rd);
              values := merge_rows p i j (values left) (values right) |}
  | _, _ => Raise (KeyError on)
  end.

(** [df.reset_index(drop=True)]: rows are addressed by position here, so
    renumbering them leaves the frame as it is. *)
Definition reset_index_drop (df : DataFrame) : DataFrame := df.

(* ===================================================================== *)
(** ** The notebook's tables *)
(* ===================================================================== *)

Definition sub_columns : list string :=
  ["adsh"; "cik"; "name"; "sic"; "form"; "period"; "filed"]%string.

Definition txt_columns : list string :=
  ["adsh"; "tag"; "qtrs"; "ddate"; "value"]%string.

(** The notebook's settings. *)
Definition form_types : list cell :=
  [CStr "10-K"; CStr "10-K/A"].

Definition footnote_tags : list cell :=
  [CStr "SignificantAccountingPoliciesTextBlock";
   CStr "BasisOfPresentationAndSignificantAccountingPoliciesTextBlock";
   CStr "OrganizationConsolidationAndPresentationOfFinancialStatementsDisclosureAndSignificantAccountingPoliciesTextBlock"].

(** [df_sub = df_sub[['adsh', ..., 'filed']]] *)
Definition df_sub (sub : DataFrame) : result DataFrame :=
  getitem_list sub sub_columns.

(** [df_sub_filtered = df_sub[df_sub['form'].isin(form_types)]] *)
Definition df_sub_filtered (sub : DataFrame) (forms : list cell) : result DataFrame :=
  d <- df_sub sub ;;
  form <- getitem d "form" ;;
  getitem_mask d (isin form forms).

(** [df_txt = df_txt[['adsh', 'tag', 'qtrs', 'ddate', 'value']]] *)
Definition df_txt (txt : DataFrame) : result DataFrame :=
  getitem_list txt txt_columns.

(** [df_txt_filtered = df_sub_filtered.merge(df_txt, on = 'adsh')] *)
Definition df_txt_filtered (p : platform) (sub txt : DataFrame) (forms : list cell) :
    result DataFrame :=
  l <- df_sub_filtered sub forms ;;
  r <- df_txt txt ;;
  merge p l r "adsh".

(** [df_fn = df_txt_filtered[df_txt_filtered['tag'].isin(footnote_tags)]
            .reset_index(drop=True)] *)
Definition df_fn (p : platform) (sub txt : DataFrame) (forms tags : list cell) :
    result DataFrame :=
  m <- df_txt_filtered p sub txt forms ;;
  tag <- getitem m "tag" ;;
  f <- getitem_mask m (isin tag tags) ;;
  Ok (reset_index_drop f).

(** The labels of the merged table: the submission columns, then the
    observation columns without the key. *)
Definition fn_columns : list string :=
  ["adsh"; "cik"; "name"; "sic"; "form"; "period"; "filed";
   "tag"; "qtrs"; "ddate"; "value"]%string.

(** The labels of the merged table when no submission is retained, before
    pandas 2.2: the key comes with the observation columns. *)
Definition fn_columns_key_right : list string :=
  ["cik"; "name"; "sic"; "form"; "period"; "filed";
   "adsh"; "tag"; "qtrs"; "ddate"; "value"]%string.

(** The key column of a frame of submissions or observations. *)
Definition adsh (r : row) : cell := take r 0.

(** The rows that Steps A to C of the specification describe, written as
    nested loops: each submission in table order whose form is accepted,
    and for it each observation in table order that has the same accession
    number and an accepted tag, the two joined. *)
Definition expected_rows (subs obs : list row) (forms tags : list cell) : list row :=
  flat_map (fun s =>
    if existsb (cell_eqb (take s 4)) forms
    then map (fun o => s ++ drop_at 0 o)
             (filter (fun o => cell_eqb (adsh s) (adsh o) &&
                               existsb (cell_eqb (take o 1)) tags) obs)
    else []) subs.

Definition cell_eq_dec (a b : cell) : {a = b} + {a <> b}.
Proof.
  decide equality; [apply string_dec | apply Z.eq_dec].
Defined.


(** *** A small example: two submissions, three observations *)

(** The column types the loader gives the selected columns of the two
    files: accession numbers, names, forms, tags and values are text, the
    other columns whole numbers. *)
Definition sub_dtypes : list dtype :=
  [Object; Int64; Object; Int64; Object; Int64; Int64].

Definition txt_dtypes : list dtype :=
  [Object; Object; Int64; Int64; Object].

Definition fn_dtypes : list dtype :=
  sub_dtypes ++ [Object; Int64; Int64; Object].

Definition ex_sub : DataFrame :=
  {| columns := ["adsh"; "cik"; "name"; "sic"; "countryba"; "form"; "period"; "filed"]%string;
     dtypes := [Object; Int64; Object; Int64; Object; Object; Int64; Int64];
     values :=
       [ [CStr "A1"; CInt 1001; CStr "Alpha Corp"; CInt 1311; CStr "US";
          CStr "10-K"; CInt 20201231; CInt 20210115];
         [CStr "A2"; CInt 1002; CStr "Beta Inc"; CInt 7372; CStr "US";
          CStr "8-K"; CInt 20201231; CInt 20210120] ] |}.

Definition ex_txt : DataFrame :=
  {| columns := ["adsh"; "tag"; "version"; "ddate"; "qtrs"; "value"]%string;
     dtypes := [Object; Object; Object; Int64; Int64; Object];
     values :=
       [ [CStr "A1"; CStr "SignificantAccountingPoliciesTextBlock";
          CStr "us-gaap/2020"; CInt 20201231; CInt 4; CStr "Text one."];
         [CStr "A2"; CStr "SignificantAccountingPoliciesTextBlock";
          CStr "us-gaap/2020"; CInt 20201231; CInt 4; CStr "Text two."];
         [CStr "A1"; CStr "IncomeTaxDisclosureTextBlock";
          CStr "us-gaap/2020"; CInt 20201231; CInt 4; CStr "Taxes."] ] |}.

Definition ex_sub_filtered : DataFrame :=
  {| columns := sub_columns;
     dtypes := sub_dtypes;
     values :=
       [ [CStr "A1"; CInt 1001; CStr "Alpha Corp"; CInt 1311;
          CStr "10-K"; CInt 20201231; CInt 20210115] ] |}.

Definition ex_txt_selected : DataFrame :=
  {| columns := txt_columns;
     dtypes := txt_dtypes;
     values :=
       [ [CStr "A1"; CStr "SignificantAccountingPoliciesTextBlock";
          CInt 4; CInt 20201231; CStr "Text one."];
         [CStr "A2"; CStr "SignificantAccountingPoliciesTextBlock";
          CInt 4; CInt 20201231; CStr "Text two."];
         [CStr "A1"; CStr "IncomeTaxDisclosureTextBlock";
          CInt 4; CInt 20201231; CStr "Taxes."] ] |}.

Definition ex_txt_filtered : DataFrame :=
  {| columns := fn_columns;
     dtypes := fn_dtypes;
     values :=
       [ [CStr "A1"; CInt 1001; CStr "Alpha Corp"; CInt 1311;
          CStr "10-K"; CInt 20201231; CInt 20210115;
          CStr "SignificantAccountingPoliciesTextBlock";
          CInt 4; CInt 20201231; CStr "Text one."];
         [CStr "A1"; CInt 1001; CStr "Alpha Corp"; CInt 1311;
          CStr "10-K"; CInt 20201231; CInt 20210115;
          CStr "IncomeTaxDisclosureTextBlock";
          CInt 4; CInt 20201231; CStr "Taxes."] ] |}.

Definition ex_fn : DataFrame :=
  {| columns := fn_columns;
     dtypes := fn_dtypes;
     values :=
       [ [CStr "A1"; CInt 1001; CStr "Alpha Corp"; CInt 1311;
          CStr "10-K"; CInt 20201231; CInt 20210115;
          CStr "SignificantAccountingPoliciesTextBlock";
          CInt 4; CInt 20201231; CStr "Text one."] ] |}.

(** An output row whose text is missing in [txt.tsv]. *)
Definition nan_fn : DataFrame :=
  {| columns := fn_columns;
     dtypes := fn_dtypes;
     values :=
       values ex_fn ++
       [ [CStr "A3"; CInt 1003; CStr "Gamma Ltd"; CInt 2834;
          CStr "10-K/A"; CInt 20201231; CInt 20210122;
          CStr "SignificantAccountingPoliciesTextBlock";
          CInt 4; CInt 20201231; CNaN] ] |}.

(** The same observations with the first one recorded twice. *)
Definition dup_txt : DataFrame :=
  {| columns := columns ex_txt;
     dtypes := dtypes ex_txt;
     values := hd [] (values ex_txt) :: values ex_txt |}.

Definition dup_fn : DataFrame :=
  {| columns := fn_columns;
     dtypes := fn_dtypes;
     values := values ex_fn ++ values ex_fn |}.

Definition ex_fn_length : DataFrame :=
  {| columns := fn_columns ++ ["fn_length"%string];
     dtypes := fn_dtypes ++ [Int64];
     values :=
       [ [CStr "A1"; CInt 1001; CStr "Alpha Corp"; CInt 1311;
          CStr "10-K"; CInt 20201231; CInt 20210115;
          CStr "SignificantAccountingPoliciesTextBlock";
          CInt 4; CInt 20201231; CStr "Text one."; CInt 2] ] |}.

(** *** Submissions that share an accession number *)




(** *** Two retained submissions and interleaved observations *)

Definition ord_sub : DataFrame :=
  {| columns := sub_columns;
     dtypes := sub_dtypes;
     values :=
       [ [CStr "B2"; CInt 1002; CStr "Beta Inc"; CInt 7372;
          CStr "10-K/A"; CInt 20201231; CInt 20210120];
         [CStr "B3"; CInt 1003; CStr "Gamma Ltd"; CInt 2834;
          CStr "8-K"; CInt 20201231; CInt 20210121];
         [CStr "B1"; CInt 1001; CStr "Alpha Corp"; CInt 1311;
          CStr "10-K"; CInt 20201231; CInt 20210115] ] |}.

Definition ord_txt : DataFrame :=
  {| columns := txt_columns;
     dtypes := txt_dtypes;
     values :=
       [ [CStr "B1"; CStr "SignificantAccountingPoliciesTextBlock";
          CInt 4; CInt 20201231; CStr "Alpha policies."];
         [CStr "B2"; CStr "SignificantAccountingPoliciesTextBlock";
          CInt 4; CInt 20201231; CStr "Beta policies."];
         [CStr "B3"; CStr "SignificantAccountingPoliciesTextBlock";
          CInt 4; CInt 20201231; CStr "Gamma policies."];
         [CStr "B1"; CStr "IncomeTaxDisclosureTextBlock";
          CInt 4; CInt 20201231; CStr "Alpha taxes."];
         [CStr "B1"; CStr "BasisOfPresentationAndSignificantAccountingPoliciesTextBlock";
          CInt 4; CInt 20201231; CStr "Alpha basis."] ] |}.

(** Its output: the rows of [B2] before those of [B1], as the submissions
    stand, and the two rows of [B1] as its observations stand. *)
Definition ord_fn : DataFrame :=
  {| columns := fn_columns;
     dtypes := fn_dtypes;
     values :=
       [ [CStr "B2"; CInt 1002; CStr "Beta Inc"; CInt 7372;
          CStr "10-K/A"; CInt 20201231; CInt 20210120;
          CStr "SignificantAccountingPoliciesTextBlock";
          CInt 4; CInt 20201231; CStr "Beta policies."];
         [CStr "B1"; CInt 1001; CStr "Alpha Corp"; CInt 1311;
          CStr "10-K"; CInt 20201231; CInt 20210115;
          CStr "SignificantAccountingPoliciesTextBlock";
          CInt 4; CInt 20201231; CStr "Alpha policies."];
         [CStr "B1"; CInt 1001; CStr "Alpha Corp"; CInt 1311;
          CStr "10-K"; CInt 20201231; CInt 20210115;
          CStr "BasisOfPresentationAndSignificantAccountingPoliciesTextBlock";
          CInt 4; CInt 20201231; CStr "Alpha basis."] ] |}.

(** *** Accession numbers loaded as numbers *)


(** The merged table on pandas before 2.2 when no submission is
    retained. *)
Definition empty_fn_key_right : DataFrame :=
  {| columns := fn_columns_key_right;
     dtypes := [Int64; Object; Int64; Object; Int64; Int64;
                Object; Object; Int64; Int64; Object];
     values := [] |}.

(* ===================================================================== *)
(** ** The pipeline with the tag filter first *)
(* ===================================================================== *)

(** The same three steps with the observations filtered by tag before the
    merge instead of after it. *)
Definition df_fn_tags_first (p : platform) (sub txt : DataFrame) (forms tags : list cell) :
    result DataFrame :=
  l <- df_sub_filtered sub forms ;;
  t <- df_txt txt ;;
  tag <- getitem t "tag" ;;
  t' <- getitem_mask t (isin tag tags) ;;
  merge p l t' "adsh".

(** A submissions table without its [form] column. *)
Definition ex_sub_no_form : DataFrame :=
  {| columns := ["adsh"; "cik"; "name"; "sic"; "period"; "filed"]%string;
     dtypes := [Object; Int64; Object; Int64; Int64; Int64];
     values :=
       [ [CStr "A1"; CInt 1001; CStr "Alpha Corp"; CInt 1311;
          CInt 20201231; CInt 20210115] ] |}.

(** An observations table without its [value] column. *)
Definition ex_txt_no_value : DataFrame :=
  {| columns := ["adsh"; "tag"; "qtrs"; "ddate"]%string;
     dtypes := [Object; Object; Int64; Int64];
     values :=
       [ [CStr "A1"; CStr "SignificantAccountingPoliciesTextBlock";
          CInt 4; CInt 20201231] ] |}.

(** The submissions of the small example, their seven columns selected. *)
Definition ex_sub_selected : DataFrame :=
  {| columns := sub_columns;
     dtypes := sub_dtypes;
     values :=
       [ [CStr "A1"; CInt 1001; CStr "Alpha Corp"; CInt 1311;
          CStr "10-K"; CInt 20201231; CInt 20210115];
         [CStr "A2"; CInt 1002; CStr "Beta Inc"; CInt 7372;
          CStr "8-K"; CInt 20201231; CInt 20210120] ] |}.

(** The eleven columns and no row. *)
Definition empty_fn : DataFrame :=
  {| columns := fn_columns; dtypes := fn_dtypes; values := [] |}.

(* ===================================================================== *)
(** ** Integers as text *)
(* ===================================================================== *)

Definition digit_char (n : N) : ascii := ascii_of_N (48 + n).

(** The decimal digits of [n] in front of [acc], last digit first out;
    [fuel] bounds the number of digits. *)
Fixpoint digits_of (fuel : nat) (n : N) (acc : list ascii) : list ascii :=
  match fuel with
  | O => acc
  | S fuel' =>
      let acc' := digit_char (n mod 10) :: acc in
      if N.eqb (n / 10) 0 then acc' else digits_of fuel' (n / 10) acc'
  end.

Definition str_N (n : N) : list ascii :=
  digits_of (S (N.to_nat (N.log2 n))) n [].

(** [str(z)] for an integer. *)
Definition str_int (z : Z) : string :=
  string_of_list_ascii
    (match z with
     | Zneg p => "-"%char :: str_N (Npos p)
     | _ => str_N (Z.to_N z)
     end).

(** One more decimal digit read. *)
Definition digit_step (a : Z) (c : ascii) : Z :=
  (10 * a + (Z.of_nat (nat_of_ascii c) - 48))%Z.

(* ===================================================================== *)
(** ** The word counter *)
(* ===================================================================== *)

Definition code (c : ascii) : nat := nat_of_ascii c.

Definition between (lo hi : nat) (c : ascii) : bool :=
  Nat.leb lo (code c) && Nat.leb (code c) hi.

Definition is_letter (c : ascii) : bool :=
  between 97 122 c || between 65 90 c.

(** The character class [[a-zA-Z\'-]] of [rx_word]. *)
Definition in_class (c : ascii) : bool :=
  is_letter c || Nat.eqb (code c) 39 || Nat.eqb (code c) 45.

(** [\w] of a text pattern: the alphanumeric characters of Unicode and the
    underscore.  Below U+0100 these are the ASCII letters and digits, the
    underscore, and the letters, superscript digits and fractions of the
    Latin-1 supplement. *)
Definition is_word (c : ascii) : bool :=
  is_letter c || between 48 57 c || Nat.eqb (code c) 95 ||
  Nat.eqb (code c) 170 || between 178 179 c || Nat.eqb (code c) 181 ||
  between 185 186 c || between 188 190 c ||
  between 192 214 c || between 216 246 c || between 248 255 c.

Definition word_at (c : option ascii) : bool :=
  match c with
  | Some a => is_word a
  | None => false
  end.

(** [\b]: exactly one of the two neighbours of a position is a word
    character; beyond either end of the text there is none. *)
Definition at_boundary (prev next : option ascii) : bool :=
  xorb (word_at prev) (word_at next).

(** After a class character [prev] has been matched: the number of further
    characters the greedy [+] takes before the closing [\b] succeeds.  The
    longest run is tried first, and the matcher backs off one character at a
    time; [None] when no end of the run is a boundary. *)
Fixpoint word_end (prev : ascii) (s : string) : option nat :=
  match s with
  | EmptyString => if at_boundary (Some prev) None then Some 0 else None
  | String c s' =>
      let stop := if at_boundary (Some prev) (Some c) then Some 0 else None in
      if in_class c then
        match word_end c s' with
        | Some n => Some (S n)
        | None => stop
        end
      else stop
  end.

(** The scan of [findall], left to right.  [prev] is the character before
    the current position; [skip] counts the characters of the last match
    still to step over, since the search resumes where a match ended. *)
Fixpoint scan (skip : nat) (prev : option ascii) (s : string) : list string :=
  match s with
  | EmptyString => []
  | String c s' =>
      match skip with
      | S k => scan k (Some c) s'
      | O =>
          if at_boundary prev (Some c) && in_class c then
            match word_end c s' with
            | Some n => String c (substring 0 n s') :: scan n (Some c) s'
            | None => scan 0 (Some c) s'
            end
          else scan 0 (Some c) s'
      end
  end.

(** [rx_word.findall(text)]: a pattern compiled from text accepts text
    only and raises [TypeError] on any other value. *)
Definition rx_word_findall (text : cell) : result (list string) :=
  match text with
  | CStr s => Ok (scan 0 None s)
  | _ => Raise TypeError
  end.

(** [count_words(text)] *)
Definition count_words (text : cell) : result Z :=
  words <- rx_word_findall text ;;
  Ok (Z.of_nat (length words)).

(** [row[key]] on a row of a frame. *)
Definition row_getitem (labels : list string) (r : row) (key : string) : result cell :=
  match get_loc key labels with
  | None => Raise (KeyError key)
  | Some i => Ok (take r i)
  end.

(** What [df.apply(f, axis=1)] returns: a series of the results, or, on a
    frame without rows or without columns, a copy of the frame itself. *)
Inductive applied : Type :=
| Series (s : list cell)
| Frame (d : DataFrame).

Fixpoint map_rows (f : row -> result cell) (rs : list row) : result (list cell) :=
  match rs with
  | [] => Ok []
  | r :: rs' => v <- f r ;; vs <- map_rows f rs' ;; Ok (v :: vs)
  end.

Definition apply_axis1 (df : DataFrame)
    (f : list string -> row -> result cell) : result applied :=
  if Nat.eqb (length (values df)) 0 || Nat.eqb (length (columns df)) 0
  then Ok (Frame df)
  else s <- map_rows (f (columns df)) (values df) ;; Ok (Series s).

(** The cell at position [i] replaced. *)
Fixpoint set_at (i : nat) (v : cell) (r : row) : row :=
  match r, i with
  | [], _ => []
  | _ :: r', O => v :: r'
  | c :: r', S i' => c :: set_at i' v r'
  end.

(** The type of a series made of Python values: integers of 64 bits make
    an int64 series, numbers with missing values among them a float64
    series, anything else a series of objects. *)
Definition series_dtype (s : list cell) : dtype :=
  match s with
  | [] => Object
  | _ :: _ =>
      if existsb is_str s then Object
      else if existsb is_nan s then Float64
      else if forallb (fun c => match c with CInt z => int64 z | _ => false end) s
      then Int64
      else Object
  end.

(** A column stored under a label: in place when the label is present, as
    a new last column otherwise. *)
Definition set_column (df : DataFrame) (key : string) (d : dtype) (s : list cell) : DataFrame :=
  match get_loc key (columns df) with
  | Some i =>
      {| columns := columns df;
         dtypes := dtypes_with (dtypes df) (length (columns df)) i d;
         values := map (fun rv => set_at i (snd rv) (fst rv)) (combine (values df) s) |}
  | None =>
      {| columns := columns df ++ [key];
         dtypes := dtypes_of df ++ [d];
         values := map (fun rv => fst rv ++ [snd rv]) (combine (values df) s) |}
  end.

(** [df[key] = value].  A series must have the frame's length; a frame is
    accepted only when it has a single column. *)
Definition setitem (df : DataFrame) (key : string) (value : applied) : result DataFrame :=
  match value with
  | Series s =>
      if Nat.eqb (length s) (length (values df))
      then Ok (set_column df key (series_dtype s) s)
      else Raise ValueError
  | Frame d =>
      match columns d with
      | [_] => Ok (set_column df key (dtype_at (dtypes d) 0)
                              (map (fun r => take r 0) (values d)))
      | _ => Raise ValueError
      end
  end.

(** [df_fn['fn_length'] =
       df_fn.apply(lambda row: count_words(row['value']), axis = 1)] *)
Definition add_fn_length (df : DataFrame) : result DataFrame :=
  lengths <- apply_axis1 df (fun labels r =>
               v <- row_getitem labels r "value" ;;
               n <- count_words v ;;
               Ok (CInt n)) ;;
  setitem df "fn_length" lengths.

(* ===================================================================== *)
(** ** Writing and loading tab-separated tables *)
(* ===================================================================== *)

(** The content of a text file is the list of its characters. *)

Definition TAB : ascii := ascii_of_nat 9.
Definition LF : ascii := ascii_of_nat 10.
Definition CR : ascii := ascii_of_nat 13.
Definition QUOTE : ascii := ascii_of_nat 34.
Definition NUL : ascii := ascii_of_nat 0.
Definition SPACE : ascii := ascii_of_nat 32.

Definition chars (s : string) : list ascii := list_ascii_of_string s.

Definition has_nul (t : list ascii) : bool := existsb (Ascii.eqb NUL) t.

(** *** The writer *)


(** [f] on each element in turn, up to the first error. *)
Fixpoint for_each {A B : Type} (f : A -> result B) (l : list A) : result (list B) :=
  match l with
  | [] => Ok []
  | a :: l' => b <- f a ;; bs <- for_each f l' ;; Ok (b :: bs)
  end.








(** *** The tokenizer of the loader *)

(** The states of pandas' tokenizer that a file with tab as delimiter, the
    double quote as quote character and no escape or comment character can
    reach.  [LOST] stands for the one situation that is not followed: a
    line that begins with blanks right after a line ended by a carriage
    return alone, where the tokenizer steps back to an earlier line. *)
Inductive tstate : Type :=
| START_RECORD
| START_FIELD
| IN_FIELD
| IN_QUOTED_FIELD
| QUOTE_IN_QUOTED_FIELD
| EAT_CRNL
| EAT_CRNL_NOP
| WHITESPACE_LINE
| LOST.

Record parser_t : Type := mkParser {
  state : tstate;
  word : list ascii;                 (* the field being read *)
  line : list (list ascii);          (* the fields of the line being read *)
  lines : list (list (list ascii));  (* the lines read *)
  blanks : nat;                      (* the blanks a line began with *)
  after_cr : bool                    (* the line follows a bare carriage return *)
}.

Definition parser_init : parser_t :=
  {| state := START_RECORD; word := []; line := []; lines := [];
     blanks := 0; after_cr := false |}.

Definition set_state (s : tstate) (t : parser_t) : parser_t :=
  {| state := s; word := word t; line := line t; lines := lines t;
     blanks := blanks t; after_cr := after_cr t |}.

Definition push_char (c : ascii) (t : parser_t) : parser_t :=
  {| state := state t; word := word t ++ [c]; line := line t; lines := lines t;
     blanks := blanks t; after_cr := after_cr t |}.

Definition end_field (t : parser_t) : parser_t :=
  {| state := state t; word := []; line := line t ++ [word t]; lines := lines t;
     blanks := blanks t; after_cr := after_cr t |}.

(** The line is closed; [cr] tells whether the next one follows a
    carriage return with no line feed after it. *)
Definition end_line (cr : bool) (t : parser_t) : parser_t :=
  {| state := state t; word := []; line := []; lines := lines t ++ [line t];
     blanks := 0; after_cr := cr |}.

Definition next_line (cr : bool) (t : parser_t) : parser_t :=
  {| state := START_RECORD; word := []; line := []; lines := lines t;
     blanks := 0; after_cr := cr |}.

Definition start_field (c : ascii) (t : parser_t) : parser_t :=
  if Ascii.eqb c LF then set_state START_RECORD (end_line false (end_field t))
  else if Ascii.eqb c CR then set_state EAT_CRNL (end_field t)
  else if Ascii.eqb c QUOTE then set_state IN_QUOTED_FIELD t
  else if Ascii.eqb c TAB then set_state START_FIELD (end_field t)
  else set_state IN_FIELD (push_char c t).

Definition in_field (c : ascii) (t : parser_t) : parser_t :=
  if Ascii.eqb c LF then set_state START_RECORD (end_line false (end_field t))
  else if Ascii.eqb c CR then set_state EAT_CRNL (end_field t)
  else if Ascii.eqb c TAB then set_state START_FIELD (end_field t)
  else push_char c t.

Definition in_quoted_field (c : ascii) (t : parser_t) : parser_t :=
  if Ascii.eqb c QUOTE then set_state QUOTE_IN_QUOTED_FIELD t
  else push_char c t.

Definition quote_in_quoted_field (c : ascii) (t : parser_t) : parser_t :=
  if Ascii.eqb c QUOTE then set_state IN_QUOTED_FIELD (push_char c t)
  else if Ascii.eqb c TAB then set_state START_FIELD (end_field t)
  else if Ascii.eqb c LF then set_state START_RECORD (end_line false (end_field t))
  else if Ascii.eqb c CR then set_state EAT_CRNL (end_field t)
  else set_state IN_FIELD (push_char c t).

(** At the start of a line: an empty line is skipped, a blank opens a
    line that may hold blanks only, anything else starts a field. *)
Definition start_record (c : ascii) (t : parser_t) : parser_t :=
  if Ascii.eqb c LF then next_line false t
  else if Ascii.eqb c CR then set_state EAT_CRNL_NOP t
  else if Ascii.eqb c SPACE then
    {| state := WHITESPACE_LINE; word := []; line := []; lines := lines t;
       blanks := 1; after_cr := after_cr t |}
  else start_field c t.

(** In a line of blanks so far: its end skips the line; any other
    character makes the tokenizer read the line again as fields, from the
    character after the last line feed. *)
Definition whitespace_line (c : ascii) (t : parser_t) : parser_t :=
  if Ascii.eqb c LF then next_line false t
  else if Ascii.eqb c CR then set_state EAT_CRNL_NOP t
  else if Ascii.eqb c SPACE then
    {| state := WHITESPACE_LINE; word := []; line := []; lines := lines t;
       blanks := S (blanks t); after_cr := after_cr t |}
  else if after_cr t then set_state LOST t
  else
    in_field c
      {| state := IN_FIELD; word := repeat SPACE (blanks t); line := [];
         lines := lines t; blanks := 0; after_cr := false |}.

(** After the carriage return that ended a field: a line feed belongs to
    the line end; a tab ends the line and the first, empty field of the next
    one; any other character starts the next line. *)
Definition eat_crnl (c : ascii) (t : parser_t) : parser_t :=
  if Ascii.eqb c LF then set_state START_RECORD (end_line false t)
  else if Ascii.eqb c TAB then set_state START_FIELD (end_field (end_line true t))
  else start_record c (set_state START_RECORD (end_line true t)).

(** After the carriage return of a skipped line: a line feed or a tab is
    swallowed, any other character starts the next line. *)
Definition eat_crnl_nop (c : ascii) (t : parser_t) : parser_t :=
  if Ascii.eqb c LF then next_line false t
  else if Ascii.eqb c TAB then next_line true t
  else start_record c (next_line true t).

Definition step (t : parser_t) (c : ascii) : parser_t :=
  match state t with
  | START_RECORD => start_record c t
  | START_FIELD => start_field c t
  | IN_FIELD => in_field c t
  | IN_QUOTED_FIELD => in_quoted_field c t
  | QUOTE_IN_QUOTED_FIELD => quote_in_quoted_field c t
  | EAT_CRNL => eat_crnl c t
  | EAT_CRNL_NOP => eat_crnl_nop c t
  | WHITESPACE_LINE => whitespace_line c t
  | LOST => t
  end.

(** The end of the file: a field or a line under way is closed; an open
    quote is an error. *)
Definition at_eof (t : parser_t) : result (list (list (list ascii))) :=
  match state t with
  | START_RECORD | WHITESPACE_LINE | EAT_CRNL_NOP => Ok (lines t)
  | START_FIELD | IN_FIELD | QUOTE_IN_QUOTED_FIELD =>
      Ok (lines (end_line false (end_field t)))
  | EAT_CRNL => Ok (lines (end_line false t))
  | IN_QUOTED_FIELD => Raise ParserError
  | LOST => Raise Unmodelled
  end.

(** The lines of a file, each the list of its fields.  The file is taken
    in one piece: the tokenizer's read buffer, at whose boundaries a line
    that begins with blanks can lose them, is not followed. *)
Definition tokenize (text : list ascii) : result (list (list (list ascii))) :=
  at_eof (fold_left step text parser_init).

(** *** The fields of a column *)

(** The fields [read_csv] takes for missing by default; [None] is one of
    them from pandas 2.0 on. *)
Definition na_values (p : platform) : list string :=
  [EmptyString; "#N/A"; "#N/A N/A"; "#NA"; "-1.#IND"; "-1.#QNAN"; "-NaN"; "-nan";
   "1.#IND"; "1.#QNAN"; "<NA>"; "N/A"; "NA"; "NULL"; "NaN"]%string ++
  (if none_is_missing p then ["None"%string] else []) ++
  ["n/a"; "nan"; "null"]%string.

Definition is_na (p : platform) (t : list ascii) : bool :=
  existsb (String.eqb (string_of_list_ascii t)) (na_values p).

Definition is_space (c : ascii) : bool :=
  Nat.eqb (code c) 32 || between 9 13 c.

Definition is_digit (c : ascii) : bool := between 48 57 c.

Fixpoint skip_spaces (s : list ascii) : list ascii :=
  match s with
  | c :: s' => if is_space c then skip_spaces s' else s
  | [] => []
  end.

(** The leading digits of a text added to [acc], and what follows them. *)
Fixpoint digits (acc : Z) (s : list ascii) : Z * list ascii :=
  match s with
  | c :: s' =>
      if is_digit c then digits (10 * acc + (Z.of_nat (code c) - 48)) s'
      else (acc, s)
  | [] => (acc, [])
  end.

(** The loader's [str_to_int64]: blanks, an optional sign, at least one
    digit, blanks, and nothing else; [None] also when the number does not
    fit 64 bits. *)
Definition str_to_int64 (t : list ascii) : option Z :=
  let p := skip_spaces t in
  let '(neg, p) :=
    match p with
    | c :: p' =>
        if Ascii.eqb c "-" then (true, p')
        else if Ascii.eqb c "+" then (false, p')
        else (false, p)
    | [] => (false, p)
    end in
  match p with
  | c :: _ =>
      if is_digit c then
        let '(n, rest) := digits 0 p in
        let v := if neg then (- n)%Z else n in
        match skip_spaces rest with
        | [] => if int64 v then Some v else None
        | _ :: _ => None
        end
      else None
  | [] => None
  end.

Definition parses_int (t : list ascii) : bool :=
  match str_to_int64 t with
  | Some _ => true
  | None => false
  end.

(** The floating-point fields that the model follows: an optional minus
    sign, one to fifteen digits and, optionally, a dot and the digit 0.
    Every float parser of the loader reads them without rounding, as the
    whole number they show.  Minus zero is not among them. *)
Definition float_value (t : list ascii) : option Z :=
  let '(neg, body) :=
    match t with
    | c :: t' => if Ascii.eqb c "-" then (true, t') else (false, t)
    | [] => (false, t)
    end in
  let '(n, rest) := digits 0 body in
  let nd := length body - length rest in
  let tail_ok :=
    match rest with
    | [] => true
    | [d; z] => Ascii.eqb d "." && Ascii.eqb z "0"
    | _ => false
    end in
  if Nat.leb 1 nd && Nat.leb nd 15 && tail_ok && negb (neg && Z.eqb n 0)
  then Some (if neg then (- n)%Z else n)
  else None.

Definition is_float (t : list ascii) : bool :=
  match float_value t with
  | Some _ => true
  | None => false
  end.

Definition lower (c : ascii) : ascii :=
  if between 65 90 c then ascii_of_nat (code c + 32) else c.

(** A bound from above on the fields the loader may read as a number:
    blanks, an optional sign, digits with at most one dot among or beside
    them and at least one digit, optionally an exponent mark with an
    optional sign and digits, and blanks.  The integer and the float
    parsers of every release accept no other shape. *)
Fixpoint skip_digits (s : list ascii) : list ascii :=
  match s with
  | c :: s' => if is_digit c then skip_digits s' else s
  | [] => []
  end.

Definition skip_sign (s : list ascii) : list ascii :=
  match s with
  | c :: s' => if Ascii.eqb c "+" || Ascii.eqb c "-" then s' else s
  | [] => []
  end.

Definition skip_fraction (s : list ascii) : list ascii :=
  match s with
  | c :: s' => if Ascii.eqb c "." then skip_digits s' else s
  | [] => []
  end.

Definition skip_exponent (s : list ascii) : list ascii :=
  match s with
  | c :: s' =>
      if Ascii.eqb c "e" || Ascii.eqb c "E" then skip_digits (skip_sign s') else s
  | [] => []
  end.

Definition number_shaped (t : list ascii) : bool :=
  let body := skip_sign (skip_spaces t) in
  let rest := skip_fraction (skip_digits body) in
  let mantissa := firstn (length body - length rest) body in
  existsb is_digit mantissa &&
  match skip_spaces (skip_exponent rest) with
  | [] => true
  | _ :: _ => false
  end.

(** The words the loader reads as a number or as a boolean, in any case;
    blanks and signs are set aside before the comparison, which makes
    this a bound from above as well. *)
Definition typed_words : list string :=
  ["inf"; "infinity"; "nan"; "true"; "false"]%string.

Definition bare_word (t : list ascii) : string :=
  string_of_list_ascii
    (map lower
       (filter (fun c => negb (is_space c || Ascii.eqb c "+" || Ascii.eqb c "-")) t)).

Definition looks_typed (t : list ascii) : bool :=
  number_shaped t || existsb (String.eqb (bare_word t)) typed_words.


(** *** The types of the columns *)

(** What the loader makes of the fields of a column that it converts
    together.  [KOther] stands for what the cells of this model do not
    cover: booleans, integers beyond 64 bits, floating-point numbers other
    than those of [float_value]. *)
Inductive kind : Type :=
| KInt64
| KFloat64
| KObject
| KOther.

Definition exact (z : Z) : bool := Z.leb (Z.abs z) (2 ^ 53).

Definition exact_int (t : list ascii) : bool :=
  match str_to_int64 t with
  | Some z => exact z
  | None => false
  end.

(** The loader tries 64-bit integers, then floating-point numbers, then
    booleans, and settles for text.  Missing fields are passed over in each
    attempt, and turn a column of integers into one of floating-point
    numbers. *)
Definition infer (p : platform) (tokens : list (list ascii)) : kind :=
  let present := filter (fun t => negb (is_na p t)) tokens in
  if forallb parses_int present then
    if Nat.eqb (length present) (length tokens) then KInt64
    else if forallb exact_int present then KFloat64
    else KOther
  else if forallb is_float present then KFloat64
  else if forallb looks_typed present then KOther
  else KObject.

Definition convert (p : platform) (k : kind) (t : list ascii) : cell :=
  match k with
  | KInt64 =>
      match str_to_int64 t with
      | Some z => CInt z
      | None => CNaN
      end
  | KFloat64 =>
      if is_na p t then CNaN
      else
        match str_to_int64 t with
        | Some z => CInt z
        | None =>
            match float_value t with
            | Some z => CInt z
            | None => CNaN
            end
        end
  | KObject => if is_na p t then CNaN else CStr (string_of_list_ascii t)
  | KOther => CNaN
  end.

(** *** Reading in chunks *)

(** With [low_memory], its default, the loader converts the rows of a file
    in chunks of [buffer_lines] rows: the largest power of two whose double
    is not below 2^20 divided by the number of columns. *)
Fixpoint grow (fuel : nat) (b heuristic : N) : N :=
  match fuel with
  | O => b
  | S fuel' => if N.ltb (b * 2) heuristic then grow fuel' (b * 2) heuristic else b
  end.

Definition buffer_lines (table_width : nat) : N :=
  grow 20 1 (2 ^ 20 / N.of_nat table_width).

(** The chunks of [size] rows, the last one shorter; [k] rows of the first
    chunk have been taken already. *)
Fixpoint split_chunks {A : Type} (size k : N) (rows : list A) : list (list A) :=
  match rows with
  | [] => []
  | r :: rows' =>
      if N.leb size (k + 1) then [r] :: split_chunks size 0 rows'
      else
        match split_chunks size (k + 1) rows' with
        | c :: cs => (r :: c) :: cs
        | [] => [[r]]
        end
  end.

(** A chunk of rows of [n] fields each, converted on its own: the kind of
    each column, and the rows of cells. *)
Definition chunk_kinds (p : platform) (n : nat) (rows : list (list (list ascii))) : list kind :=
  map (fun j => infer p (map (fun r => nth j r []) rows)) (seq 0 n).

Definition kind_at (ks : list kind) (j : nat) : kind := nth j ks KOther.

Definition convert_chunk (p : platform) (n : nat) (ks : list kind)
  (rows : list (list (list ascii))) : list row :=
  map (fun r => map (fun j => convert p (kind_at ks j) (nth j r [])) (seq 0 n)) rows.

Definition read_chunk (p : platform) (n : nat) (rows : list (list (list ascii)))
  : list kind * list row :=
  let ks := chunk_kinds p n rows in (ks, convert_chunk p n ks rows).

Definition is_kind (a b : kind) : bool :=
  match a, b with
  | KInt64, KInt64 | KFloat64, KFloat64 | KObject, KObject | KOther, KOther => true
  | _, _ => false
  end.

(** The type of a column whose chunks were given the kinds [ks]: the
    chunks are concatenated, integers with floating-point numbers give
    floating-point numbers, and anything with text gives objects.  A file
    without rows gives columns of objects. *)
Definition join_kinds (ks : list kind) : result dtype :=
  if existsb (is_kind KOther) ks then Raise Unmodelled
  else if existsb (is_kind KObject) ks then Ok Object
  else if existsb (is_kind KFloat64) ks then Ok Float64
  else
    match ks with
    | [] => Ok Object
    | _ :: _ => Ok Int64
    end.

(** A cell of a chunk in the concatenated column: an integer among
    floating-point numbers must be one a double holds exactly, and a
    floating-point number among objects would be a Python float, which the
    cells do not cover. *)
Definition cast_ok (d : dtype) (k : kind) (c : cell) : bool :=
  match d, k with
  | Float64, KInt64 => exact_double c
  | Object, KFloat64 => is_nan c
  | _, _ => true
  end.

Definition chunk_cast_ok (n : nat) (ds : list dtype) (chunk : list kind * list row) : bool :=
  forallb (fun r => forallb (fun j => cast_ok (dtype_at ds j) (kind_at (fst chunk) j) (take r j))
                            (seq 0 n))
          (snd chunk).

Fixpoint distinct (ls : list string) : bool :=
  match ls with
  | [] => true
  | l :: ls' => negb (mem_label l ls') && distinct ls'
  end.

(** Labels the loader takes as they are: none empty, none repeated. *)
Definition plain_header (names : list string) : bool :=
  negb (mem_label EmptyString names) && distinct names.

Definition pad (n : nat) (r : list (list ascii)) : list (list ascii) :=
  r ++ repeat [] (n - length r).

(** Short rows are filled with missing fields.  A row with more fields than
    the header is an error, unless it is the first one: then its leading
    fields would become an index, which is outside the model. *)
Fixpoint pad_rows (n : nat) (first : bool) (rows : list (list (list ascii)))
  : result (list (list (list ascii))) :=
  match rows with
  | [] => Ok []
  | r :: rows' =>
      if Nat.ltb n (length r)
      then Raise (if first then Unmodelled else ParserError)
      else rest <- pad_rows n false rows' ;; Ok (pad n r :: rest)
  end.

(** [pd.read_csv(file, sep = '\t')]: the first line that is not blank gives
    the labels, every later such line a row; the types of the columns are
    inferred chunk by chunk.  Empty or repeated labels, which the loader
    renames, and NUL characters are outside the model. *)
Definition read_csv (p : platform) (text : list ascii) : result DataFrame :=
  if has_nul text then Raise Unmodelled
  else
    ls <- tokenize text ;;
    match ls with
    | [] => Raise EmptyDataError
    | h :: body =>
        let names := map string_of_list_ascii h in
        let n := length names in
        if negb (plain_header names) then Raise Unmodelled
        else
          rows <- pad_rows n true body ;;
          let read := map (read_chunk p n) (split_chunks (buffer_lines n) 0 rows) in
          ds <- for_each (fun j => join_kinds (map (fun c => kind_at (fst c) j) read))
                         (seq 0 n) ;;
          if forallb (chunk_cast_ok n ds) read
          then Ok {| columns := names; dtypes := ds; values := concat (map snd read) |}
          else Raise Unmodelled
    end.


(** *** Tables that survive being written and loaded again *)

Definition sign_or_digit (c : ascii) : bool := is_digit c || Ascii.eqb c "-".









(** *** An output whose text looks like a number *)





(** *** Written fields and the states of the tokenizer that read them *)















(** *** Outputs with a missing-value marker, a carriage return, quoted
    fields *)







(* ===================================================================== *)
(** ** Example files *)
(* ===================================================================== *)

(** A file of blank lines only. *)
Definition blank_tsv : list ascii :=
  list_ascii_of_string "   " ++ [LF] ++ [LF] ++ list_ascii_of_string " " ++ [LF].



(* ===================================================================== *)
(** ** The download *)
(* ===================================================================== *)

(** What a file holds: a zip archive, given by its members (name and
    data) in the order of the archive, or any other bytes.  The names are
    those [ZipInfo] reports. *)
Inductive content : Type :=
| Archive (members : list (string * string))
| Bytes (data : string).

Inductive node : Type :=
| File (c : content)
| Directory.

(** The answer to a GET request: the status and the body stream. *)
Record response : Type := mkResponse {
  status_code : Z;
  raw : content
}.

(** The state the download acts on: the local file system, the requests
    sent so far, and the remote end, which answers a request in view of
    the earlier ones or fails in transport. *)
Record world : Type := mkWorld {
  fs : string -> option node;
  requests : list string;
  server : list string -> string -> result response
}.

(** What a Python call returns: [download_xbrl_fin_notes] has no [return]
    statement, so it hands back [None]. *)
Inductive retval : Type :=
| NoneValue
| PathValue (p : string).

(** [format(z, '02')] for an integer: zero-padded to width two, the sign
    counted in the width. *)

Definition format_02 (z : Z) : string :=
  let s := str_int z in
  if Nat.ltb (String.length s) 2 then ("0" ++ s)%string else s.

(** [a / b] on paths, for a path [a] as [Path.cwd()] returns it: absolute,
    without a trailing slash. *)
Definition path_join (a b : string) : string := (a ++ "/" ++ b)%string.

(** The prefix of a name before its last dot, when that dot is neither the
    first nor the last character. *)
Fixpoint before_last_dot (s : string) : option string :=
  match s with
  | EmptyString => None
  | String c s' =>
      match before_last_dot s' with
      | Some p => Some (String c p)
      | None =>
          if Ascii.eqb c "." then
            match s' with
            | EmptyString => None
            | _ => Some EmptyString
            end
          else None
      end
  end.

(** [Path(name).stem] *)
Definition stem (name : string) : string :=
  match name with
  | EmptyString => name
  | String c s' =>
      match before_last_dot s' with
      | Some p => String c p
      | None => name
      end
  end.

Definition exists_ (w : world) (p : string) : bool :=
  match fs w p with
  | Some _ => true
  | None => false
  end.

Definition put (p : string) (n : node) (f : string -> option node) : string -> option node :=
  fun q => if String.eqb q p then Some n else f q.

(** [requests.get(url, stream = True)] *)
Definition requests_get (url : string) (w : world) : result response * world :=
  (server w (requests w) url,
   {| fs := fs w; requests := requests w ++ [url]; server := server w |}).

(** [with open(p, 'wb') as file: shutil.copyfileobj(body, file)] *)
Definition write_file (p : string) (body : content) (w : world) : world :=
  {| fs := put p (File body) (fs w); requests := requests w; server := server w |}.

(** [p.mkdir(exist_ok=True, parents=True)] *)
Definition mkdir_exist_ok (p : string) (w : world) : result world :=
  match fs w p with
  | Some (File _) => Raise FileExistsError
  | Some Directory => Ok w
  | None =>
      Ok {| fs := put p Directory (fs w); requests := requests w; server := server w |}
  end.

(** *** Extraction *)

(** The pieces of a name between its slashes. *)
Fixpoint split_slash (s : string) : list string :=
  match s with
  | EmptyString => [EmptyString]
  | String c s' =>
      if Ascii.eqb c "/" then EmptyString :: split_slash s'
      else
        match split_slash s' with
        | x :: xs => String c x :: xs
        | [] => [String c EmptyString]
        end
  end.

(** The pieces [zipfile] drops from a member name: empty ones, which a
    leading, a trailing or a doubled slash leaves, and the names of the
    current and of the parent folder. *)
Definition invalid_part (x : string) : bool :=
  String.eqb x "" || String.eqb x "." || String.eqb x "..".

Definition arcname_parts (name : string) : list string :=
  filter (fun x => negb (invalid_part x)) (split_slash name).

Fixpoint last_char (s : string) : option ascii :=
  match s with
  | EmptyString => None
  | String c EmptyString => Some c
  | String _ s' => last_char s'
  end.

(** [ZipInfo.is_dir]: the name of a folder entry ends with a slash. *)
Definition is_dir (name : string) : bool :=
  match last_char name with
  | Some c => Ascii.eqb c "/"
  | None => false
  end.

(** The path of the pieces below a folder. *)
Definition below (folder : string) (parts : list string) : string :=
  path_join folder (String.concat "/" parts).

(** The folders above the target, made where they are missing, from the
    extraction folder down; [done] are the pieces already passed. *)
Fixpoint make_upper_dirs (folder : string) (done dirs : list string)
    (f : string -> option node) : result (string -> option node) :=
  match dirs with
  | [] => Ok f
  | d :: dirs' =>
      let p := below folder (done ++ [d]) in
      match f p with
      | Some (File _) => Raise NotADirectoryError
      | Some Directory => make_upper_dirs folder (done ++ [d]) dirs' f
      | None => make_upper_dirs folder (done ++ [d]) dirs' (put p Directory f)
      end
  end.

(** [ZipFile._extract_member] on a POSIX system.  The target is the
    extraction folder followed by the valid pieces of the member name; the
    folders above it are made; a folder entry becomes a folder, any other
    entry a file with the member's data, written over a file that is
    there.  A name without a valid piece that is no folder entry is
    refused in a way that depends on the Python release, which the model
    leaves open. *)
Definition extract_member (folder : string) (m : string * string)
    (f : string -> option node) : result (string -> option node) :=
  let parts := arcname_parts (fst m) in
  match parts with
  | [] => if is_dir (fst m) then Ok f else Raise Unmodelled
  | _ :: _ =>
      let target := below folder parts in
      f1 <- make_upper_dirs folder [] (removelast parts) f ;;
      if is_dir (fst m) then
        match f1 target with
        | Some Directory => Ok f1
        | Some (File _) => Raise FileExistsError
        | None => Ok (put target Directory f1)
        end
      else
        match f1 target with
        | Some Directory => Raise IsADirectoryError
        | _ => Ok (put target (File (Bytes (snd m))) f1)
        end
  end.

(** The data of the last member of a name: [extractall] goes through the
    names of the archive and looks every name up, and of two members with
    one name the look-up finds the second. *)
Fixpoint last_data (name : string) (ms : list (string * string)) (d : string) : string :=
  match ms with
  | [] => d
  | m :: ms' =>
      last_data name ms' (if String.eqb (fst m) name then snd m else d)
  end.

Fixpoint extract_each (folder : string) (all ms : list (string * string))
    (f : string -> option node) : option exn * (string -> option node) :=
  match ms with
  | [] => (None, f)
  | m :: ms' =>
      match extract_member folder (fst m, last_data (fst m) all (snd m)) f with
      | Raise e => (Some e, f)
      | Ok f' => extract_each folder all ms' f'
      end
  end.

(** [zip.extractall(folder)]: the members in the order of the archive, up
    to the first that fails. *)
Definition extractall (folder : string) (members : list (string * string)) (w : world) :
    option exn * world :=
  let (e, f) := extract_each folder members members (fs w) in
  (e, {| fs := f; requests := requests w; server := server w |}).

(** What an extraction leaves alone: nothing that was there goes away,
    and no path other than those below the folder changes. *)
Definition kept (folder : string) (f f' : string -> option node) : Prop :=
  (forall p, f p <> None -> f' p <> None) /\
  (forall p, (forall x, p <> path_join folder x) -> f' p = f p).

Definition base_url : string :=
  "https://www.sec.gov/files/dera/data/financial-statement-and-notes-data-sets/".

Section Download.

(** The notebook's [working_folder]. *)
Variable working_folder : string.

Definition filename (year month : Z) : string :=
  (str_int year ++ "_" ++ format_02 month ++ "_notes.zip")%string.

Definition url (year month : Z) : string :=
  (base_url ++ filename year month)%string.

Definition output_file (year month : Z) : string :=
  path_join working_folder (filename year month).

Definition output_folder (year month : Z) : string :=
  path_join working_folder (stem (filename year month)).

Definition download_xbrl_fin_notes (year month : Z) (w : world) : result retval * world :=
  (* do nothing if the output file already exists *)
  if exists_ w (output_file year month) then (Ok NoneValue, w)
  else
    match requests_get (url year month) w with
    | (Raise e, w1) => (Raise e, w1)
    | (Ok req, w1) =>
        (* if the request is successful (with status code of 200), proceed *)
        if Z.eqb (status_code req) 200 then
          let w2 := write_file (output_file year month) (raw req) w1 in
          match fs w2 (output_file year month) with
          | Some (File (Archive members)) =>
              match mkdir_exist_ok (output_folder year month) w2 with
              | Raise e => (Raise e, w2)
              | Ok w3 =>
                  match extractall (output_folder year month) members w3 with
                  | (Some e, w4) => (Raise e, w4)
                  | (None, w4) => (Ok NoneValue, w4)
                  end
              end
          | _ => (Raise BadZipFile, w2)
          end
        else (Ok NoneValue, w1)
    end.

End Download.

(** *** Example worlds *)

Definition empty_fs : string -> option node := fun _ => None.

Definition not_found : response :=
  {| status_code := 404; raw := Bytes "Not Found" |}.

Definition notes_archive : content :=
  Archive [("sub.tsv", "adsh"); ("txt.tsv", "adsh")]%string.

(** Nothing on disk, and a remote end that answers 404. *)
Definition w404 : world :=
  {| fs := empty_fs; requests := []; server := fun _ _ => Ok not_found |}.

(** The archive on disk, its extraction folder absent. *)
Definition w_archive_only : world :=
  {| fs := put "/work/2021_01_notes.zip" (File notes_archive) empty_fs;
     requests := [];
     server := fun _ _ => Ok {| status_code := 200; raw := notes_archive |} |}.

(** Nothing on disk, and a remote end that serves the archive. *)
Definition w200 : world :=
  {| fs := empty_fs;
     requests := [];
     server := fun _ _ => Ok {| status_code := 200; raw := notes_archive |} |}.

(* ===================================================================== *)
(** ** The files the loader reads *)
(* ===================================================================== *)

(** [f'{year}_{month:02}_notes'], the folder name the loading cells build. *)
Definition notes_folder (year month : Z) : string :=
  (str_int year ++ "_" ++ format_02 month ++ "_notes")%string.

(** [sub_file = working_folder / f'{year}_{month:02}_notes' / 'sub.tsv'] *)
Definition sub_file (working_folder : string) (year month : Z) : string :=
  path_join (path_join working_folder (notes_folder year month)) "sub.tsv".

(** [txt_file = working_folder / f'{year}_{month:02}_notes' / 'txt.tsv'] *)
Definition txt_file (working_folder : string) (year month : Z) : string :=
  path_join (path_join working_folder (notes_folder year month)) "txt.tsv".

(** Nothing on disk, and a remote end that answers 200 with a body that is
    no archive. *)
Definition w200_garbage : world :=
  {| fs := empty_fs;
     requests := [];
     server := fun _ _ => Ok {| status_code := 200; raw := Bytes "<html>busy</html>" |} |}.

(** A file where the extraction folder should go, and a remote end that
    serves the archive. *)
Definition w_folder_taken : world :=
  {| fs := put "/work/2021_01_notes" (File (Bytes "notes")) empty_fs;
     requests := [];
     server := fun _ _ => Ok {| status_code := 200; raw := notes_archive |} |}.

(** A name without a slash that is a valid piece: the name of a file at
    the top level of an archive, as the files of the data sets are. *)
Definition no_slash (s : string) : bool :=
  forallb (fun c => negb (Ascii.eqb c "/")) (list_ascii_of_string s).

Definition flat_name (name : string) : bool :=
  no_slash name && negb (invalid_part name).

(** An archive with a member that names the parent folder, a folder entry
    and a member in that folder. *)
Definition nested_archive : content :=
  Archive [("../evil.txt", "x"); ("docs/", ""); ("docs/readme.htm", "r")]%string.

Definition w200_nested : world :=
  {| fs := empty_fs;
     requests := [];
     server := fun _ _ => Ok {| status_code := 200; raw := nested_archive |} |}.

(** A decimal text read back, sign first. *)
Definition int_of_text (s : string) : Z :=
  match list_ascii_of_string s with
  | c :: l =>
      if Ascii.eqb c "-" then (- fold_left digit_step l 0)%Z
      else fold_left digit_step (c :: l) 0%Z
  | [] => 0%Z
  end.

(** A text without underscore, as the decimal texts are. *)
Definition no_underscore (s : string) : Prop :=
  forallb (fun c => negb (Ascii.eqb c "_")) (list_ascii_of_string s) = true.

(* ===================================================================== *)
(** * Properties *)
(* ===================================================================== *)

(** Inversion of a successful [bind]. *)
Ltac bind_inv H :=
  match type of H with
  | bind ?c _ = Ok _ =>
      let E := fresh "E" in
      destruct c eqn:E; simpl in H; [| discriminate H]
  end.

(** ** Cells and masks *)

Lemma cell_eqb_eq (a b : cell) : cell_eqb a b = true <-> a = b.
Proof.
  destruct a, b; simpl; split; intro H;
    try discriminate; try reflexivity.
  - apply String.eqb_eq in H. congruence.
  - inversion H. apply String.eqb_refl.
  - apply Z.eqb_eq in H. congruence.
  - inversion H. apply Z.eqb_refl.
Qed.

Lemma cell_eqb_refl (a : cell) : cell_eqb a a = true.
Proof. apply cell_eqb_eq. reflexivity. Qed.

Lemma isin_In (v : cell) (vals : list cell) :
  existsb (cell_eqb v) vals = true <-> In v vals.
Proof.
  rewrite existsb_exists. split.
  - intros [x [Hx E]]. apply cell_eqb_eq in E. now subst.
  - intro H. exists v. split; [assumption | apply cell_eqb_refl].
Qed.

Lemma select_map (f : row -> bool) (rs : list row) :
  select (map f rs) rs = filter f rs.
Proof.
  induction rs as [| r rs IH]; simpl; [reflexivity |].
  destruct (f r); now rewrite IH.
Qed.

(** A frame filtered by the membership of one of its columns. *)
Lemma getitem_mask_isin (d : DataFrame) (key : string) (i : nat) (vals : list cell) :
  get_loc key (columns d) = Some i ->
  (col <- getitem d key ;; getitem_mask d (isin col vals)) =
  Ok {| columns := columns d;
        dtypes := dtypes d;
        values := filter (fun r => existsb (cell_eqb (take r i)) vals) (values d) |}.
Proof.
  intro H. unfold getitem. rewrite H. simpl.
  unfold getitem_mask, isin. rewrite !length_map, Nat.eqb_refl.
  rewrite map_map, select_map. reflexivity.
Qed.

(** ** Column selection *)

Lemma get_indexer_length (labels keys : list string) (ixs : list nat) :
  get_indexer labels keys = Ok ixs -> length ixs = length keys.
Proof.
  revert ixs. induction keys as [| k ks IH]; simpl; intros ixs H.
  - now inversion H.
  - destruct (get_loc k labels); [| discriminate].
    bind_inv H. inversion H. simpl. f_equal. now apply IH.
Qed.

Lemma getitem_list_Ok (df d : DataFrame) (keys : list string) :
  getitem_list df keys = Ok d ->
  exists ixs,
    get_indexer (columns df) keys = Ok ixs /\
    d = {| columns := keys;
           dtypes := map (dtype_at (dtypes df)) ixs;
           values := map (fun r => map (take r) ixs) (values df) |}.
Proof.
  unfold getitem_list. intro H. bind_inv H. inversion H. now exists a.
Qed.

(** Every row of a selection has one cell per requested label. *)
Lemma getitem_list_width (df d : DataFrame) (keys : list string) :
  getitem_list df keys = Ok d ->
  columns d = keys /\ Forall (fun r => length r = length keys) (values d).
Proof.
  intro H. destruct (getitem_list_Ok _ _ _ H) as [ixs [Hi ->]]. simpl.
  split; [reflexivity |].
  apply Forall_forall. intros r Hr. apply in_map_iff in Hr.
  destruct Hr as [r0 [<- _]]. rewrite length_map.
  now apply get_indexer_length with (labels := columns df).
Qed.

Lemma get_loc_In (key : string) (labels : list string) :
  In key labels -> exists i, get_loc key labels = Some i.
Proof.
  induction labels as [| l ls IH]; simpl; [intros [] |].
  intros [-> | H].
  - rewrite String.eqb_refl. now exists 0.
  - destruct (String.eqb key l); [now exists 0 |].
    destruct (IH H) as [i ->]. now exists (S i).
Qed.

(** The selection succeeds when every requested label is there. *)
Lemma get_indexer_total (labels keys : list string) :
  incl keys labels -> exists ixs, get_indexer labels keys = Ok ixs.
Proof.
  induction keys as [| k ks IH]; simpl; intro H.
  - now exists [].
  - destruct (get_loc_In k labels) as [i ->]; [apply H; now left |].
    destruct IH as [ixs ->]; [intros x Hx; apply H; now right |].
    simpl. now exists (i :: ixs).
Qed.

Lemma getitem_list_total (df : DataFrame) (keys : list string) :
  incl keys (columns df) -> exists d, getitem_list df keys = Ok d.
Proof.
  intro H. unfold getitem_list.
  destruct (get_indexer_total _ _ H) as [ixs ->]. simpl. eauto.
Qed.

(** ** The rows of a merge *)

Lemma cell_eqb_sym (a b : cell) : cell_eqb a b = cell_eqb b a.
Proof.
  destruct (cell_eqb a b) eqn:E.
  - apply cell_eqb_eq in E. subst. symmetry. apply cell_eqb_refl.
  - destruct (cell_eqb b a) eqn:E'; [| reflexivity].
    apply cell_eqb_eq in E'. subst. now rewrite cell_eqb_refl in E.
Qed.

Lemma cell_eqb_neq (a b : cell) : cell_eqb a b = false <-> a <> b.
Proof.
  split.
  - intros E H. subst. now rewrite cell_eqb_refl in E.
  - intro H. apply not_true_is_false. intro E. now apply cell_eqb_eq in E.
Qed.

(** [uniques] lists every cell that is not seen yet, once. *)
Lemma uniques_In (seen ks : list cell) (k : cell) :
  In k (uniques seen ks) <-> In k ks /\ ~ In k seen.
Proof.
  revert seen. induction ks as [| a ks IH]; intro seen; simpl.
  - tauto.
  - destruct (existsb (cell_eqb a) seen) eqn:E.
    + apply isin_In in E. rewrite IH. split.
      * intros [H N]. tauto.
      * intros [[-> | H] N]; [contradiction | tauto].
    + assert (N : ~ In a seen).
      { intro H. apply isin_In in H. rewrite H in E. discriminate E. }
      simpl. rewrite IH. simpl. split.
      * intros [-> | [H M]]; [tauto |]. split; [tauto |]. intro. apply M. now right.
      * intros [[-> | H] M]; [now left |].
        destruct (cell_eq_dec a k) as [-> | D]; [now left |].
        right. split; [assumption |]. intros [-> | ]; tauto.
Qed.

Lemma uniques_NoDup (seen ks : list cell) : NoDup (uniques seen ks).
Proof.
  revert seen. induction ks as [| a ks IH]; intro seen; simpl.
  - constructor.
  - destruct (existsb (cell_eqb a) seen); [apply IH |].
    constructor; [| apply IH].
    intro H. apply uniques_In in H. destruct H as [_ H]. apply H. now left.
Qed.

(** On keys that are pairwise distinct, nothing is left out or moved. *)
Lemma uniques_id (seen ks : list cell) :
  NoDup ks -> (forall k, In k ks -> ~ In k seen) -> uniques seen ks = ks.
Proof.
  revert seen. induction ks as [| a ks IH]; intros seen Hnd Hs; simpl.
  - reflexivity.
  - inversion Hnd as [| x xs Ha Hks]; subst.
    assert (E : existsb (cell_eqb a) seen = false).
    { apply not_true_is_false. intro E. apply isin_In in E.
      apply (Hs a); [now left | assumption]. }
    rewrite E. f_equal. apply IH; [assumption |].
    intros k Hk [-> | H]; [contradiction |].
    apply (Hs k); [now right | assumption].
Qed.

Lemma is_nan_CNaN (c : cell) : is_nan c = true <-> c = CNaN.
Proof. destruct c; simpl; split; intro H; try discriminate; reflexivity. Qed.

Lemma key_groups_In (ks : list cell) (k : cell) :
  In k (key_groups ks) <-> In k ks.
Proof.
  unfold key_groups. rewrite in_app_iff, uniques_In, filter_In. split.
  - intros [[[H _] _] | H]; [assumption |].
    destruct (existsb is_nan ks) eqn:E; [| contradiction].
    destruct H as [<- | []]. apply existsb_exists in E.
    destruct E as [x [Hx E]]. apply is_nan_CNaN in E. now subst.
  - intro H. destruct (is_nan k) eqn:E.
    + right. apply is_nan_CNaN in E. subst k.
      assert (X : existsb is_nan ks = true)
        by (apply existsb_exists; now exists CNaN).
      rewrite X. now left.
    + left. split; [split; [assumption | reflexivity] | intros []].
Qed.

Lemma key_groups_NoDup (ks : list cell) : NoDup (key_groups ks).
Proof.
  unfold key_groups. apply NoDup_app.
  - apply uniques_NoDup.
  - destruct (existsb is_nan ks); repeat constructor. intros [].
  - intros k H. apply uniques_In in H. destruct H as [H _].
    apply filter_In in H. destruct H as [_ H].
    destruct (existsb is_nan ks); [| intros []].
    intros [<- | []]. discriminate H.
Qed.

(** Keys that are pairwise distinct and not missing are their own
    groups. *)
Lemma key_groups_id (ks : list cell) :
  NoDup ks -> ~ In CNaN ks -> key_groups ks = ks.
Proof.
  intros Hnd Hn. unfold key_groups.
  assert (F : filter (fun k => negb (is_nan k)) ks = ks).
  { clear Hnd. induction ks as [| a ks IH]; simpl; [reflexivity |].
    destruct (is_nan a) eqn:E.
    - apply is_nan_CNaN in E. subst. exfalso. apply Hn. now left.
    - simpl. f_equal. apply IH. intro H. apply Hn. now right. }
  assert (X : existsb is_nan ks = false).
  { apply not_true_is_false. intro E. apply existsb_exists in E.
    destruct E as [x [Hx E]]. apply is_nan_CNaN in E. subst. contradiction. }
  rewrite F, X, app_nil_r. apply uniques_id; [assumption |]. intros k _ [].
Qed.

(** The rows of a list, taken group by group, are the rows of the list. *)
Lemma group_one (key : row -> cell) (r : row) (rs : list row) (ks : list cell) :
  NoDup ks -> In (key r) ks ->
  Permutation
    (flat_map (fun k => filter (fun l => cell_eqb (key l) k) (r :: rs)) ks)
    (r :: flat_map (fun k => filter (fun l => cell_eqb (key l) k) rs) ks).
Proof.
  induction ks as [| k ks IH]; intros Hnd Hin; [destruct Hin |].
  inversion Hnd as [| x xs Hk Hks]; subst.
  cbn [flat_map filter].
  destruct (cell_eqb (key r) k) eqn:E.
  - apply cell_eqb_eq in E. subst k. simpl. apply perm_skip.
    apply Permutation_app_head.
    assert (Q : forall ks0, ~ In (key r) ks0 ->
                flat_map (fun k => filter (fun l => cell_eqb (key l) k) (r :: rs)) ks0 =
                flat_map (fun k => filter (fun l => cell_eqb (key l) k) rs) ks0).
    { induction ks0 as [| a ks0 IH0]; intro N; [reflexivity |].
      cbn [flat_map filter].
      assert (D : cell_eqb (key r) a = false)
        by (apply cell_eqb_neq; intro; subst; apply N; now left).
      rewrite D. f_equal. apply IH0. intro. apply N. now right. }
    rewrite Q by assumption. apply Permutation_refl.
  - destruct Hin as [-> | Hin]; [now rewrite cell_eqb_refl in E |].
    eapply Permutation_trans.
    + apply Permutation_app_head. apply IH; assumption.
    + apply Permutation_sym, Permutation_middle.
Qed.

Lemma groups_permutation (key : row -> cell) (rs : list row) (ks : list cell) :
  NoDup ks -> (forall r, In r rs -> In (key r) ks) ->
  Permutation (flat_map (fun k => filter (fun l => cell_eqb (key l) k) rs) ks) rs.
Proof.
  intros Hnd. induction rs as [| r rs IH]; intro H.
  - clear. induction ks as [| k ks IH]; simpl; [constructor | exact IH].
  - eapply Permutation_trans.
    + apply group_one; [assumption | apply H; now left].
    + apply perm_skip. apply IH. intros x Hx. apply H. now right.
Qed.

Lemma flat_map_nested {A B C : Type} (f : B -> list C) (g : A -> list B) (l : list A) :
  flat_map f (flat_map g l) = flat_map (fun x => flat_map f (g x)) l.
Proof.
  induction l as [| a l IH]; simpl; [reflexivity |].
  now rewrite flat_map_app, IH.
Qed.

(** Whatever the release, the merge has the rows of the join that follows
    the left frame, each as often. *)
Lemma merge_rows_permutation (p : platform) (i j : nat) (L R : list row) :
  Permutation (merge_rows p i j L R) (flat_map (join_row i j R) L).
Proof.
  unfold merge_rows. destruct (keeps_left_order p); [apply Permutation_refl |].
  rewrite <- (flat_map_nested (join_row i j R)
                (fun k => filter (fun l => cell_eqb (take l i) k) L)).
  apply Permutation_flat_map. apply groups_permutation.
  - apply key_groups_NoDup.
  - intros r Hr. apply key_groups_In. apply in_map_iff. now exists r.
Qed.

(** On distinct keys the groups are the rows. *)
Lemma groups_id (key : row -> cell) (rs : list row) :
  NoDup (map key rs) ->
  flat_map (fun k => filter (fun l => cell_eqb (key l) k) rs) (map key rs) = rs.
Proof.
  induction rs as [| r rs IH]; intro H; [reflexivity |].
  inversion H as [| x xs Hr Hrs]; subst.
  cbn [map flat_map filter]. rewrite cell_eqb_refl.
  assert (E : filter (fun l => cell_eqb (key l) (key r)) rs = []).
  { clear IH Hrs H. induction rs as [| a rs IH]; [reflexivity |]. simpl.
    assert (D : cell_eqb (key a) (key r) = false).
    { apply cell_eqb_neq. intro Q. apply Hr. simpl. now left. }
    rewrite D. apply IH. intro. apply Hr. now right. }
  rewrite E. simpl. f_equal.
  rewrite <- (IH Hrs) at 2.
  rewrite !flat_map_concat_map. f_equal. apply map_ext_in.
  intros k Hk. simpl.
  assert (D : cell_eqb (key r) k = false)
    by (apply cell_eqb_neq; intro; subst; contradiction).
  now rewrite D.
Qed.

(** The merge follows the left frame from pandas 2.2 on, and before when
    the left keys are pairwise distinct and none is missing. *)
Lemma merge_rows_left_order (p : platform) (i j : nat) (L R : list row) :
  keeps_left_order p = true \/
  (NoDup (map (fun l => take l i) L) /\ ~ In CNaN (map (fun l => take l i) L)) ->
  merge_rows p i j L R = flat_map (join_row i j R) L.
Proof.
  intro H. unfold merge_rows.
  destruct (keeps_left_order p); [reflexivity |].
  destruct H as [H | [Hnd Hn]]; [discriminate H |].
  rewrite (key_groups_id _ Hnd Hn).
  rewrite <- (flat_map_nested (join_row i j R)
                (fun k => filter (fun l => cell_eqb (take l i) k) L)).
  now rewrite (groups_id (fun l => take l i) L Hnd).
Qed.

Lemma Permutation_filter_rows (q : row -> bool) (l l' : list row) :
  Permutation l l' -> Permutation (filter q l) (filter q l').
Proof.
  induction 1 as [| x l l' _ IH | x y l | l l' l'' _ IH1 _ IH2]; simpl.
  - constructor.
  - destruct (q x); [now apply perm_skip | assumption].
  - destruct (q x), (q y); try apply Permutation_refl. apply perm_swap.
  - eapply Permutation_trans; eassumption.
Qed.

(** ** The stages of the pipeline *)

Lemma merge_rows_nil (p : platform) (i j : nat) (R : list row) :
  merge_rows p i j [] R = [].
Proof. unfold merge_rows. now destruct (keeps_left_order p). Qed.

Lemma no_rows_nil (df : DataFrame) : no_rows df = true <-> values df = [].
Proof. unfold no_rows. destruct (values df); split; intro H; congruence. Qed.

Lemma merge_Ok (p : platform) (l r m : DataFrame) (on : string) :
  merge p l r on = Ok m ->
  exists i j,
    get_loc on (columns l) = Some i /\
    get_loc on (columns r) = Some j /\
    columns m =
      (if no_rows l && negb (keeps_left_order p)
       then merge_columns_left_empty i (columns l) (columns r)
       else merge_columns j (columns l) (columns r)) /\
    values m = merge_rows p i j (values l) (values r).
Proof.
  unfold merge. intro H.
  destruct (get_loc on (columns l)) as [i |]; [| discriminate H].
  destruct (get_loc on (columns r)) as [j |]; [| discriminate H].
  bind_inv H. exists i, j.
  destruct (no_rows l && negb (keeps_left_order p)) eqn:N;
    inversion H; subst m; simpl; repeat split.
  apply andb_prop in N. destruct N as [N _]. apply no_rows_nil in N.
  rewrite N. symmetry. apply merge_rows_nil.
Qed.

Lemma df_sub_filtered_Ok (sub f : DataFrame) (forms : list cell) :
  df_sub_filtered sub forms = Ok f ->
  exists d,
    df_sub sub = Ok d /\
    columns f = sub_columns /\
    dtypes f = dtypes d /\
    values f = filter (fun r => existsb (cell_eqb (take r 4)) forms) (values d).
Proof.
  unfold df_sub_filtered. intro H. bind_inv H. rename a into d.
  destruct (getitem_list_width _ _ _ E) as [Hc _].
  rewrite (getitem_mask_isin d "form" 4 forms) in H
    by (rewrite Hc; reflexivity).
  inversion H. exists d. simpl. auto.
Qed.

Lemma df_txt_filtered_Ok (p : platform) (sub txt m : DataFrame) (forms : list cell) :
  df_txt_filtered p sub txt forms = Ok m ->
  exists l r,
    df_sub_filtered sub forms = Ok l /\
    df_txt txt = Ok r /\
    columns m =
      (if no_rows l && negb (keeps_left_order p)
       then fn_columns_key_right else fn_columns) /\
    values m = merge_rows p 0 0 (values l) (values r).
Proof.
  unfold df_txt_filtered. intro H. bind_inv H. rename a into l.
  bind_inv H. rename a into r.
  destruct (df_sub_filtered_Ok _ _ _ E) as [d [_ [Hl _]]].
  destruct (getitem_list_width _ _ _ E0) as [Hr _].
  destruct (merge_Ok _ _ _ _ _ H) as [i [j [Hi [Hj [Hc Hv]]]]].
  rewrite Hl in Hi. rewrite Hr in Hj. inversion Hi; inversion Hj; subst i j.
  rewrite Hl, Hr in Hc. exists l, r.
  repeat split; assumption.
Qed.

(** The merged table has its [tag] column at position seven wherever the
    key stands. *)
Lemma merged_tag (p : platform) (sub txt m : DataFrame) (forms : list cell) :
  df_txt_filtered p sub txt forms = Ok m -> get_loc "tag" (columns m) = Some 7.
Proof.
  intro H. destruct (df_txt_filtered_Ok _ _ _ _ _ H) as [l [r [_ [_ [Hc _]]]]].
  rewrite Hc. now destruct (no_rows l && negb (keeps_left_order p)).
Qed.

Lemma df_fn_Ok (p : platform) (sub txt out : DataFrame) (forms tags : list cell) :
  df_fn p sub txt forms tags = Ok out ->
  exists m,
    df_txt_filtered p sub txt forms = Ok m /\
    columns out = columns m /\
    dtypes out = dtypes m /\
    values out = filter (fun r => existsb (cell_eqb (take r 7)) tags) (values m).
Proof.
  unfold df_fn. intro H. bind_inv H. rename a into m.
  pose proof (merged_tag _ _ _ _ _ E) as G.
  unfold getitem in H. rewrite G in H. simpl in H.
  unfold getitem_mask, isin in H.
  rewrite !length_map, Nat.eqb_refl in H. simpl in H.
  rewrite map_map, select_map in H.
  inversion H. exists m. simpl. auto.
Qed.

(** A table with a row has the key in front, whatever the release. *)
Lemma df_fn_columns (p : platform) (sub txt out : DataFrame) (forms tags : list cell) :
  df_fn p sub txt forms tags = Ok out ->
  values out <> [] -> columns out = fn_columns.
Proof.
  intros H Hne.
  destruct (df_fn_Ok _ _ _ _ _ _ H) as [m [Hm [Hc [_ Hv]]]].
  destruct (df_txt_filtered_Ok _ _ _ _ _ Hm) as [l [r [_ [_ [Hmc Hmv]]]]].
  rewrite Hc, Hmc.
  destruct (no_rows l) eqn:N; [| reflexivity].
  apply no_rows_nil in N. rewrite N, merge_rows_nil in Hmv.
  rewrite Hmv in Hv. simpl in Hv. contradiction.
Qed.

(** The rows of the output, up to their order. *)
Lemma df_fn_rows_permutation (p : platform) (sub txt out : DataFrame)
    (forms tags : list cell) :
  df_fn p sub txt forms tags = Ok out ->
  exists d l r,
    df_sub sub = Ok d /\
    df_sub_filtered sub forms = Ok l /\
    df_txt txt = Ok r /\
    values l = filter (fun r => existsb (cell_eqb (take r 4)) forms) (values d) /\
    Permutation (values out)
      (filter (fun r => existsb (cell_eqb (take r 7)) tags)
              (flat_map (join_row 0 0 (values r)) (values l))) /\
    (keeps_left_order p = true \/
     (NoDup (map adsh (values l)) /\ ~ In CNaN (map adsh (values l))) ->
     values out =
       filter (fun r => existsb (cell_eqb (take r 7)) tags)
              (flat_map (join_row 0 0 (values r)) (values l))).
Proof.
  intro H.
  destruct (df_fn_Ok _ _ _ _ _ _ H) as [m [Hm [_ [_ Hv]]]].
  destruct (df_txt_filtered_Ok _ _ _ _ _ Hm) as [l [r [Hl [Hr [_ Hmv]]]]].
  destruct (df_sub_filtered_Ok _ _ _ Hl) as [d [Hd [_ [_ Hlv]]]].
  exists d, l, r. repeat split; try assumption.
  - rewrite Hv, Hmv. apply Permutation_filter_rows, merge_rows_permutation.
  - intro O. rewrite Hv, Hmv. f_equal. now apply merge_rows_left_order.
Qed.

(** A joined row keeps the seven cells of its submission in front. *)
Lemma take_app_left (l x : row) (i : nat) :
  i < length l -> take (l ++ x) i = take l i.
Proof. intro H. unfold take. now apply app_nth1. Qed.

Lemma take_app_right (l x : row) (i : nat) :
  length l <= i -> take (l ++ x) i = take x (i - length l).
Proof. intro H. unfold take. now apply app_nth2. Qed.

Lemma take_drop_at_0 (o : row) (i : nat) : take (drop_at 0 o) i = take o (S i).
Proof. unfold take, drop_at. simpl. destruct o; [now destruct i | reflexivity]. Qed.

Lemma in_join_row (i j : nat) (rs : list row) (l x : row) :
  In x (join_row i j rs l) <->
  exists o, In o rs /\ cell_eqb (take l i) (take o j) = true /\ x = l ++ drop_at j o.
Proof.
  unfold join_row. rewrite in_map_iff. split.
  - intros [o [<- Ho]]. apply filter_In in Ho. destruct Ho. now exists o.
  - intros [o [Ho [E ->]]]. exists o. split; [reflexivity |].
    apply filter_In. now split.
Qed.

(** ** Filter correctness *)

(** C1.  Every row of the table [df_fn] built from any two tables and any
    two allow-lists, under any release of pandas, has its [form] cell in
    the form allow-list and its [tag] cell in the tag allow-list. *)
Theorem filter_correctness (p : platform) (sub txt out : DataFrame)
    (forms tags : list cell) :
  df_fn p sub txt forms tags = Ok out ->
  Forall (fun r =>
            exists form tag,
              row_getitem (columns out) r "form" = Ok form /\ In form forms /\
              row_getitem (columns out) r "tag" = Ok tag /\ In tag tags)
         (values out).
Proof.
  intro H.
  destruct (df_fn_rows_permutation _ _ _ _ _ _ H)
    as [d [l [t [Hd [Hl [_ [Hlv [Hp _]]]]]]]].
  destruct (getitem_list_width _ _ _ Hd) as [_ Hw].
  apply Forall_forall. intros r Hr.
  assert (Hc : columns out = fn_columns).
  { apply (df_fn_columns _ _ _ _ _ _ H). intro E. rewrite E in Hr. destruct Hr. }
  apply (Permutation_in _ Hp) in Hr.
  apply filter_In in Hr. destruct Hr as [Hr Htag].
  apply in_flat_map in Hr. destruct Hr as [s [Hs Hr]].
  apply in_join_row in Hr. destruct Hr as [o [_ [_ ->]]].
  rewrite Hlv in Hs. apply filter_In in Hs. destruct Hs as [Hs Hform].
  rewrite Forall_forall in Hw. specialize (Hw s Hs). simpl in Hw.
  exists (take s 4), (take (s ++ drop_at 0 o) 7).
  unfold row_getitem. rewrite Hc. simpl.
  rewrite take_app_left by lia.
  repeat split; try reflexivity.
  - now apply isin_In.
  - now apply isin_In.
Qed.

Lemma filter_correctness_witness :
  df_fn notebook_platform ex_sub ex_txt form_types footnote_tags = Ok ex_fn /\
  Forall (fun r =>
            exists form tag,
              row_getitem (columns ex_fn) r "form" = Ok form /\ In form form_types /\
              row_getitem (columns ex_fn) r "tag" = Ok tag /\ In tag footnote_tags)
         (values ex_fn).
Proof.
  split; [reflexivity |].
  apply (filter_correctness notebook_platform ex_sub ex_txt ex_fn
           form_types footnote_tags).
  reflexivity.
Defined.

(** ** Join cardinality *)

Lemma filter_or_length {A : Type} (p q : A -> bool) (l : list A) :
  (forall x, In x l -> p x = true -> q x = true -> False) ->
  length (filter (fun x => p x || q x) l) =
  length (filter p l) + length (filter q l).
Proof.
  induction l as [| a l IH]; simpl; intro H; [reflexivity |].
  assert (IH' := IH (fun x Hx => H x (or_intror Hx))).
  destruct (p a) eqn:Pa, (q a) eqn:Qa; simpl; rewrite IH'; try lia.
  exfalso. apply (H a); auto.
Qed.


(** The size of an inner join whose left keys are pairwise distinct: the
    number of right rows whose key is a left key. *)
Lemma inner_join_length (i j : nat) (L R : list row) :
  NoDup (map (fun l => take l i) L) ->
  length (flat_map (join_row i j R) L) =
  length (filter (fun o => existsb (cell_eqb (take o j)) (map (fun l => take l i) L)) R).
Proof.
  induction L as [| l L IH]; simpl; intro H.
  - induction R; simpl; auto.
  - inversion H as [| k ks Hk Hks]; subst.
    rewrite length_app, (IH Hks). unfold join_row at 1. rewrite length_map.
    rewrite filter_or_length.
    + f_equal. f_equal. apply filter_ext. intro o. apply cell_eqb_sym.
    + intros o _ Ho Hin. apply cell_eqb_eq in Ho. apply isin_In in Hin.
      apply Hk. now rewrite <- Ho.
Qed.


(** Key columns of one type are merged without a check of their cells. *)
Lemma coerce_same (d : dtype) (lk rk : list cell) :
  coerce_merge_keys d d lk rk = Ok false.
Proof.
  unfold coerce_merge_keys.
  assert (E : dtype_eqb d d = true) by now destruct d.
  rewrite E. destruct lk, rk; reflexivity.
Qed.




(** ** Order of the output *)

Lemma flat_map_kept {X Y : Type} (keep : X -> bool) (body : X -> list Y) (xs : list X) :
  flat_map body (filter keep xs) =
  flat_map (fun x => if keep x then body x else []) xs.
Proof.
  induction xs as [| x xs IH]; simpl; [reflexivity |].
  destruct (keep x); simpl; now rewrite IH.
Qed.

Lemma filter_flat_map {A B : Type} (f : A -> list B) (q : B -> bool) (l : list A) :
  filter q (flat_map f l) = flat_map (fun x => filter q (f x)) l.
Proof.
  induction l as [| a l IH]; simpl; [reflexivity |].
  now rewrite filter_app, IH.
Qed.

Lemma filter_map_swap {A B : Type} (g : A -> B) (q : B -> bool) (l : list A) :
  filter q (map g l) = map g (filter (fun x => q (g x)) l).
Proof.
  induction l as [| a l IH]; simpl; [reflexivity |].
  destruct (q (g a)); simpl; now rewrite IH.
Qed.

Lemma filter_filter {A : Type} (p q : A -> bool) (l : list A) :
  filter q (filter p l) = filter (fun x => p x && q x) l.
Proof.
  induction l as [| a l IH]; simpl; [reflexivity |].
  destruct (p a); simpl; [destruct (q a) |]; now rewrite IH.
Qed.

Lemma flat_map_ext_In {A B : Type} (f g : A -> list B) (l : list A) :
  (forall x, In x l -> f x = g x) -> flat_map f l = flat_map g l.
Proof.
  induction l as [| a l IH]; simpl; intro H; [reflexivity |].
  rewrite (H a) by now left. f_equal. apply IH. intros x Hx. apply H. now right.
Qed.

(** The tag filter pushed through the merge and the form filter: on rows
    of seven cells the pipeline computes the nested loops. *)
Lemma pipeline_rows (S T : list row) (forms tags : list cell) :
  Forall (fun r => length r = 7) S ->
  filter (fun r => existsb (cell_eqb (take r 7)) tags)
    (flat_map (join_row 0 0 T)
       (filter (fun r => existsb (cell_eqb (take r 4)) forms) S)) =
  expected_rows S T forms tags.
Proof.
  intro HS. rewrite flat_map_kept, filter_flat_map. unfold expected_rows.
  apply flat_map_ext_In. intros s Hs.
  rewrite Forall_forall in HS. specialize (HS s Hs).
  destruct (existsb (cell_eqb (take s 4)) forms); [| reflexivity].
  unfold join_row. rewrite filter_map_swap, filter_filter.
  f_equal. apply filter_ext. intro o. unfold adsh. f_equal.
  rewrite take_app_right by lia. rewrite HS. simpl.
  now rewrite take_drop_at_0.
Qed.




(** The rows of the output against the nested loops of the
    specification: the same rows, each as often, under any release; in
    the same order from pandas 2.2 on, and before when the retained
    accession numbers are pairwise distinct and none is missing. *)
Lemma df_fn_rows (p : platform) (sub txt s t out : DataFrame) (forms tags : list cell) :
  df_sub sub = Ok s ->
  df_txt txt = Ok t ->
  df_fn p sub txt forms tags = Ok out ->
  exists l,
    df_sub_filtered sub forms = Ok l /\
    Permutation (values out) (expected_rows (values s) (values t) forms tags) /\
    (keeps_left_order p = true \/
     (NoDup (map adsh (values l)) /\ ~ In CNaN (map adsh (values l))) ->
     values out = expected_rows (values s) (values t) forms tags).
Proof.
  intros Hs Ht H.
  destruct (df_fn_rows_permutation _ _ _ _ _ _ H)
    as [s' [l [t' [Hs' [Hl [Ht' [Hlv [Hp Ho]]]]]]]].
  rewrite Hs in Hs'. rewrite Ht in Ht'. inversion Hs'; inversion Ht'; subst s' t'.
  destruct (getitem_list_width _ _ _ Hs) as [_ Hw].
  exists l. split; [assumption |].
  rewrite Hlv in Hp, Ho. rewrite (pipeline_rows _ _ _ _ Hw) in Hp, Ho.
  rewrite <- Hlv in Ho. now split.
Qed.




(** ** Columns of the output *)

(** C10, as stated, fails under the notebook's pandas when no submission
    is retained: the merged table, which has no rows then, has the key
    after the other submission columns. *)
Lemma output_columns_counterexample :
  exists m out,
    df_txt_filtered notebook_platform ex_sub ex_txt [] = Ok m /\
    df_fn notebook_platform ex_sub ex_txt [] footnote_tags = Ok out /\
    columns m = fn_columns_key_right /\
    columns out = fn_columns_key_right /\
    columns out <> fn_columns.
Proof.
  eexists. eexists. repeat split; try reflexivity.
  simpl. intro H. inversion H.
Qed.

(** C10, amended.  When a submission is retained, and from pandas 2.2 on
    in every case, the merged table has the seven submission columns
    followed by [tag], [qtrs], [ddate] and [value].  With an earlier
    pandas and no retained submission it has [adsh] after [filed].  In
    every case [adsh] occurs once, the filtered table keeps the columns of
    the merged one, and adding the word count puts [fn_length] after
    them. *)
Theorem output_columns (p : platform) (sub txt l m out : DataFrame)
    (forms tags : list cell) :
  df_sub_filtered sub forms = Ok l ->
  df_txt_filtered p sub txt forms = Ok m ->
  df_fn p sub txt forms tags = Ok out ->
  (keeps_left_order p = true \/ values l <> [] ->
   columns m =
     sub_columns ++ ["tag"%string; "qtrs"%string; "ddate"%string; "value"%string]) /\
  (keeps_left_order p = false -> values l = [] ->
   columns m = fn_columns_key_right) /\
  columns out = columns m /\
  count_occ string_dec (columns out) "adsh"%string = 1 /\
  forall out',
    add_fn_length out = Ok out' ->
    columns out' = columns out ++ ["fn_length"%string].
Proof.
  intros Hl Hm H.
  destruct (df_fn_Ok _ _ _ _ _ _ H) as [m' [Hm' [Hc _]]].
  rewrite Hm in Hm'. inversion Hm'; subst m'.
  destruct (df_txt_filtered_Ok _ _ _ _ _ Hm) as [l' [r [Hl' [_ [Hmc _]]]]].
  rewrite Hl in Hl'. inversion Hl'; subst l'.
  assert (Hget : get_loc "fn_length" (columns out) = None).
  { rewrite Hc, Hmc. now destruct (no_rows l && negb (keeps_left_order p)). }
  split; [| split; [| split; [| split]]].
  - intros [K | N]; rewrite Hmc.
    + rewrite K, andb_false_r. reflexivity.
    + destruct (no_rows l) eqn:E; [| reflexivity].
      apply no_rows_nil in E. contradiction.
  - intros K N. rewrite Hmc, K. apply no_rows_nil in N. now rewrite N.
  - exact Hc.
  - rewrite Hc, Hmc. now destruct (no_rows l && negb (keeps_left_order p)).
  - intros out' Ha. unfold add_fn_length in Ha. bind_inv Ha.
    unfold apply_axis1 in E.
    destruct (Nat.eqb (length (values out)) 0 || Nat.eqb (length (columns out)) 0).
    + inversion E; subst a. simpl in Ha. rewrite Hc, Hmc in Ha.
      destruct (no_rows l && negb (keeps_left_order p)); discriminate Ha.
    + bind_inv E. inversion E; subst a. simpl in Ha.
      destruct (Nat.eqb (length a0) (length (values out))); [| discriminate Ha].
      inversion Ha. unfold set_column. rewrite Hget. reflexivity.
Qed.

Lemma output_columns_witness :
  df_fn notebook_platform ex_sub ex_txt form_types footnote_tags = Ok ex_fn /\
  add_fn_length ex_fn = Ok ex_fn_length /\
  (keeps_left_order notebook_platform = true \/ values ex_sub_filtered <> [] ->
   columns ex_txt_filtered =
     sub_columns ++ ["tag"%string; "qtrs"%string; "ddate"%string; "value"%string]) /\
  (keeps_left_order notebook_platform = false -> values ex_sub_filtered = [] ->
   columns ex_txt_filtered = fn_columns_key_right) /\
  columns ex_fn = columns ex_txt_filtered /\
  count_occ string_dec (columns ex_fn) "adsh"%string = 1 /\
  forall out',
    add_fn_length ex_fn = Ok out' ->
    columns out' = columns ex_fn ++ ["fn_length"%string].
Proof.
  split; [reflexivity |]. split; [reflexivity |].
  apply (output_columns notebook_platform ex_sub ex_txt ex_sub_filtered
           ex_txt_filtered ex_fn form_types footnote_tags); reflexivity.
Defined.

(** ** The word counter *)

Lemma word_end_class (prev : ascii) (s : string) (n : nat) :
  word_end prev s = Some n ->
  n <= String.length s /\
  forallb in_class (list_ascii_of_string (substring 0 n s)) = true.
Proof.
  revert prev n. induction s as [| c s IH]; simpl; intros prev n H.
  - destruct (at_boundary (Some prev) None); inversion H. now split.
  - assert (Stop : (if at_boundary (Some prev) (Some c) then Some 0 else None) = Some n ->
                   n <= S (String.length s) /\
                   forallb in_class (list_ascii_of_string (substring 0 n (String c s))) = true).
    { intro E. destruct (at_boundary (Some prev) (Some c)); inversion E.
      split; [lia | reflexivity]. }
    destruct (in_class c) eqn:Hc; [| now apply Stop].
    destruct (word_end c s) as [k |] eqn:Hk; [| now apply Stop].
    inversion H; subst n. destruct (IH c k Hk) as [Hle Hall].
    split; [lia |]. simpl. now rewrite Hc, Hall.
Qed.

(** Every word [findall] returns is a non-empty run of letters,
    apostrophes and hyphens. *)
Lemma scan_words (skip : nat) (prev : option ascii) (s : string) :
  Forall (fun w => w <> EmptyString /\
                   forallb in_class (list_ascii_of_string w) = true)
         (scan skip prev s).
Proof.
  revert skip prev. induction s as [| c s IH]; simpl; intros skip prev.
  - constructor.
  - destruct skip as [| k]; [| apply IH].
    destruct (at_boundary prev (Some c) && in_class c) eqn:Hb; [| apply IH].
    destruct (word_end c s) as [n |] eqn:Hn; [| apply IH].
    constructor; [| apply IH].
    apply andb_prop in Hb. destruct Hb as [_ Hc].
    destruct (word_end_class _ _ _ Hn) as [_ Hall].
    split; [discriminate |]. simpl. now rewrite Hc, Hall.
Qed.

(** C3, as the specification states it, fails: the second reference text
    has two words, not three. *)
Lemma reference_vectors_counterexample :
  ~ (count_words (CStr "") = Ok 0%Z /\
     count_words (CStr "state-of-the-art solution") = Ok 3%Z /\
     count_words (CStr "the company's plan") = Ok 3%Z).
Proof.
  intros [_ [H _]]. vm_compute in H. discriminate H.
Qed.

(** C3, amended.  The empty text has no word; in "state-of-the-art
    solution" the hyphenated run is one word, so the text has two; "the
    company's plan" has three. *)
Theorem reference_vectors :
  count_words (CStr "") = Ok 0%Z /\
  rx_word_findall (CStr "state-of-the-art solution") =
    Ok ["state-of-the-art"%string; "solution"%string] /\
  count_words (CStr "state-of-the-art solution") = Ok 2%Z /\
  rx_word_findall (CStr "the company's plan") =
    Ok ["the"%string; "company's"%string; "plan"%string] /\
  count_words (CStr "the company's plan") = Ok 3%Z.
Proof. repeat split. Qed.

Lemma map_rows_TypeError (f : row -> result cell) (rs : list row) :
  (forall r e, f r = Raise e -> e = TypeError) ->
  Exists (fun r => f r = Raise TypeError) rs ->
  map_rows f rs = Raise TypeError.
Proof.
  intros Hf H. induction H as [r rs Hr | r rs _ IH]; simpl.
  - now rewrite Hr.
  - destruct (f r) as [v | e] eqn:E; simpl.
    + now rewrite IH.
    + now rewrite (Hf r e E).
Qed.

(** C8.  On a text [count_words] returns a count that is not negative; on
    any other value it raises [TypeError]; so the per-row application
    raises as soon as one row of the table has a [value] that is no text. *)
Theorem count_words_domain :
  (forall s, exists n, count_words (CStr s) = Ok n /\ (0 <= n)%Z) /\
  (forall v, (forall s, v <> CStr s) -> count_words v = Raise TypeError) /\
  (forall df i,
     get_loc "value" (columns df) = Some i ->
     Exists (fun r => forall s, take r i <> CStr s) (values df) ->
     add_fn_length df = Raise TypeError).
Proof.
  split; [| split].
  - intro s. eexists. split; [reflexivity | apply Nat2Z.is_nonneg].
  - intros v Hv. destruct v; try reflexivity. now elim (Hv s).
  - intros df i Hi Hbad. unfold add_fn_length, apply_axis1.
    assert (Hrows : Nat.eqb (length (values df)) 0 = false).
    { destruct (values df); [inversion Hbad | reflexivity]. }
    assert (Hcols : Nat.eqb (length (columns df)) 0 = false).
    { destruct (columns df); [discriminate Hi | reflexivity]. }
    rewrite Hrows, Hcols. simpl.
    rewrite map_rows_TypeError; [reflexivity | |].
    + intros r e. unfold row_getitem. rewrite Hi. simpl.
      destruct (take r i); simpl; intro E; now inversion E.
    + eapply Exists_impl; [| exact Hbad]. intros r Hr.
      unfold row_getitem. rewrite Hi. simpl.
      destruct (take r i) eqn:Et; try reflexivity. now elim (Hr s).
Qed.

Lemma count_words_domain_witness :
  count_words CNaN = Raise TypeError /\
  count_words (CInt 7) = Raise TypeError /\
  add_fn_length nan_fn = Raise TypeError.
Proof.
  destruct count_words_domain as [_ [Hv Hrow]].
  split; [| split].
  - apply Hv. discriminate.
  - apply Hv. discriminate.
  - apply (Hrow nan_fn 10).
    + reflexivity.
    + apply Exists_cons_tl, Exists_cons_hd. discriminate.
Defined.

(** ** The download *)

Lemma put_present (p q : string) (n : node) (f : string -> option node) :
  f p <> None -> put q n f p <> None.
Proof. unfold put. intro H. destruct (String.eqb p q); [discriminate | exact H]. Qed.

Lemma put_same (p : string) (n : node) (f : string -> option node) :
  put p n f p = Some n.
Proof. unfold put. now rewrite String.eqb_refl. Qed.

Lemma put_other (p q : string) (n : node) (f : string -> option node) :
  p <> q -> put q n f p = f p.
Proof.
  intro H. unfold put. destruct (String.eqb_spec p q); [contradiction | reflexivity].
Qed.

Lemma kept_refl (folder : string) (f : string -> option node) : kept folder f f.
Proof. split; auto. Qed.

Lemma kept_trans (folder : string) (f g h : string -> option node) :
  kept folder f g -> kept folder g h -> kept folder f h.
Proof.
  intros [A1 A2] [B1 B2]. split.
  - intros p H. apply B1, A1, H.
  - intros p H. rewrite B2, A2; auto.
Qed.

Lemma kept_put (folder x : string) (n : node) (f : string -> option node) :
  kept folder f (put (path_join folder x) n f).
Proof.
  split.
  - intros p H. now apply put_present.
  - intros p H. apply put_other. apply H.
Qed.

Lemma make_upper_dirs_kept (folder : string) (done dirs : list string)
    (f f' : string -> option node) :
  make_upper_dirs folder done dirs f = Ok f' -> kept folder f f'.
Proof.
  revert done f. induction dirs as [| d dirs IH]; intros done f H; simpl in H.
  - inversion H. apply kept_refl.
  - destruct (f (below folder (done ++ [d]))) as [[c |] |]; [discriminate H | |].
    + now apply IH in H.
    + apply IH in H. eapply kept_trans; [| exact H]. apply kept_put.
Qed.

Lemma extract_member_kept (folder : string) (m : string * string)
    (f f' : string -> option node) :
  extract_member folder m f = Ok f' -> kept folder f f'.
Proof.
  unfold extract_member. intro H.
  destruct (arcname_parts (fst m)) as [| a parts] eqn:P.
  - destruct (is_dir (fst m)); inversion H. apply kept_refl.
  - bind_inv H. rename a0 into f1.
    apply make_upper_dirs_kept in E.
    eapply kept_trans; [exact E |].
    destruct (is_dir (fst m)).
    + destruct (f1 (below folder (a :: parts))) as [[c |] |]; inversion H;
        [apply kept_refl | apply kept_put].
    + destruct (f1 (below folder (a :: parts))) as [[c |] |]; inversion H;
        apply kept_put.
Qed.

Lemma extract_each_kept (folder : string) (all ms : list (string * string))
    (f : string -> option node) :
  kept folder f (snd (extract_each folder all ms f)).
Proof.
  revert f. induction ms as [| m ms IH]; intro f; simpl; [apply kept_refl |].
  destruct (extract_member folder (fst m, last_data (fst m) all (snd m)) f)
    as [f' | e] eqn:E; [| apply kept_refl].
  eapply kept_trans; [| apply IH]. eapply extract_member_kept. exact E.
Qed.

Lemma extractall_world (folder : string) (ms : list (string * string)) (w : world) :
  requests (snd (extractall folder ms w)) = requests w /\
  server (snd (extractall folder ms w)) = server w /\
  fs (snd (extractall folder ms w)) = snd (extract_each folder ms ms (fs w)).
Proof.
  unfold extractall. destruct (extract_each folder ms ms (fs w)). now repeat split.
Qed.

Lemma extract_present (folder p : string) (ms : list (string * string)) (w : world) :
  fs w p <> None -> fs (snd (extractall folder ms w)) p <> None.
Proof.
  intro H. destruct (extractall_world folder ms w) as [_ [_ ->]].
  now apply (extract_each_kept folder ms ms (fs w)).
Qed.

(** The state after the extraction is the state the call ends in. *)
Lemma outcome_world (e : option exn) (w : world) :
  snd (match (e, w) with
       | (Some x, w4) => (@Raise retval x, w4)
       | (None, w4) => (Ok NoneValue, w4)
       end) = w.
Proof. now destruct e. Qed.

Lemma exists_true (w : world) (p : string) : exists_ w p = true <-> fs w p <> None.
Proof.
  unfold exists_. destruct (fs w p); split; intro H;
    try reflexivity; try discriminate; now elim H.
Qed.

(** A call sends no request or one. *)
Lemma download_requests (wf : string) (year month : Z) (w : world) :
  let w' := snd (download_xbrl_fin_notes wf year month w) in
  requests w' = requests w \/ requests w' = requests w ++ [url year month].
Proof.
  unfold download_xbrl_fin_notes, requests_get.
  destruct (exists_ w (output_file wf year month)); [now left |].
  right. destruct (server w (requests w) (url year month)) as [req | e];
    [| reflexivity].
  destruct (Z.eqb (status_code req) 200); [| reflexivity].
  simpl. rewrite put_same. destruct (raw req); [| reflexivity].
  unfold mkdir_exist_ok. simpl.
  destruct (put (output_file wf year month) (File (Archive members)) (fs w)
                (output_folder wf year month)) as [[c |] |]; try reflexivity.
  - match goal with
    | |- context [extractall ?a ?b ?c] =>
        destruct (extractall_world a b c) as [R _];
        destruct (extractall a b c) as [[x |] w4]; simpl in *; exact R
    end.
  - match goal with
    | |- context [extractall ?a ?b ?c] =>
        destruct (extractall_world a b c) as [R _];
        destruct (extractall a b c) as [[x |] w4]; simpl in *; exact R
    end.
Qed.

(** A call returns [None] whenever it returns. *)
Lemma download_returns_None (wf : string) (year month : Z) (w : world) (v : retval) :
  fst (download_xbrl_fin_notes wf year month w) = Ok v -> v = NoneValue.
Proof.
  unfold download_xbrl_fin_notes, requests_get.
  destruct (exists_ w (output_file wf year month)); [simpl; congruence |].
  destruct (server w (requests w) (url year month)) as [req | e];
    [| discriminate].
  destruct (Z.eqb (status_code req) 200); [| simpl; congruence].
  simpl. rewrite put_same. destruct (raw req); [| discriminate].
  unfold mkdir_exist_ok. simpl.
  destruct (put (output_file wf year month) (File (Archive members)) (fs w)
                (output_folder wf year month)) as [[c |] |];
    simpl; try congruence;
    match goal with
    | |- context [extractall ?a ?b ?c] =>
        destruct (extractall a b c) as [[x |] w4]; simpl; congruence
    end.
Qed.

(** After a request answered with status 200 the archive is on disk,
    whatever becomes of the extraction. *)
Lemma download_200_writes (wf : string) (year month : Z) (w : world) (req : response) :
  exists_ w (output_file wf year month) = false ->
  server w (requests w) (url year month) = Ok req ->
  status_code req = 200%Z ->
  exists_ (snd (download_xbrl_fin_notes wf year month w)) (output_file wf year month) = true.
Proof.
  intros He Hs H200. unfold download_xbrl_fin_notes, requests_get.
  rewrite He, Hs, H200. simpl. rewrite put_same.
  destruct (raw req).
  - unfold mkdir_exist_ok. simpl.
    destruct (put (output_file wf year month) (File (Archive members)) (fs w)
                  (output_folder wf year month)) as [[c |] |] eqn:E; simpl;
      apply exists_true; simpl.
    + rewrite put_same. discriminate.
    + match goal with
      | |- context [extractall ?a ?b ?c] =>
          pose proof (extract_present a (output_file wf year month) b c) as X;
          destruct (extractall a b c) as [[x |] w4]; simpl in *; apply X;
          rewrite put_same; discriminate
      end.
    + match goal with
      | |- context [extractall ?a ?b ?c] =>
          pose proof (extract_present a (output_file wf year month) b c) as X;
          destruct (extractall a b c) as [[x |] w4]; simpl in *; apply X;
          apply put_present; rewrite put_same; discriminate
      end.
  - apply exists_true. simpl. rewrite put_same. discriminate.
Qed.

(** C4, as the specification states it, fails: with nothing on disk and a
    remote end answering 404, the call raises nothing and returns [None]. *)
Lemma retrieval_error_counterexample :
  exists_ w404 (output_file "/work" 2021 1) = false /\
  server w404 (requests w404) (url 2021 1) = Ok not_found /\
  status_code not_found = 404%Z /\
  fst (download_xbrl_fin_notes "/work" 2021 1 w404) = Ok NoneValue /\
  ~ (exists e, fst (download_xbrl_fin_notes "/work" 2021 1 w404) = Raise e).
Proof.
  repeat split. intros [e H]. vm_compute in H. discriminate H.
Qed.

(** C4, amended.  When the archive is not on disk and the request is
    answered with a status other than 200, the call returns [None] without
    raising: it has sent this one request and written nothing.  Only a
    failure of the transport itself reaches the caller, after the one
    request as well. *)
Theorem non_success_status_is_silent (wf : string) (year month : Z) (w : world) :
  exists_ w (output_file wf year month) = false ->
  let sent := {| fs := fs w;
                 requests := requests w ++ [url year month];
                 server := server w |} in
  (forall req,
     server w (requests w) (url year month) = Ok req ->
     status_code req <> 200%Z ->
     download_xbrl_fin_notes wf year month w = (Ok NoneValue, sent)) /\
  (forall e,
     server w (requests w) (url year month) = Raise e ->
     download_xbrl_fin_notes wf year month w = (Raise e, sent)).
Proof.
  intros He sent. unfold download_xbrl_fin_notes, requests_get. rewrite He.
  split.
  - intros req Hs Hc. rewrite Hs.
    apply Z.eqb_neq in Hc. now rewrite Hc.
  - intros e Hs. now rewrite Hs.
Qed.

Lemma non_success_status_is_silent_witness :
  download_xbrl_fin_notes "/work" 2021 1 w404 =
  (Ok NoneValue,
   {| fs := fs w404;
      requests := requests w404 ++ [url 2021 1];
      server := server w404 |}).
Proof.
  refine (proj1 (non_success_status_is_silent "/work" 2021 1 w404 _) not_found _ _).
  - reflexivity.
  - reflexivity.
  - discriminate.
Defined.

(** C5, as the specification states it, fails twice over.  Two calls
    against a remote end answering 404 send two requests; and with the
    archive on disk the call returns [None], not the extraction folder. *)
Lemma idempotent_fetch_counterexample :
  requests (snd (download_xbrl_fin_notes "/work" 2021 1
                   (snd (download_xbrl_fin_notes "/work" 2021 1 w404)))) =
    [url 2021 1; url 2021 1] /\
  exists_ w_archive_only (output_file "/work" 2021 1) = true /\
  fst (download_xbrl_fin_notes "/work" 2021 1 w_archive_only) = Ok NoneValue /\
  fst (download_xbrl_fin_notes "/work" 2021 1 w_archive_only) <>
    Ok (PathValue (output_folder "/work" 2021 1)).
Proof.
  repeat split. vm_compute. discriminate.
Qed.

(** C5, amended.  Of two calls in a row for the same period, the second
    sends no request and changes nothing once the archive is on disk after
    the first, and then the two calls together send at most one request.
    The archive is on disk after the first call when it was there before
    or when the request was answered with status 200.  Every call that
    returns, returns [None]. *)
Theorem idempotent_fetch (wf : string) (year month : Z) (w : world) :
  let first := download_xbrl_fin_notes wf year month w in
  let second := download_xbrl_fin_notes wf year month (snd first) in
  (exists_ (snd first) (output_file wf year month) = true ->
   second = (Ok NoneValue, snd first) /\
   length (requests (snd second)) <= S (length (requests w))) /\
  (exists_ w (output_file wf year month) = true \/
   (exists req, server w (requests w) (url year month) = Ok req /\
                status_code req = 200%Z) ->
   exists_ (snd first) (output_file wf year month) = true) /\
  (forall v, fst first = Ok v -> v = NoneValue) /\
  (forall v, fst second = Ok v -> v = NoneValue).
Proof.
  intros first second. repeat split.
  - unfold second, download_xbrl_fin_notes at 1. now rewrite H.
  - assert (E : second = (Ok NoneValue, snd first)).
    { unfold second, download_xbrl_fin_notes at 1. now rewrite H. }
    rewrite E. simpl.
    destruct (download_requests wf year month w) as [R | R]; fold first in R;
      rewrite R; [| rewrite length_app; simpl]; lia.
  - intros [H | [req [Hs H200]]].
    + unfold first, download_xbrl_fin_notes. now rewrite H.
    + destruct (exists_ w (output_file wf year month)) eqn:He.
      * unfold first, download_xbrl_fin_notes. now rewrite He.
      * now apply download_200_writes with req.
  - apply download_returns_None.
  - apply download_returns_None.
Qed.

Lemma idempotent_fetch_witness :
  download_xbrl_fin_notes "/work" 2021 1
    (snd (download_xbrl_fin_notes "/work" 2021 1 w200)) =
  (Ok NoneValue, snd (download_xbrl_fin_notes "/work" 2021 1 w200)) /\
  length (requests (snd (download_xbrl_fin_notes "/work" 2021 1
                           (snd (download_xbrl_fin_notes "/work" 2021 1 w200)))))
  <= S (length (requests w200)).
Proof.
  apply (proj1 (idempotent_fetch "/work" 2021 1 w200)).
  reflexivity.
Defined.

(** C9.  The guard looks at the archive file only.  When that path exists
    the call returns at once: the state after the call is the state before
    it, with no request sent and nothing written or extracted; an
    extraction folder that was absent is still absent. *)
Theorem existing_archive_no_effect (wf : string) (year month : Z) (w : world) :
  exists_ w (output_file wf year month) = true ->
  download_xbrl_fin_notes wf year month w = (Ok NoneValue, w) /\
  (exists_ w (output_folder wf year month) = false ->
   exists_ (snd (download_xbrl_fin_notes wf year month w))
           (output_folder wf year month) = false).
Proof.
  intro H. unfold download_xbrl_fin_notes. rewrite H. split; [reflexivity |].
  intro F. exact F.
Qed.

Lemma existing_archive_no_effect_witness :
  exists_ w_archive_only (output_folder "/work" 2021 1) = false /\
  download_xbrl_fin_notes "/work" 2021 1 w_archive_only = (Ok NoneValue, w_archive_only) /\
  exists_ (snd (download_xbrl_fin_notes "/work" 2021 1 w_archive_only))
          (output_folder "/work" 2021 1) = false.
Proof.
  destruct (existing_archive_no_effect "/work" 2021 1 w_archive_only) as [H1 H2].
  - reflexivity.
  - split; [reflexivity |]. split; [exact H1 |]. apply H2. reflexivity.
Defined.

(** ** Integers as text *)

Lemma digit_char_spec (k : N) :
  (k < 10)%N ->
  is_digit (digit_char k) = true /\
  (Z.of_nat (code (digit_char k)) - 48 = Z.of_N k)%Z.
Proof.
  intro H.
  assert (E : k = 0%N \/ k = 1%N \/ k = 2%N \/ k = 3%N \/ k = 4%N \/
              k = 5%N \/ k = 6%N \/ k = 7%N \/ k = 8%N \/ k = 9%N) by lia.
  repeat (destruct E as [-> | E]; [split; reflexivity |]).
  subst. split; reflexivity.
Qed.

Lemma digits_of_app (fuel : nat) (n : N) (acc : list ascii) :
  digits_of fuel n acc = digits_of fuel n [] ++ acc.
Proof.
  revert n acc. induction fuel as [| fuel IH]; intros n acc; simpl; [reflexivity |].
  destruct (N.eqb (n / 10) 0); [reflexivity |].
  rewrite IH. rewrite (IH _ [_]). now rewrite <- app_assoc.
Qed.

Lemma digits_of_digits (fuel : nat) (n : N) :
  forallb is_digit (digits_of fuel n []) = true.
Proof.
  revert n. induction fuel as [| fuel IH]; intro n; simpl; [reflexivity |].
  assert (D : is_digit (digit_char (n mod 10)) = true)
    by (apply digit_char_spec; apply N.mod_lt; discriminate).
  destruct (N.eqb (n / 10) 0); simpl.
  - now rewrite D.
  - rewrite digits_of_app, forallb_app, IH. simpl. now rewrite D.
Qed.

Lemma digits_of_nonempty (fuel : nat) (n : N) :
  digits_of (S fuel) n [] <> [].
Proof.
  simpl. destruct (N.eqb (n / 10) 0); [discriminate |].
  rewrite digits_of_app. intro H. apply app_eq_nil in H. destruct H. discriminate.
Qed.

(** The digits written for [n] add up to [n]. *)
Lemma digits_of_value (fuel : nat) (n : N) :
  (n < 2 ^ N.of_nat fuel)%N ->
  fold_left digit_step (digits_of fuel n []) 0%Z = Z.of_N n.
Proof.
  revert n. induction fuel as [| fuel IH]; intros n H.
  - simpl in *. assert (n = 0%N) by lia. now subst.
  - cbn [digits_of].
    assert (L : (n mod 10 < 10)%N) by (apply N.mod_lt; discriminate).
    destruct (digit_char_spec _ L) as [_ V]. unfold code in V.
    assert (E : n = (10 * (n / 10) + n mod 10)%N) by (apply N.div_mod; discriminate).
    destruct (N.eqb (n / 10) 0) eqn:Q.
    + apply N.eqb_eq in Q. simpl. unfold digit_step. rewrite V. lia.
    + rewrite digits_of_app, fold_left_app. simpl. unfold digit_step at 1.
      rewrite V, IH; [lia |].
      rewrite Nat2N.inj_succ, N.pow_succ_r' in H.
      apply N.Div0.div_lt_upper_bound. lia.
Qed.

Lemma str_N_value (n : N) : fold_left digit_step (str_N n) 0%Z = Z.of_N n.
Proof.
  unfold str_N. apply digits_of_value.
  rewrite Nat2N.inj_succ, N2Nat.id.
  destruct n as [| p]; [reflexivity |].
  apply N.log2_spec. reflexivity.
Qed.


Lemma digit_not_space (c : ascii) :
  is_digit c = true ->
  is_space c = false /\ Ascii.eqb c "-" = false /\ Ascii.eqb c "+" = false.
Proof.
  unfold is_digit, is_space, between. intro H.
  apply andb_prop in H. destruct H as [H1 H2].
  apply Nat.leb_le in H1, H2.
  repeat split.
  - apply orb_false_iff. split.
    + apply Nat.eqb_neq. lia.
    + apply andb_false_iff. right. apply Nat.leb_gt. lia.
  - destruct (Ascii.eqb_spec c "-"); [subst; cbv in H1; lia | reflexivity].
  - destruct (Ascii.eqb_spec c "+"); [subst; cbv in H1; lia | reflexivity].
Qed.


Lemma forallb_weaken {A : Type} (p q : A -> bool) (l : list A) :
  (forall x, p x = true -> q x = true) ->
  forallb p l = true -> forallb q l = true.
Proof.
  intros Hpq. induction l as [| a l IH]; simpl; intro H; [reflexivity |].
  apply andb_prop in H. destruct H as [Ha Hl].
  now rewrite (Hpq a Ha), (IH Hl).
Qed.

Lemma str_int_chars (z : Z) :
  chars (str_int z) <> [] /\ forallb sign_or_digit (chars (str_int z)) = true.
Proof.
  unfold chars, str_int. rewrite list_ascii_of_string_of_list_ascii.
  assert (D : forall n, forallb sign_or_digit (str_N n) = true).
  { intro n. unfold str_N. eapply forallb_weaken; [| apply digits_of_digits].
    intros c H. unfold sign_or_digit. now rewrite H. }
  destruct z as [| p | p].
  - split; [apply digits_of_nonempty | apply D].
  - split; [apply digits_of_nonempty | apply D].
  - split; [discriminate |]. simpl. apply D.
Qed.











(** ** The tokenizer on written lines *)























(** ** What [to_csv] writes for a frame *)









(** ** The kinds the loader infers for written columns *)







(** ** Chunks *)















(** ** Selecting all columns of a frame *)





(** ** Round trip *)






(* ===================================================================== *)
(** * Further properties of the pipeline *)
(* ===================================================================== *)

Lemma in_expected_rows (S T : list row) (forms tags : list cell) (r : row) :
  In r (expected_rows S T forms tags) <->
  exists x o,
    In x S /\ In o T /\
    In (take x 4) forms /\ In (take o 1) tags /\
    adsh x = adsh o /\ r = x ++ drop_at 0 o.
Proof.
  unfold expected_rows. rewrite in_flat_map. split.
  - intros [x [Hx Hr]].
    destruct (existsb (cell_eqb (take x 4)) forms) eqn:F; [| destruct Hr].
    apply in_map_iff in Hr. destruct Hr as [o [<- Ho]].
    apply filter_In in Ho. destruct Ho as [Ho Hc].
    apply andb_prop in Hc. destruct Hc as [Hk Ht].
    exists x, o. repeat split; try assumption.
    + now apply isin_In.
    + now apply isin_In.
    + now apply cell_eqb_eq.
  - intros [x [o [Hx [Ho [Hf [Ht [Hk ->]]]]]]].
    exists x. split; [assumption |].
    apply isin_In in Hf. rewrite Hf.
    apply in_map_iff. exists o. split; [reflexivity |].
    apply filter_In. split; [assumption |].
    apply isin_In in Ht. rewrite Ht, Hk, cell_eqb_refl. reflexivity.
Qed.

(** X1.  A row is in the output exactly when it is a selected submission
    with an accepted form joined to a selected observation with the same
    accession number and an accepted tag: nothing else gets in, and no
    such pair is left out. *)
Theorem output_membership (p : platform) (sub txt s t out : DataFrame)
    (forms tags : list cell) :
  df_sub sub = Ok s ->
  df_txt txt = Ok t ->
  df_fn p sub txt forms tags = Ok out ->
  forall r,
    In r (values out) <->
    exists x o form tag,
      In x (values s) /\ In o (values t) /\
      row_getitem (columns s) x "form" = Ok form /\ In form forms /\
      row_getitem (columns t) o "tag" = Ok tag /\ In tag tags /\
      row_getitem (columns s) x "adsh" = row_getitem (columns t) o "adsh" /\
      r = x ++ drop_at 0 o.
Proof.
  intros Hs Ht H r.
  destruct (df_fn_rows _ _ _ _ _ _ _ _ Hs Ht H) as [l [_ [Hp _]]].
  destruct (getitem_list_width _ _ _ Hs) as [Hcs _].
  destruct (getitem_list_width _ _ _ Ht) as [Hct _].
  assert (Hin : In r (values out) <->
                In r (expected_rows (values s) (values t) forms tags)).
  { split; apply Permutation_in; [assumption | now apply Permutation_sym]. }
  rewrite Hin, in_expected_rows, Hcs, Hct. unfold row_getitem. simpl. split.
  - intros [x [o [Hx [Ho [Hf [Hg [Hk ->]]]]]]].
    exists x, o, (take x 4), (take o 1). unfold adsh in Hk.
    repeat split; try assumption. now rewrite Hk.
  - intros [x [o [f [g [Hx [Ho [Ef [Hf [Eg [Hg [Hk ->]]]]]]]]]]].
    exists x, o. inversion Ef. inversion Eg. inversion Hk. subst.
    repeat split; assumption.
Qed.

Lemma output_membership_witness :
  df_fn notebook_platform ex_sub ex_txt form_types footnote_tags = Ok ex_fn /\
  (In (nth 0 (values ex_fn) []) (values ex_fn) <->
   exists x o form tag,
     In x (values ex_sub_selected) /\ In o (values ex_txt_selected) /\
     row_getitem (columns ex_sub_selected) x "form" = Ok form /\
     In form form_types /\
     row_getitem (columns ex_txt_selected) o "tag" = Ok tag /\
     In tag footnote_tags /\
     row_getitem (columns ex_sub_selected) x "adsh" =
       row_getitem (columns ex_txt_selected) o "adsh" /\
     nth 0 (values ex_fn) [] = x ++ drop_at 0 o).
Proof.
  split; [reflexivity |].
  apply (output_membership notebook_platform ex_sub ex_txt ex_sub_selected
           ex_txt_selected ex_fn form_types footnote_tags); reflexivity.
Defined.

(** ** Missing columns *)

Lemma get_indexer_missing (labels keys : list string) :
  (exists k, In k keys /\ ~ In k labels) ->
  exists k, In k keys /\ ~ In k labels /\
            get_indexer labels keys = Raise (KeyError k).
Proof.
  induction keys as [| a keys IH]; intros [k [Hk Hn]]; [destruct Hk |].
  simpl. destruct (get_loc a labels) as [i |] eqn:E.
  - destruct Hk as [-> | Hk].
    + exfalso. apply Hn. revert i E. clear.
      induction labels as [| l ls IHl]; simpl; intros i E; [discriminate |].
      destruct (String.eqb k l) eqn:Q.
      * apply String.eqb_eq in Q. now left.
      * destruct (get_loc k ls); [| discriminate]. right. now apply IHl with n.
    + destruct IH as [k' [Hk' [Hn' E']]]; [now exists k |].
      exists k'. rewrite E'. split; [now right | split; [assumption | reflexivity]].
  - exists a. split; [now left | split; [| reflexivity]].
    intro Hin. destruct (get_loc_In a labels Hin) as [i Hi]. congruence.
Qed.

(** X2.  A table that lacks a column the pipeline selects makes it raise
    [KeyError], naming a column that is absent: one of the submission
    columns when the submissions lack one, and otherwise one of the
    observation columns. *)
Theorem missing_column_raises (p : platform) (sub txt : DataFrame)
    (forms tags : list cell) :
  ((exists k, In k sub_columns /\ ~ In k (columns sub)) ->
   exists k, In k sub_columns /\ ~ In k (columns sub) /\
             df_fn p sub txt forms tags = Raise (KeyError k)) /\
  (incl sub_columns (columns sub) ->
   (exists k, In k txt_columns /\ ~ In k (columns txt)) ->
   exists k, In k txt_columns /\ ~ In k (columns txt) /\
             df_fn p sub txt forms tags = Raise (KeyError k)).
Proof.
  split.
  - intro H. destruct (get_indexer_missing _ _ H) as [k [Hk [Hn E]]].
    exists k. repeat split; try assumption.
    unfold df_fn, df_txt_filtered, df_sub_filtered, df_sub, getitem_list.
    now rewrite E.
  - intros Hs H. destruct (get_indexer_missing _ _ H) as [k [Hk [Hn E]]].
    exists k. repeat split; try assumption.
    destruct (getitem_list_total sub sub_columns Hs) as [d Hd].
    destruct (getitem_list_width _ _ _ Hd) as [Hdc _].
    unfold df_fn, df_txt_filtered, df_sub_filtered, df_sub.
    rewrite Hd. simpl.
    rewrite (getitem_mask_isin d "form" 4 forms) by (rewrite Hdc; reflexivity).
    simpl. unfold df_txt, getitem_list. now rewrite E.
Qed.

Lemma missing_column_raises_witness :
  (exists k, In k sub_columns /\ ~ In k (columns ex_sub_no_form) /\
             df_fn notebook_platform ex_sub_no_form ex_txt form_types footnote_tags =
               Raise (KeyError k)) /\
  (exists k, In k txt_columns /\ ~ In k (columns ex_txt_no_value) /\
             df_fn notebook_platform ex_sub ex_txt_no_value form_types footnote_tags =
               Raise (KeyError k)).
Proof.
  split.
  - apply (proj1 (missing_column_raises notebook_platform ex_sub_no_form ex_txt
                    form_types footnote_tags)).
    exists "form"%string. split; [simpl; tauto |].
    simpl. intuition discriminate.
  - apply (proj2 (missing_column_raises notebook_platform ex_sub ex_txt_no_value
                    form_types footnote_tags)).
    + intros k Hk. simpl in *. intuition.
    + exists "value"%string. split; [simpl; tauto |].
      simpl. intuition discriminate.
Defined.

(** ** Shape and size of the output *)

Lemma merged_width (p : platform) (sub txt m : DataFrame) (forms : list cell) :
  df_txt_filtered p sub txt forms = Ok m -> length (columns m) = 11.
Proof.
  intro H. destruct (df_txt_filtered_Ok _ _ _ _ _ H) as [l [r [_ [_ [Hc _]]]]].
  rewrite Hc. now destruct (no_rows l && negb (keeps_left_order p)).
Qed.

(** X3.  The output is rectangular: each of its rows has eleven cells, one
    per column. *)
Theorem output_rectangular (p : platform) (sub txt out : DataFrame)
    (forms tags : list cell) :
  df_fn p sub txt forms tags = Ok out ->
  Forall (fun r => length r = 11 /\ length r = length (columns out)) (values out).
Proof.
  intro H.
  destruct (df_fn_Ok _ _ _ _ _ _ H) as [m [Hm [Hc _]]].
  destruct (df_txt_filtered_Ok _ _ _ _ _ Hm) as [l [t [Hl [Ht _]]]].
  destruct (df_sub_filtered_Ok _ _ _ Hl) as [s [Hs _]].
  destruct (df_fn_rows _ _ _ _ _ _ _ _ Hs Ht H) as [_ [_ [Hp _]]].
  destruct (getitem_list_width _ _ _ Hs) as [_ Hws].
  destruct (getitem_list_width _ _ _ Ht) as [_ Hwt].
  apply Forall_forall. intros r Hr. apply (Permutation_in _ Hp) in Hr.
  apply in_expected_rows in Hr. destruct Hr as [x [o [Hx [Ho [_ [_ [_ ->]]]]]]].
  rewrite Forall_forall in Hws, Hwt.
  rewrite Hc, (merged_width _ _ _ _ _ Hm), length_app, (Hws x Hx).
  unfold drop_at. cbn [firstn app].
  rewrite length_skipn, (Hwt o Ho). split; reflexivity.
Qed.

Lemma output_rectangular_witness :
  df_fn notebook_platform ex_sub dup_txt form_types footnote_tags = Ok dup_fn /\
  Forall (fun r => length r = 11 /\ length r = length (columns dup_fn)) (values dup_fn).
Proof.
  split; [reflexivity |].
  apply (output_rectangular notebook_platform ex_sub dup_txt dup_fn
           form_types footnote_tags).
  reflexivity.
Defined.

(** A filter on the tag of the joined rows is a filter on the tag of the
    observations. *)
Lemma join_filter_rows (p : cell -> bool) (L T : list row) :
  Forall (fun r => length r = 7) L ->
  filter (fun r => p (take r 7)) (flat_map (join_row 0 0 T) L) =
  flat_map (join_row 0 0 (filter (fun o => p (take o 1)) T)) L.
Proof.
  intro HL. rewrite filter_flat_map. apply flat_map_ext_In. intros l Hl.
  rewrite Forall_forall in HL. specialize (HL l Hl).
  unfold join_row. rewrite filter_map_swap, !filter_filter.
  f_equal. apply filter_ext. intro o.
  rewrite take_app_right by lia. rewrite HL. simpl.
  rewrite take_drop_at_0. apply andb_comm.
Qed.

Lemma df_sub_filtered_width (sub l : DataFrame) (forms : list cell) :
  df_sub_filtered sub forms = Ok l ->
  Forall (fun r => length r = 7) (values l).
Proof.
  intro H. destruct (df_sub_filtered_Ok _ _ _ H) as [d [Hd [_ [_ Hv]]]].
  destruct (getitem_list_width _ _ _ Hd) as [_ Hw].
  rewrite Hv. apply Forall_forall. intros r Hr. apply filter_In in Hr.
  rewrite Forall_forall in Hw. now apply Hw.
Qed.

Lemma filter_width (q : row -> bool) (n : nat) (L : list row) :
  Forall (fun r => length r = n) L -> Forall (fun r => length r = n) (filter q L).
Proof.
  intro H. apply Forall_forall. intros r Hr. apply filter_In in Hr.
  rewrite Forall_forall in H. now apply H.
Qed.

(** The same under any release: the groups of the left keys do not depend
    on the right frame. *)
Lemma merge_filter_rows (p : platform) (q : cell -> bool) (L T : list row) :
  Forall (fun r => length r = 7) L ->
  filter (fun r => q (take r 7)) (merge_rows p 0 0 L T) =
  merge_rows p 0 0 L (filter (fun o => q (take o 1)) T).
Proof.
  intro HL. unfold merge_rows. destruct (keeps_left_order p).
  - now apply join_filter_rows.
  - rewrite filter_flat_map. apply flat_map_ext_In. intros k _.
    apply join_filter_rows. now apply filter_width.
Qed.

Lemma getitem_mask_column (d : DataFrame) (i : nat) (vals : list cell) :
  getitem_mask d (isin (map (fun r => take r i) (values d)) vals) =
  Ok {| columns := columns d;
        dtypes := dtypes d;
        values := filter (fun r => existsb (cell_eqb (take r i)) vals) (values d) |}.
Proof.
  unfold getitem_mask, isin. rewrite !length_map, Nat.eqb_refl.
  rewrite map_map, select_map. reflexivity.
Qed.

Lemma tag_filter_commutes_aux (p : platform) (sub txt l t : DataFrame)
    (forms tags : list cell) :
  df_sub_filtered sub forms = Ok l ->
  df_txt txt = Ok t ->
  dtype_at (dtypes l) 0 = dtype_at (dtypes t) 0 ->
  exists out,
    df_fn p sub txt forms tags = Ok out /\
    df_fn_tags_first p sub txt forms tags = Ok out.
Proof.
  intros Hl Ht Hd.
  destruct (df_sub_filtered_Ok _ _ _ Hl) as [d [_ [Hlc _]]].
  destruct (getitem_list_width _ _ _ Ht) as [Htc _].
  pose proof (df_sub_filtered_width _ _ _ Hl) as Hw.
  unfold df_fn, df_fn_tags_first, df_txt_filtered. rewrite Hl, Ht. cbn [bind].
  unfold getitem at 2. rewrite Htc.
  change (get_loc "tag" txt_columns) with (Some 1). cbn [bind].
  rewrite getitem_mask_column. cbn [bind].
  unfold merge. cbn [columns dtypes values]. rewrite Hlc, Htc.
  change (get_loc "adsh" sub_columns) with (Some 0).
  change (get_loc "adsh" txt_columns) with (Some 0).
  cbv beta iota zeta.
  rewrite Hd, !coerce_same. cbn [bind].
  destruct (no_rows l && negb (keeps_left_order p)) eqn:E; cbn [bind].
  - unfold getitem. cbn [columns].
    change (get_loc "tag" (merge_columns_left_empty 0 sub_columns txt_columns))
      with (Some 7). cbn [bind values map].
    unfold getitem_mask, isin. cbn. eexists. split; reflexivity.
  - unfold getitem. cbn [columns].
    change (get_loc "tag" (merge_columns 0 sub_columns txt_columns))
      with (Some 7). cbn [bind values].
    pose proof (getitem_mask_column
               {| columns := merge_columns 0 sub_columns txt_columns;
                  dtypes := dtypes_with (dtypes l) (length sub_columns) 0
                              (dtype_at (dtypes t) 0) ++
                            drop_at_types 0
                              (dtypes_with (dtypes t) (length txt_columns) 0
                                 (dtype_at (dtypes t) 0));
                  values := merge_rows p 0 0 (values l) (values t) |} 7 tags) as G.
    cbn [columns dtypes values] in G. rewrite G. clear G.
    cbn [bind columns dtypes values]. unfold reset_index_drop.
    rewrite (merge_filter_rows p (fun c => existsb (cell_eqb c) tags)) by exact Hw.
    eexists. split; reflexivity.
Qed.

(** X4.  When the two accession columns have one type, the tag filter
    commutes with the merge: filtering the observations by tag before
    merging gives the table that filtering the merged rows gives, under
    any release. *)
Theorem tag_filter_commutes (p : platform) (sub txt l t : DataFrame)
    (forms tags : list cell) :
  df_sub_filtered sub forms = Ok l ->
  df_txt txt = Ok t ->
  dtype_at (dtypes l) 0 = dtype_at (dtypes t) 0 ->
  exists out,
    df_fn p sub txt forms tags = Ok out /\
    df_fn_tags_first p sub txt forms tags = Ok out.
Proof. apply tag_filter_commutes_aux. Qed.

Lemma tag_filter_commutes_witness :
  df_fn notebook_platform ord_sub ord_txt form_types footnote_tags = Ok ord_fn /\
  exists out,
    df_fn notebook_platform ord_sub ord_txt form_types footnote_tags = Ok out /\
    df_fn_tags_first notebook_platform ord_sub ord_txt form_types footnote_tags = Ok out.
Proof.
  split; [reflexivity |].
  apply (tag_filter_commutes notebook_platform ord_sub ord_txt
           {| columns := sub_columns; dtypes := sub_dtypes;
              values := [nth 0 (values ord_sub) []; nth 2 (values ord_sub) []] |}
           ord_txt form_types footnote_tags); reflexivity.
Defined.

(** The pipeline returns a table when both selections do and the two
    accession columns have one type. *)
Lemma df_fn_total (p : platform) (sub txt l t : DataFrame) (forms tags : list cell) :
  df_sub_filtered sub forms = Ok l ->
  df_txt txt = Ok t ->
  dtype_at (dtypes l) 0 = dtype_at (dtypes t) 0 ->
  exists out, df_fn p sub txt forms tags = Ok out.
Proof.
  intros Hl Ht Hd.
  destruct (tag_filter_commutes_aux p sub txt l t forms tags Hl Ht Hd) as [out H].
  now exists out.
Qed.

(** X5.  When the two accession columns have one type, an empty form
    allow-list, an empty tag allow-list, no submission or no observation
    do not make the pipeline fail: it returns a table of eleven columns
    without rows.  The columns are those of the merged table, with the key
    after [filed] when no submission is retained under a pandas before
    2.2. *)
Theorem nothing_selected (p : platform) (sub txt l t : DataFrame)
    (forms tags : list cell) :
  df_sub_filtered sub forms = Ok l ->
  df_txt txt = Ok t ->
  dtype_at (dtypes l) 0 = dtype_at (dtypes t) 0 ->
  forms = [] \/ tags = [] \/ values sub = [] \/ values txt = [] ->
  exists out,
    df_fn p sub txt forms tags = Ok out /\
    values out = [] /\
    columns out =
      (if no_rows l && negb (keeps_left_order p)
       then fn_columns_key_right else fn_columns).
Proof.
  intros Hl Ht Hd Hcase.
  destruct (df_fn_total p sub txt l t forms tags Hl Ht Hd) as [out H].
  exists out. split; [exact H |].
  destruct (df_fn_Ok _ _ _ _ _ _ H) as [m [Hm [Hc _]]].
  destruct (df_txt_filtered_Ok _ _ _ _ _ Hm) as [l' [t' [Hl' [Ht' [Hmc _]]]]].
  rewrite Hl in Hl'. inversion Hl'; subst l'.
  destruct (df_sub_filtered_Ok _ _ _ Hl) as [s [Hs _]].
  destruct (df_fn_rows _ _ _ _ _ _ _ _ Hs Ht H) as [_ [_ [Hp _]]].
  split; [| now rewrite Hc].
  destruct (values out) as [| r rs] eqn:Q; [reflexivity |]. exfalso.
  assert (Hr : In r (expected_rows (values s) (values t) forms tags))
    by (apply (Permutation_in _ Hp); now left).
  apply in_expected_rows in Hr.
  destruct Hr as [x [o [Hx [Ho [Hf [Hg _]]]]]].
  destruct (getitem_list_Ok _ _ _ Hs) as [ixs [_ ->]].
  destruct (getitem_list_Ok _ _ _ Ht) as [ixt [_ ->]].
  simpl in Hx, Ho.
  destruct Hcase as [E | [E | [E | E]]].
  - rewrite E in Hf. destruct Hf.
  - rewrite E in Hg. destruct Hg.
  - rewrite E in Hx. destruct Hx.
  - rewrite E in Ho. destruct Ho.
Qed.

Lemma nothing_selected_witness :
  (exists out,
     df_fn notebook_platform ex_sub ex_txt [] footnote_tags = Ok out /\
     values out = [] /\ columns out = fn_columns_key_right) /\
  (exists out,
     df_fn recent_platform ex_sub ex_txt [] footnote_tags = Ok out /\
     values out = [] /\ columns out = fn_columns) /\
  (exists out,
     df_fn notebook_platform ex_sub ex_txt form_types [] = Ok out /\
     values out = [] /\ columns out = fn_columns).
Proof.
  split; [| split].
  - apply (nothing_selected notebook_platform ex_sub ex_txt
             {| columns := sub_columns; dtypes := sub_dtypes; values := [] |}
             ex_txt_selected [] footnote_tags); try reflexivity. now left.
  - apply (nothing_selected recent_platform ex_sub ex_txt
             {| columns := sub_columns; dtypes := sub_dtypes; values := [] |}
             ex_txt_selected [] footnote_tags); try reflexivity. now left.
  - apply (nothing_selected notebook_platform ex_sub ex_txt ex_sub_filtered
             ex_txt_selected form_types []); try reflexivity. right. now left.
Defined.

(** X6.  When the accession numbers of the retained submissions are
    pairwise distinct, the output has as many rows as there are
    observations with an accepted tag whose accession number is that of a
    retained submission. *)
Theorem output_cardinality (p : platform) (sub txt l t out : DataFrame)
    (forms tags : list cell) :
  df_sub_filtered sub forms = Ok l ->
  df_txt txt = Ok t ->
  df_fn p sub txt forms tags = Ok out ->
  NoDup (map adsh (values l)) ->
  length (values out) =
  length (filter (fun o => existsb (cell_eqb (take o 1)) tags &&
                           existsb (cell_eqb (adsh o)) (map adsh (values l)))
                 (values t)).
Proof.
  intros Hl Ht H Hnd.
  destruct (df_fn_rows_permutation _ _ _ _ _ _ H)
    as [d [l' [t' [_ [Hl' [Ht' [_ [Hp _]]]]]]]].
  rewrite Hl in Hl'. rewrite Ht in Ht'. inversion Hl'; inversion Ht'; subst l' t'.
  rewrite (Permutation_length Hp).
  rewrite (join_filter_rows (fun c => existsb (cell_eqb c) tags))
    by (eapply df_sub_filtered_width; eassumption).
  rewrite (inner_join_length 0 0 _ _ Hnd), filter_filter. reflexivity.
Qed.

Lemma output_cardinality_witness :
  df_fn notebook_platform ex_sub dup_txt form_types footnote_tags = Ok dup_fn /\
  length (values dup_fn) =
  length (filter (fun o => existsb (cell_eqb (take o 1)) footnote_tags &&
                           existsb (cell_eqb (adsh o)) (map adsh (values ex_sub_filtered)))
                 (hd [] (values ex_txt_selected) :: values ex_txt_selected)).
Proof.
  split; [reflexivity |].
  apply (output_cardinality notebook_platform ex_sub dup_txt ex_sub_filtered
           {| columns := txt_columns;
              dtypes := txt_dtypes;
              values := hd [] (values ex_txt_selected) :: values ex_txt_selected |}
           dup_fn form_types footnote_tags).
  - reflexivity.
  - reflexivity.
  - reflexivity.
  - repeat constructor; simpl; intuition discriminate.
Defined.

(** ** The word-count column *)

Lemma map_rows_Ok (f : row -> result cell) (rs : list row) :
  Forall (fun r => exists v, f r = Ok v) rs ->
  exists vs, map_rows f rs = Ok vs /\ Forall2 (fun r v => f r = Ok v) rs vs.
Proof.
  induction 1 as [| r rs [v Hv] _ [vs [E F]]]; simpl.
  - exists []. split; [reflexivity | constructor].
  - exists (v :: vs). rewrite Hv, E. split; [reflexivity | now constructor].
Qed.

Lemma append_column (P : row -> cell -> Prop) (rs : list row) (vs : list cell) :
  Forall2 P rs vs ->
  Forall2 (fun r r' => exists v, P r v /\ r' = r ++ [v]) rs
          (map (fun rv => fst rv ++ [snd rv]) (combine rs vs)).
Proof.
  induction 1 as [| r v rs vs Hrv _ IH]; simpl; constructor; [| exact IH].
  now exists v.
Qed.

(** X7.  On a table with rows whose [value] cells are all text,
    [add_fn_length] returns the table with one more column, [fn_length],
    placed last: every row keeps its cells and gains the word count of its
    own [value]. *)
Theorem add_fn_length_rows (df : DataFrame) (i : nat) :
  get_loc "value" (columns df) = Some i ->
  get_loc "fn_length" (columns df) = None ->
  values df <> [] ->
  Forall (fun r => exists s, take r i = CStr s) (values df) ->
  exists out,
    add_fn_length df = Ok out /\
    columns out = columns df ++ ["fn_length"%string] /\
    Forall2 (fun r r' => exists n, count_words (take r i) = Ok n /\ r' = r ++ [CInt n])
            (values df) (values out).
Proof.
  intros Hi Hn Hne Htext.
  set (f := fun (labels : list string) (r : row) =>
              v <- row_getitem labels r "value" ;;
              n <- count_words v ;; Ok (CInt n)).
  assert (Hf : Forall (fun r => exists v, f (columns df) r = Ok v) (values df)).
  { eapply Forall_impl; [| exact Htext]. intros r [s Hs].
    unfold f, row_getitem. rewrite Hi. simpl. rewrite Hs. simpl. eauto. }
  destruct (map_rows_Ok _ _ Hf) as [vs [E F]].
  assert (Hrows : Nat.eqb (length (values df)) 0 = false)
    by (destruct (values df); [now elim Hne | reflexivity]).
  assert (Hcols : Nat.eqb (length (columns df)) 0 = false)
    by (destruct (columns df); [discriminate Hi | reflexivity]).
  unfold add_fn_length, apply_axis1. rewrite Hrows, Hcols. simpl.
  match goal with
  | |- context [map_rows ?g _] => change g with (f (columns df))
  end.
  rewrite E. simpl.
  rewrite (Forall2_length F), Nat.eqb_refl.
  eexists. split; [reflexivity |]. unfold set_column. rewrite Hn. simpl.
  split; [reflexivity |].
  assert (G : Forall2 (fun r v => exists n, count_words (take r i) = Ok n /\ v = CInt n)
                      (values df) vs).
  { eapply Forall2_impl; [| exact F]. intros r v Hv.
    unfold f, row_getitem in Hv. rewrite Hi in Hv. simpl in Hv.
    destruct (count_words (take r i)) as [n |]; simpl in Hv; [| discriminate].
    inversion Hv. now exists n. }
  eapply Forall2_impl; [| apply (append_column _ _ _ G)].
  intros r r' [v [[n [Hc ->]] ->]]. now exists n.
Qed.

Lemma add_fn_length_rows_witness :
  exists out,
    add_fn_length ex_fn = Ok out /\
    columns out = columns ex_fn ++ ["fn_length"%string] /\
    Forall2 (fun r r' => exists n, count_words (take r 10) = Ok n /\ r' = r ++ [CInt n])
            (values ex_fn) (values out).
Proof.
  apply (add_fn_length_rows ex_fn 10).
  - reflexivity.
  - reflexivity.
  - discriminate.
  - repeat constructor. now exists "Text one."%string.
Defined.

(** X8.  When the pipeline's output has no row, adding the word count
    raises [ValueError]: [apply] hands back a copy of the empty table, and
    a table of eleven columns cannot be stored under one label. *)
Theorem add_fn_length_empty (p : platform) (sub txt out : DataFrame)
    (forms tags : list cell) :
  df_fn p sub txt forms tags = Ok out ->
  values out = [] ->
  add_fn_length out = Raise ValueError.
Proof.
  intros H E. destruct (df_fn_Ok _ _ _ _ _ _ H) as [m [Hm [Hc _]]].
  pose proof (merged_width _ _ _ _ _ Hm) as W. rewrite <- Hc in W.
  unfold add_fn_length, apply_axis1. rewrite E. simpl.
  destruct (columns out) as [| a [| b cs]]; try discriminate W; reflexivity.
Qed.

Lemma add_fn_length_empty_witness :
  df_fn notebook_platform ex_sub ex_txt form_types [] = Ok empty_fn /\
  add_fn_length empty_fn = Raise ValueError /\
  df_fn notebook_platform ex_sub ex_txt [] footnote_tags = Ok empty_fn_key_right /\
  add_fn_length empty_fn_key_right = Raise ValueError.
Proof.
  split; [reflexivity |]. split; [| split; [reflexivity |]].
  - apply (add_fn_length_empty notebook_platform ex_sub ex_txt empty_fn
             form_types []); reflexivity.
  - apply (add_fn_length_empty notebook_platform ex_sub ex_txt empty_fn_key_right
             [] footnote_tags); reflexivity.
Defined.

(* ===================================================================== *)
(** * Further properties of the word counter *)
(* ===================================================================== *)

Lemma substring_length_le (n : nat) (s : string) :
  String.length (substring 0 n s) <= n.
Proof.
  revert s. induction n as [| n IH]; intro s; destruct s as [| c s]; simpl; try lia.
  specialize (IH s). lia.
Qed.

Lemma substring_prefix (n : nat) (s t : string) :
  n <= String.length s -> substring 0 n (s ++ t) = substring 0 n s.
Proof.
  revert s. induction n as [| n IH]; intros s H.
  - destruct s; simpl; now destruct t.
  - destruct s as [| c s]; simpl in *; [lia |]. f_equal. apply IH. lia.
Qed.

Lemma substring_whole (s : string) : substring 0 (String.length s) s = s.
Proof. induction s as [| c s IH]; simpl; [reflexivity | now rewrite IH]. Qed.

(** The words lie side by side in the text, after the [skip] characters
    still to be stepped over. *)
Lemma scan_room (skip : nat) (prev : option ascii) (s : string) :
  skip <= String.length s ->
  list_sum (map String.length (scan skip prev s)) + skip <= String.length s.
Proof.
  revert skip prev. induction s as [| c s IH]; intros skip prev H; simpl in *.
  - lia.
  - destruct skip as [| k].
    + destruct (at_boundary prev (Some c) && in_class c).
      * destruct (word_end c s) as [n |] eqn:E.
        -- destruct (word_end_class _ _ _ E) as [Hn _].
           simpl. specialize (IH n (Some c) Hn).
           pose proof (substring_length_le n s). lia.
        -- specialize (IH 0 (Some c)). lia.
      * specialize (IH 0 (Some c)). lia.
    + specialize (IH k (Some c)). lia.
Qed.

Lemma nonempty_count (ws : list string) :
  Forall (fun w => w <> EmptyString) ws ->
  length ws <= list_sum (map String.length ws).
Proof.
  induction 1 as [| w ws Hw _ IH]; simpl; [lia |].
  destruct w; [now elim Hw | simpl; lia].
Qed.

(** X9.  The words found are separate pieces of the text: their lengths
    add up to at most the length of the text, so a text has no more
    words than characters. *)
Theorem words_fit_text (s : string) :
  exists ws,
    rx_word_findall (CStr s) = Ok ws /\
    count_words (CStr s) = Ok (Z.of_nat (length ws)) /\
    list_sum (map String.length ws) <= String.length s /\
    length ws <= String.length s.
Proof.
  exists (scan 0 None s). repeat split.
  - pose proof (scan_room 0 None s). lia.
  - pose proof (scan_room 0 None s).
    assert (length (scan 0 None s) <= list_sum (map String.length (scan 0 None s))).
    { apply nonempty_count. eapply Forall_impl; [| apply scan_words].
      now intros w [Hw _]. }
    lia.
Qed.

Lemma scan_no_class (skip : nat) (prev : option ascii) (s : string) :
  forallb (fun c => negb (in_class c)) (list_ascii_of_string s) = true ->
  scan skip prev s = [].
Proof.
  revert skip prev. induction s as [| c s IH]; intros skip prev H; [reflexivity |].
  simpl in H. apply andb_prop in H. destruct H as [Hc Hs].
  apply negb_true_iff in Hc. simpl. rewrite Hc, andb_false_r.
  destruct skip; now apply IH.
Qed.

(** X10.  A text without any letter, apostrophe or hyphen has no word. *)
Theorem no_class_char_no_word (s : string) :
  forallb (fun c => negb (in_class c)) (list_ascii_of_string s) = true ->
  rx_word_findall (CStr s) = Ok [] /\ count_words (CStr s) = Ok 0%Z.
Proof.
  intro H. unfold count_words. simpl. now rewrite (scan_no_class 0 None s H).
Qed.

Lemma no_class_char_no_word_witness :
  rx_word_findall (CStr "2021: 10 + 5 = 15 (100%)") = Ok [] /\
  count_words (CStr "2021: 10 + 5 = 15 (100%)") = Ok 0%Z.
Proof.
  apply (no_class_char_no_word "2021: 10 + 5 = 15 (100%)"). reflexivity.
Defined.

Lemma last_cons (c d : ascii) (l : list ascii) : last (c :: l) d = last l c.
Proof.
  revert c d. induction l as [| a l IH]; intros c d; [reflexivity |].
  change (last (c :: a :: l) d) with (last (a :: l) d).
  now rewrite (IH a d), (IH a c).
Qed.

Lemma word_end_run (c : ascii) (s : string) :
  forallb in_class (list_ascii_of_string s) = true ->
  is_word (last (list_ascii_of_string s) c) = true ->
  word_end c s = Some (String.length s).
Proof.
  revert c. induction s as [| d s IH]; intros c Hall Hlast.
  - simpl in *. unfold at_boundary. simpl. now rewrite Hlast.
  - change (list_ascii_of_string (String d s))
      with (d :: list_ascii_of_string s) in Hlast, Hall.
    rewrite last_cons in Hlast. simpl in Hall.
    apply andb_prop in Hall. destruct Hall as [Hd Hs].
    simpl. now rewrite Hd, (IH d Hs Hlast).
Qed.

Lemma scan_skip_all (skip : nat) (prev : option ascii) (s : string) :
  String.length s <= skip -> scan skip prev s = [].
Proof.
  revert skip prev. induction s as [| c s IH]; intros skip prev H; [reflexivity |].
  simpl in *. destruct skip as [| k]; [lia |]. apply IH. lia.
Qed.

Lemma letter_is_word (c : ascii) : is_letter c = true -> is_word c = true.
Proof. intro H. unfold is_word. now rewrite H. Qed.

(** X11.  A run of letters, apostrophes and hyphens that starts and ends
    with a letter, standing alone, is one word: the whole text. *)
Theorem lone_run_is_one_word (c : ascii) (s : string) :
  is_letter c = true ->
  forallb in_class (list_ascii_of_string s) = true ->
  is_letter (last (list_ascii_of_string s) c) = true ->
  rx_word_findall (CStr (String c s)) = Ok [String c s] /\
  count_words (CStr (String c s)) = Ok 1%Z.
Proof.
  intros Hc Hall Hlast.
  assert (E : scan 0 None (String c s) = [String c s]).
  { simpl. unfold at_boundary. simpl. rewrite (letter_is_word c Hc).
    unfold in_class. rewrite Hc. simpl.
    rewrite (word_end_run c s Hall (letter_is_word _ Hlast)).
    rewrite substring_whole, scan_skip_all by lia. reflexivity. }
  unfold count_words. simpl. simpl in E. now rewrite E.
Qed.

Lemma lone_run_is_one_word_witness :
  rx_word_findall (CStr "state-of-the-art") = Ok ["state-of-the-art"%string] /\
  count_words (CStr "state-of-the-art") = Ok 1%Z.
Proof.
  apply (lone_run_is_one_word "s" "tate-of-the-art"); reflexivity.
Defined.

Lemma word_end_before (sep c : ascii) (s b : string) :
  is_word sep = false ->
  in_class sep = false ->
  word_end c (s ++ String sep b) = word_end c s.
Proof.
  intros Hw Hi. revert c. induction s as [| d s IH]; intro c; simpl.
  - rewrite Hi. unfold at_boundary. simpl. now rewrite Hw.
  - now rewrite IH.
Qed.

Lemma scan_prev (skip : nat) (p q : option ascii) (s : string) :
  word_at p = word_at q -> scan skip p s = scan skip q s.
Proof.
  intro H. destruct s as [| c s]; [reflexivity |]. simpl.
  destruct skip; [| reflexivity]. unfold at_boundary. now rewrite H.
Qed.

(** Across a character that is neither a word character nor one of the
    class, the scan of the first part is not aware of the second. *)
Lemma scan_across (sep : ascii) (skip : nat) (prev : option ascii) (a b : string) :
  is_word sep = false ->
  in_class sep = false ->
  skip <= String.length a ->
  scan skip prev (a ++ String sep b) = scan skip prev a ++ scan 0 None b.
Proof.
  intros Hw Hi. revert skip prev.
  induction a as [| c a IH]; intros skip prev H; simpl in *.
  - assert (skip = 0) by lia. subst. rewrite Hi, andb_false_r.
    apply scan_prev. simpl. exact Hw.
  - destruct skip as [| k]; [| apply IH; lia].
    rewrite (word_end_before sep c a b Hw Hi).
    destruct (at_boundary prev (Some c) && in_class c); [| apply IH; lia].
    destruct (word_end c a) as [n |] eqn:E; [| apply IH; lia].
    destruct (word_end_class _ _ _ E) as [Hn _].
    rewrite (substring_prefix n a _ Hn), (IH n (Some c) Hn). reflexivity.
Qed.

(** X12.  Words do not reach across a character that is neither a word
    character nor a letter, apostrophe or hyphen (a space, a full stop, a
    line break): the words of two texts joined by it are the words of the
    first followed by the words of the second, and the counts add up. *)
Theorem words_across_separator (sep : ascii) (a b : string) (wa wb : list string) :
  is_word sep = false ->
  in_class sep = false ->
  rx_word_findall (CStr a) = Ok wa ->
  rx_word_findall (CStr b) = Ok wb ->
  rx_word_findall (CStr (a ++ String sep b)) = Ok (wa ++ wb) /\
  count_words (CStr (a ++ String sep b)) =
    Ok (Z.of_nat (length wa) + Z.of_nat (length wb))%Z.
Proof.
  intros Hw Hi Ha Hb. simpl in Ha, Hb. inversion Ha. inversion Hb.
  unfold count_words. simpl.
  rewrite (scan_across sep 0 None a b Hw Hi) by lia.
  rewrite length_app, Nat2Z.inj_add. now split.
Qed.

Lemma words_across_separator_witness :
  rx_word_findall (CStr "the company's plan. A state-of-the-art solution") =
    Ok (["the"%string; "company's"%string; "plan"%string] ++
        ["A"%string; "state-of-the-art"%string; "solution"%string]) /\
  count_words (CStr "the company's plan. A state-of-the-art solution") =
    Ok (Z.of_nat 3 + Z.of_nat 3)%Z.
Proof.
  apply (words_across_separator "." "the company's plan" " A state-of-the-art solution"
           ["the"; "company's"; "plan"]%string
           ["A"; "state-of-the-art"; "solution"]%string); reflexivity.
Defined.

(* ===================================================================== *)
(** * Further properties of the download *)
(* ===================================================================== *)

Lemma append_assoc_s (a b c : string) : ((a ++ b) ++ c = a ++ (b ++ c))%string.
Proof. induction a as [| x a IH]; simpl; [reflexivity | now rewrite IH]. Qed.

Lemma append_inj_l (a b c : string) : (a ++ b = a ++ c)%string -> b = c.
Proof. induction a as [| x a IH]; simpl; intro H; [exact H | inversion H; auto]. Qed.

Lemma append_length (a b : string) :
  String.length (a ++ b) = String.length a + String.length b.
Proof. induction a as [| x a IH]; simpl; [reflexivity | now rewrite IH]. Qed.

Lemma path_join_inj (a b c : string) : path_join a b = path_join a c -> b = c.
Proof.
  unfold path_join. intro H. apply append_inj_l in H. now apply append_inj_l in H.
Qed.

Lemma path_join_longer (a b : string) : path_join a b <> a.
Proof.
  unfold path_join. intro H. apply (f_equal String.length) in H.
  rewrite append_length in H. simpl in H. lia.
Qed.

Lemma before_last_dot_zip (a : string) :
  before_last_dot (a ++ ".zip") = Some a.
Proof. induction a as [| c a IH]; simpl; [reflexivity | now rewrite IH]. Qed.

Lemma str_int_nonempty (z : Z) : exists c r, str_int z = String c r.
Proof.
  destruct (str_int_chars z) as [Hne _]. unfold chars in Hne.
  destruct (str_int z) as [| c r]; [now elim Hne | eauto].
Qed.

Lemma filename_notes (year month : Z) :
  filename year month = (notes_folder year month ++ ".zip")%string.
Proof.
  unfold filename, notes_folder. now rewrite !append_assoc_s.
Qed.

Lemma stem_filename (year month : Z) :
  stem (filename year month) = notes_folder year month.
Proof.
  rewrite filename_notes. unfold notes_folder.
  destruct (str_int_nonempty year) as [c [r ->]]. simpl.
  now rewrite before_last_dot_zip.
Qed.

Lemma loader_reads_extraction_folder_aux (wf : string) (year month : Z) :
  sub_file wf year month = path_join (output_folder wf year month) "sub.tsv" /\
  txt_file wf year month = path_join (output_folder wf year month) "txt.tsv".
Proof.
  unfold output_folder, sub_file, txt_file. now rewrite stem_filename.
Qed.

(** X13.  The folder the download extracts to is the folder the loading
    cells read from: [sub_file] and [txt_file] are the members [sub.tsv]
    and [txt.tsv] of the extraction folder, for every period. *)
Theorem loader_reads_extraction_folder (wf : string) (year month : Z) :
  output_folder wf year month = path_join wf (notes_folder year month) /\
  sub_file wf year month = path_join (output_folder wf year month) "sub.tsv" /\
  txt_file wf year month = path_join (output_folder wf year month) "txt.tsv".
Proof.
  unfold output_folder, sub_file, txt_file. now rewrite stem_filename.
Qed.

Lemma file_not_folder (wf : string) (year month : Z) :
  output_file wf year month <> output_folder wf year month.
Proof.
  unfold output_file, output_folder. intro H. apply path_join_inj in H.
  rewrite stem_filename, filename_notes in H.
  apply (f_equal String.length) in H. rewrite append_length in H. simpl in H. lia.
Qed.

Lemma file_not_member (wf : string) (year month : Z) (name : string) :
  output_file wf year month <> path_join (output_folder wf year month) name.
Proof.
  unfold output_file, output_folder. rewrite stem_filename, filename_notes.
  unfold path_join. rewrite !append_assoc_s. intro H.
  apply append_inj_l in H. simpl in H. inversion H as [H'].
  apply append_inj_l in H'. discriminate H'.
Qed.

(** *** Members at the top level of the archive *)

Lemma split_no_slash (s : string) :
  no_slash s = true -> split_slash s = [s].
Proof.
  unfold no_slash. induction s as [| c s IH]; simpl; intro H; [reflexivity |].
  apply andb_prop in H. destruct H as [Hc Hs]. apply negb_true_iff in Hc.
  rewrite Hc, (IH Hs). reflexivity.
Qed.

Lemma flat_parts (name : string) :
  flat_name name = true -> arcname_parts name = [name].
Proof.
  unfold flat_name, arcname_parts. intro H. apply andb_prop in H.
  destruct H as [Hs Hv]. rewrite (split_no_slash _ Hs). simpl. now rewrite Hv.
Qed.

Lemma last_char_In (s : string) (c : ascii) :
  last_char s = Some c -> In c (list_ascii_of_string s).
Proof.
  induction s as [| a s IH]; simpl; [discriminate |].
  destruct s as [| b s]; [intro H; inversion H; now left |].
  intro H. right. now apply IH.
Qed.

Lemma flat_not_dir (name : string) : flat_name name = true -> is_dir name = false.
Proof.
  unfold flat_name, is_dir. intro H. apply andb_prop in H. destruct H as [Hs _].
  destruct (last_char name) as [c |] eqn:L; [| reflexivity].
  apply last_char_In in L. unfold no_slash in Hs. rewrite forallb_forall in Hs.
  apply negb_true_iff. now apply Hs.
Qed.

(** A member at the top level is written to the folder under its name,
    unless a folder of that name is in the way. *)
Lemma extract_flat (folder name data : string) (f : string -> option node) :
  flat_name name = true ->
  f (path_join folder name) <> Some Directory ->
  extract_member folder (name, data) f =
  Ok (put (path_join folder name) (File (Bytes data)) f).
Proof.
  intros Hn Hf. unfold extract_member. cbn [fst snd].
  rewrite (flat_parts _ Hn), (flat_not_dir _ Hn). cbn [removelast make_upper_dirs bind].
  unfold below. cbn [String.concat].
  destruct (f (path_join folder name)) as [[c |] |]; try reflexivity.
  now elim Hf.
Qed.

Lemma extract_each_flat (folder : string) (all ms : list (string * string))
    (f : string -> option node) :
  Forall (fun m => flat_name (fst m) = true) ms ->
  (forall m, In m ms -> f (path_join folder (fst m)) <> Some Directory) ->
  extract_each folder all ms f =
  (None,
   fold_left (fun f m => put (path_join folder (fst m))
                             (File (Bytes (last_data (fst m) all (snd m)))) f)
             ms f).
Proof.
  revert f. induction ms as [| m ms IH]; intros f Hflat Hfree; [reflexivity |].
  inversion Hflat as [| x xs Hm Hms]; subst.
  cbn [extract_each fold_left].
  rewrite extract_flat; [| assumption | apply Hfree; now left].
  apply IH; [assumption |].
  intros m' Hin E. unfold put in E.
  destruct (String.eqb (path_join folder (fst m')) (path_join folder (fst m)));
    [discriminate E |].
  apply (Hfree m'); [now right | exact E].
Qed.

Lemma last_data_absent (name d : string) (ms : list (string * string)) :
  ~ In name (map fst ms) -> last_data name ms d = d.
Proof.
  revert d. induction ms as [| m ms IH]; intros d H; [reflexivity |]. simpl.
  destruct (String.eqb_spec (fst m) name) as [E | E].
  - exfalso. apply H. simpl. now left.
  - apply IH. intro Hin. apply H. now right.
Qed.

(** Among members with distinct names, the data looked up under a name
    is the data of the member. *)
Lemma last_data_NoDup (name data d : string) (ms : list (string * string)) :
  NoDup (map fst ms) -> In (name, data) ms -> last_data name ms d = data.
Proof.
  revert d. induction ms as [| m ms IH]; intros d Hnd Hin; [destruct Hin |].
  inversion Hnd as [| x xs Hx Hxs]; subst. simpl.
  destruct Hin as [-> | Hin].
  - simpl. rewrite String.eqb_refl. now apply last_data_absent.
  - now apply IH.
Qed.

Lemma fold_put_other (folder p : string) (g : string * string -> string)
    (ms : list (string * string)) (f : string -> option node) :
  (forall name, In name (map fst ms) -> p <> path_join folder name) ->
  fold_left (fun f m => put (path_join folder (fst m)) (File (Bytes (g m))) f) ms f p
  = f p.
Proof.
  revert f. induction ms as [| m ms IH]; simpl; intros f H; [reflexivity |].
  rewrite IH by (intros name Hn; apply H; now right).
  apply put_other. apply H. now left.
Qed.

Lemma fold_put_member (folder : string) (g : string * string -> string)
    (m : string * string) (ms : list (string * string)) (f : string -> option node) :
  NoDup (map fst ms) ->
  In m ms ->
  fold_left (fun f m => put (path_join folder (fst m)) (File (Bytes (g m))) f) ms f
            (path_join folder (fst m)) = Some (File (Bytes (g m))).
Proof.
  revert f. induction ms as [| a ms IH]; simpl; intros f Hnd Hin; [destruct Hin |].
  inversion Hnd as [| x xs Hx Hxs]; subst.
  destruct Hin as [-> | Hin].
  - rewrite fold_put_other; [apply put_same |].
    intros n Hn E. apply path_join_inj in E. rewrite <- E in Hn. contradiction.
  - now apply IH.
Qed.

(** X14.  The successful download of an archive of files at its top
    level: with no archive on disk, a request answered with status 200 and
    an archive whose member names are distinct, hold no slash and are
    none of the empty name, [.] and [..], no file in the way of the
    extraction folder and no folder in the way of a member, the call
    returns [None] after one request; the archive is on disk, the folder
    is a directory, every member of the archive is a file of the folder
    with its data, and [sub.tsv] is where the loader looks for it. *)
Theorem download_success (wf : string) (year month : Z) (w : world)
    (req : response) (members : list (string * string)) :
  exists_ w (output_file wf year month) = false ->
  server w (requests w) (url year month) = Ok req ->
  status_code req = 200%Z ->
  raw req = Archive members ->
  (forall c, fs w (output_folder wf year month) <> Some (File c)) ->
  NoDup (map fst members) ->
  Forall (fun m => flat_name (fst m) = true) members ->
  (forall m, In m members ->
     fs w (path_join (output_folder wf year month) (fst m)) <> Some Directory) ->
  exists w',
    download_xbrl_fin_notes wf year month w = (Ok NoneValue, w') /\
    requests w' = requests w ++ [url year month] /\
    fs w' (output_file wf year month) = Some (File (Archive members)) /\
    fs w' (output_folder wf year month) = Some Directory /\
    (forall name data,
       In (name, data) members ->
       fs w' (path_join (output_folder wf year month) name) = Some (File (Bytes data))) /\
    (forall data,
       In ("sub.tsv"%string, data) members ->
       fs w' (sub_file wf year month) = Some (File (Bytes data))).
Proof.
  intros He Hs H200 Hraw Hfree Hnd Hflat Hnodir.
  unfold download_xbrl_fin_notes, requests_get. rewrite He, Hs, H200. simpl.
  rewrite put_same, Hraw. unfold mkdir_exist_ok. simpl.
  rewrite (put_other _ _ _ _ (not_eq_sym (file_not_folder wf year month))).
  set (folder := output_folder wf year month) in *.
  set (g := fun m : string * string => last_data (fst m) members (snd m)).
  assert (Members : forall f name data,
            In (name, data) members ->
            fold_left (fun f m => put (path_join folder (fst m)) (File (Bytes (g m))) f)
                      members f (path_join folder name)
            = Some (File (Bytes data))).
  { intros f name data Hin.
    pose proof (fold_put_member folder g (name, data) members f Hnd Hin) as X.
    cbn [fst] in X. rewrite X.
    unfold g. simpl. now rewrite (last_data_NoDup name data data members Hnd Hin). }
  assert (Keep : forall f p,
            (forall name, p <> path_join folder name) ->
            fold_left (fun f m => put (path_join folder (fst m)) (File (Bytes (g m))) f)
                      members f p = f p)
    by (intros f p Hp; apply fold_put_other; intros; apply Hp).
  assert (Free : forall (f : string -> option node),
            (forall q, q <> output_file wf year month -> q <> folder -> f q = fs w q) ->
            forall m, In m members -> f (path_join folder (fst m)) <> Some Directory).
  { intros f Hf m Hin. rewrite Hf.
    - now apply Hnodir.
    - apply not_eq_sym, file_not_member.
    - apply path_join_longer. }
  destruct (fs w folder) as [[c |] |] eqn:F.
  - now elim (Hfree c).
  - unfold extractall. cbn [fs requests server].
    rewrite (extract_each_flat folder members members _ Hflat).
    2: { apply Free. intros q Hq _. now apply put_other. }
    fold g. eexists. split; [reflexivity |]. simpl. repeat split.
    + rewrite Keep by apply file_not_member. apply put_same.
    + rewrite Keep by (intros name E; symmetry in E; now apply path_join_longer in E).
      rewrite put_other by (apply not_eq_sym, file_not_folder). exact F.
    + intros name data Hin. now apply Members.
    + intros data Hin.
      destruct (loader_reads_extraction_folder_aux wf year month) as [-> _].
      now apply Members.
  - unfold extractall. cbn [fs requests server].
    rewrite (extract_each_flat folder members members _ Hflat).
    2: { apply Free. intros q Hq Hq'.
         rewrite put_other by assumption. now apply put_other. }
    fold g. eexists. split; [reflexivity |]. simpl. repeat split.
    + rewrite Keep by apply file_not_member.
      rewrite put_other by apply file_not_folder. apply put_same.
    + rewrite Keep by (intros name E; symmetry in E; now apply path_join_longer in E).
      apply put_same.
    + intros name data Hin. now apply Members.
    + intros data Hin.
      destruct (loader_reads_extraction_folder_aux wf year month) as [-> _].
      now apply Members.
Qed.

Lemma download_success_witness :
  exists w',
    download_xbrl_fin_notes "/work" 2021 1 w200 = (Ok NoneValue, w') /\
    requests w' = requests w200 ++ [url 2021 1] /\
    fs w' (output_file "/work" 2021 1) =
      Some (File (Archive [("sub.tsv", "adsh"); ("txt.tsv", "adsh")]%string)) /\
    fs w' (output_folder "/work" 2021 1) = Some Directory /\
    (forall name data,
       In (name, data) [("sub.tsv", "adsh"); ("txt.tsv", "adsh")]%string ->
       fs w' (path_join (output_folder "/work" 2021 1) name) = Some (File (Bytes data))) /\
    (forall data,
       In ("sub.tsv"%string, data) [("sub.tsv", "adsh"); ("txt.tsv", "adsh")]%string ->
       fs w' (sub_file "/work" 2021 1) = Some (File (Bytes data))).
Proof.
  apply (download_success "/work" 2021 1 w200
           {| status_code := 200; raw := notes_archive |}).
  - reflexivity.
  - reflexivity.
  - reflexivity.
  - reflexivity.
  - intros c H. discriminate H.
  - repeat constructor; simpl; intuition discriminate.
  - repeat constructor.
  - intros m _ H. discriminate H.
Defined.

(** X15.  A download that is no archive is kept and never repaired: when
    the request is answered with status 200 and a body that is not a zip
    archive, the call raises [BadZipFile] after the body has been written
    to the archive path, no folder is made, and the next call for the same
    period finds the file and does nothing. *)
Theorem corrupt_download_sticks (wf : string) (year month : Z) (w : world)
    (req : response) (data : string) :
  exists_ w (output_file wf year month) = false ->
  server w (requests w) (url year month) = Ok req ->
  status_code req = 200%Z ->
  raw req = Bytes data ->
  exists w',
    download_xbrl_fin_notes wf year month w = (Raise BadZipFile, w') /\
    fs w' (output_file wf year month) = Some (File (Bytes data)) /\
    fs w' (output_folder wf year month) = fs w (output_folder wf year month) /\
    download_xbrl_fin_notes wf year month w' = (Ok NoneValue, w').
Proof.
  intros He Hs H200 Hraw.
  unfold download_xbrl_fin_notes at 1. unfold requests_get.
  rewrite He, Hs, H200. simpl. rewrite put_same, Hraw.
  eexists. split; [reflexivity |]. simpl. repeat split.
  - apply put_same.
  - apply put_other, not_eq_sym, file_not_folder.
  - unfold download_xbrl_fin_notes, exists_. simpl. now rewrite put_same.
Qed.

Lemma corrupt_download_sticks_witness :
  exists w',
    download_xbrl_fin_notes "/work" 2021 1 w200_garbage = (Raise BadZipFile, w') /\
    fs w' (output_file "/work" 2021 1) = Some (File (Bytes "<html>busy</html>")) /\
    fs w' (output_folder "/work" 2021 1) = fs w200_garbage (output_folder "/work" 2021 1) /\
    download_xbrl_fin_notes "/work" 2021 1 w' = (Ok NoneValue, w').
Proof.
  apply (corrupt_download_sticks "/work" 2021 1 w200_garbage
           {| status_code := 200; raw := Bytes "<html>busy</html>" |});
    reflexivity.
Defined.

(** X16.  When the path of the extraction folder is taken by a file, the
    call raises [FileExistsError] after the archive has been written:
    nothing is extracted, that file stays as it is, and the next call does
    nothing. *)
Theorem folder_path_taken (wf : string) (year month : Z) (w : world)
    (req : response) (members : list (string * string)) (c : content) :
  exists_ w (output_file wf year month) = false ->
  server w (requests w) (url year month) = Ok req ->
  status_code req = 200%Z ->
  raw req = Archive members ->
  fs w (output_folder wf year month) = Some (File c) ->
  exists w',
    download_xbrl_fin_notes wf year month w = (Raise FileExistsError, w') /\
    fs w' (output_file wf year month) = Some (File (Archive members)) /\
    fs w' (output_folder wf year month) = Some (File c) /\
    (forall name,
       fs w' (path_join (output_folder wf year month) name) =
       fs w (path_join (output_folder wf year month) name)) /\
    download_xbrl_fin_notes wf year month w' = (Ok NoneValue, w').
Proof.
  intros He Hs H200 Hraw Hf.
  unfold download_xbrl_fin_notes at 1. unfold requests_get.
  rewrite He, Hs, H200. simpl. rewrite put_same, Hraw.
  unfold mkdir_exist_ok. simpl.
  rewrite (put_other _ _ _ _ (not_eq_sym (file_not_folder wf year month))), Hf.
  eexists. split; [reflexivity |]. simpl. repeat split.
  - apply put_same.
  - rewrite put_other by (apply not_eq_sym, file_not_folder). exact Hf.
  - intro name. apply put_other, not_eq_sym, file_not_member.
  - unfold download_xbrl_fin_notes, exists_. simpl. now rewrite put_same.
Qed.

Lemma folder_path_taken_witness :
  exists w',
    download_xbrl_fin_notes "/work" 2021 1 w_folder_taken = (Raise FileExistsError, w') /\
    fs w' (output_file "/work" 2021 1) =
      Some (File (Archive [("sub.tsv", "adsh"); ("txt.tsv", "adsh")]%string)) /\
    fs w' (output_folder "/work" 2021 1) = Some (File (Bytes "notes")) /\
    (forall name,
       fs w' (path_join (output_folder "/work" 2021 1) name) =
       fs w_folder_taken (path_join (output_folder "/work" 2021 1) name)) /\
    download_xbrl_fin_notes "/work" 2021 1 w' = (Ok NoneValue, w').
Proof.
  apply (folder_path_taken "/work" 2021 1 w_folder_taken
           {| status_code := 200; raw := notes_archive |});
    reflexivity.
Defined.

(** X17.  Whatever the outcome, a call leaves alone every path other than
    the archive, the extraction folder and the entries of that folder; it
    removes nothing that was on disk; and it never changes the remote end
    or the requests sent before. *)
Theorem download_frame (wf : string) (year month : Z) (w : world) :
  let w' := snd (download_xbrl_fin_notes wf year month w) in
  (forall p,
     p <> output_file wf year month ->
     p <> output_folder wf year month ->
     (forall name, p <> path_join (output_folder wf year month) name) ->
     fs w' p = fs w p) /\
  (forall p, fs w p <> None -> fs w' p <> None) /\
  server w' = server w /\
  firstn (length (requests w)) (requests w') = requests w.
Proof.
  unfold download_xbrl_fin_notes, requests_get.
  destruct (exists_ w (output_file wf year month)).
  { simpl. repeat split; auto. apply firstn_all. }
  assert (Pre : forall x : list string,
            firstn (length (requests w)) (requests w ++ x) = requests w).
  { intro x. rewrite firstn_app, Nat.sub_diag, firstn_all. simpl.
    apply List.app_nil_r. }
  destruct (server w (requests w) (url year month)) as [req | e].
  2: { simpl. repeat split; auto. }
  destruct (Z.eqb (status_code req) 200).
  2: { simpl. repeat split; auto. }
  simpl. rewrite put_same. destruct (raw req) as [members | data].
  2: { simpl. repeat split; auto.
       - intros p Hp _ _. now apply put_other.
       - intros p Hp. now apply put_present. }
  unfold mkdir_exist_ok. simpl.
  destruct (put (output_file wf year month) (File (Archive members)) (fs w)
                (output_folder wf year month)) as [[c |] |]; simpl.
  - repeat split; auto.
    + intros p Hp _ _. now apply put_other.
    + intros p Hp. now apply put_present.
  - match goal with
    | |- context [extractall ?a ?b ?c] =>
        destruct (extractall_world a b c) as [R [S F]];
        pose proof (extract_each_kept a b b (fs c)) as [K1 K2];
        rewrite <- F in K1, K2; rewrite (outcome_world (fst (extractall a b c)))
          || idtac;
        destruct (extractall a b c) as [[x |] w4]; simpl in *
    end.
    + repeat split; auto.
      * intros p Hp _ Hm. rewrite K2 by assumption. now apply put_other.
      * intros p Hp. now apply K1, put_present.
      * now rewrite R.
    + repeat split; auto.
      * intros p Hp _ Hm. rewrite K2 by assumption. now apply put_other.
      * intros p Hp. now apply K1, put_present.
      * now rewrite R.
  - match goal with
    | |- context [extractall ?a ?b ?c] =>
        destruct (extractall_world a b c) as [R [S F]];
        pose proof (extract_each_kept a b b (fs c)) as [K1 K2];
        rewrite <- F in K1, K2;
        destruct (extractall a b c) as [[x |] w4]; simpl in *
    end.
    + repeat split; auto.
      * intros p Hp Hd Hm. rewrite K2 by assumption.
        rewrite put_other by assumption. now apply put_other.
      * intros p Hp. now apply K1, put_present, put_present.
      * now rewrite R.
    + repeat split; auto.
      * intros p Hp Hd Hm. rewrite K2 by assumption.
        rewrite put_other by assumption. now apply put_other.
      * intros p Hp. now apply K1, put_present, put_present.
      * now rewrite R.
Qed.

(** X18.  A call sends a request exactly when the archive path does not
    exist, and then sends one request, to the address of the period's
    archive under the SEC's base address. *)
Theorem request_discipline (wf : string) (year month : Z) (w : world) :
  let w' := snd (download_xbrl_fin_notes wf year month w) in
  (exists_ w (output_file wf year month) = true -> requests w' = requests w) /\
  (exists_ w (output_file wf year month) = false ->
   requests w' = requests w ++ [(base_url ++ filename year month)%string]).
Proof.
  unfold download_xbrl_fin_notes, requests_get. split; intro H; rewrite H.
  - reflexivity.
  - fold (url year month).
    destruct (server w (requests w) (url year month)) as [req | e];
      [| reflexivity].
    destruct (Z.eqb (status_code req) 200); [| reflexivity].
    simpl. rewrite put_same. destruct (raw req); [| reflexivity].
    unfold mkdir_exist_ok. simpl.
    destruct (put (output_file wf year month) (File (Archive members)) (fs w)
                  (output_folder wf year month)) as [[c |] |]; try reflexivity;
      match goal with
      | |- context [extractall ?a ?b ?c] =>
          destruct (extractall_world a b c) as [R _];
          destruct (extractall a b c) as [[x |] w4]; simpl in *; exact R
      end.
Qed.

Lemma request_discipline_witness :
  requests (snd (download_xbrl_fin_notes "/work" 2021 1 w_archive_only)) =
    requests w_archive_only /\
  requests (snd (download_xbrl_fin_notes "/work" 2021 1 w404)) =
    requests w404 ++
    ["https://www.sec.gov/files/dera/data/financial-statement-and-notes-data-sets/2021_01_notes.zip"%string].
Proof.
  split.
  - apply (proj1 (request_discipline "/work" 2021 1 w_archive_only)). reflexivity.
  - apply (proj2 (request_discipline "/work" 2021 1 w404)). reflexivity.
Defined.

Lemma download_frame_witness :
  fs w_folder_taken "/work/2021_01_notes" = Some (File (Bytes "notes")) /\
  fs (snd (download_xbrl_fin_notes "/work" 2021 1 w_folder_taken)) "/work/2021_01_notes"
    <> None /\
  fs (snd (download_xbrl_fin_notes "/work" 2021 1 w200_nested))
     "/work/2021_01_notes/evil.txt" = Some (File (Bytes "x")) /\
  fs (snd (download_xbrl_fin_notes "/work" 2021 1 w200_nested))
     "/work/2021_01_notes/docs" = Some Directory /\
  fs (snd (download_xbrl_fin_notes "/work" 2021 1 w200_nested))
     "/work/2021_01_notes/docs/readme.htm" = Some (File (Bytes "r")) /\
  fs (snd (download_xbrl_fin_notes "/work" 2021 1 w200_nested)) "/work/evil.txt" =
    fs w200_nested "/work/evil.txt".
Proof.
  split; [reflexivity |]. split; [| split; [reflexivity |]].
  - apply (proj1 (proj2 (download_frame "/work" 2021 1 w_folder_taken))).
    discriminate.
  - split; [reflexivity |]. split; [reflexivity |].
    apply (proj1 (download_frame "/work" 2021 1 w200_nested)).
    + discriminate.
    + discriminate.
    + intros name H. unfold path_join, output_folder, path_join in H.
      vm_compute in H. inversion H.
Defined.

(** ** Names of the archives *)

Lemma sola_length (l : list ascii) :
  String.length (string_of_list_ascii l) = length l.
Proof. induction l as [| c l IH]; simpl; [reflexivity | now rewrite IH]. Qed.

Lemma str_N_first (n : N) :
  exists c l, str_N n = c :: l /\ is_digit c = true.
Proof.
  unfold str_N. pose proof (digits_of_nonempty (N.to_nat (N.log2 n)) n) as Hne.
  pose proof (digits_of_digits (S (N.to_nat (N.log2 n))) n) as Hd.
  destruct (digits_of (S (N.to_nat (N.log2 n))) n []) as [| c l]; [now elim Hne |].
  simpl in Hd. apply andb_prop in Hd. destruct Hd as [Hc _]. now exists c, l.
Qed.

(** The decimal text of an integer reads back as that integer. *)
Lemma int_of_text_str_int (z : Z) : int_of_text (str_int z) = z.
Proof.
  unfold int_of_text, str_int. rewrite list_ascii_of_string_of_list_ascii.
  assert (P : forall n, match str_N n with
                        | c :: l =>
                            if Ascii.eqb c "-" then (- fold_left digit_step l 0)%Z
                            else fold_left digit_step (c :: l) 0%Z
                        | [] => 0%Z
                        end = Z.of_N n).
  { intro n. pose proof (str_N_value n) as V.
    destruct (str_N_first n) as [c [l [E Hc]]]. rewrite E in *.
    destruct (digit_not_space c Hc) as [_ [-> _]]. exact V. }
  destruct z as [| p | p].
  - apply (P 0%N).
  - apply (P (Npos p)).
  - simpl. now rewrite str_N_value.
Qed.

Lemma int_of_text_format_02 (z : Z) : int_of_text (format_02 z) = z.
Proof.
  unfold format_02.
  destruct (Nat.ltb (String.length (str_int z)) 2) eqn:L;
    [| apply int_of_text_str_int].
  destruct z as [| p | p].
  - reflexivity.
  - unfold int_of_text, str_int. simpl.
    rewrite list_ascii_of_string_of_list_ascii.
    exact (str_N_value (Npos p)).
  - exfalso. unfold str_int in L. rewrite sola_length in L.
    destruct (str_N_first (Npos p)) as [c [l [E _]]]. rewrite E in L.
    simpl in L. discriminate L.
Qed.

Lemma str_int_no_underscore (z : Z) : no_underscore (str_int z).
Proof.
  destruct (str_int_chars z) as [_ H]. unfold no_underscore.
  eapply forallb_weaken; [| exact H]. intros c Hc.
  destruct (Ascii.eqb_spec c "_"); [subst; discriminate Hc | reflexivity].
Qed.

Lemma format_02_no_underscore (z : Z) : no_underscore (format_02 z).
Proof.
  unfold format_02. pose proof (str_int_no_underscore z) as H.
  destruct (Nat.ltb (String.length (str_int z)) 2); [| exact H].
  unfold no_underscore in *. simpl. exact H.
Qed.

Lemma underscore_split (a a' r r' : string) :
  no_underscore a -> no_underscore a' ->
  (a ++ String "_" r = a' ++ String "_" r')%string ->
  a = a' /\ r = r'.
Proof.
  unfold no_underscore. revert a'.
  induction a as [| c a IH]; intros a' Ha Ha' H; destruct a' as [| c' a'];
    simpl in *.
  - inversion H. now split.
  - inversion H; subst. discriminate Ha'.
  - inversion H; subst. discriminate Ha.
  - inversion H; subst. apply andb_prop in Ha, Ha'.
    destruct Ha as [_ Ha]. destruct Ha' as [_ Ha'].
    destruct (IH a' Ha Ha' H2) as [-> ->]. now split.
Qed.

Lemma filename_inj (y m y' m' : Z) :
  filename y m = filename y' m' -> y = y' /\ m = m'.
Proof.
  unfold filename. intro H.
  change ("_" ++ format_02 m ++ "_notes.zip")%string
    with (String "_" (format_02 m ++ String "_" "notes.zip"))%string in H.
  change ("_" ++ format_02 m' ++ "_notes.zip")%string
    with (String "_" (format_02 m' ++ String "_" "notes.zip"))%string in H.
  apply underscore_split in H; try apply str_int_no_underscore.
  destruct H as [Hy Hm].
  apply underscore_split in Hm; try apply format_02_no_underscore.
  destruct Hm as [Hm _].
  apply (f_equal int_of_text) in Hy, Hm.
  rewrite !int_of_text_str_int in Hy. rewrite !int_of_text_format_02 in Hm.
  now split.
Qed.

(** X19.  Different periods never share a name: two periods that differ
    in the year or in the month have different archive names, different
    archive paths and different addresses, so the existence guard of one
    period is never satisfied by the archive of another. *)
Theorem periods_do_not_collide (wf : string) (y m y' m' : Z) :
  y <> y' \/ m <> m' ->
  filename y m <> filename y' m' /\
  output_file wf y m <> output_file wf y' m' /\
  url y m <> url y' m'.
Proof.
  intro H.
  assert (N : filename y m <> filename y' m').
  { intro E. apply filename_inj in E. destruct E. destruct H; contradiction. }
  repeat split; [exact N | |].
  - unfold output_file. intro E. now apply path_join_inj in E.
  - unfold url. intro E. now apply append_inj_l in E.
Qed.

Lemma periods_do_not_collide_witness :
  filename 2021 1 <> filename 2021 11 /\
  output_file "/work" 2021 1 <> output_file "/work" 2021 11 /\
  url 2021 1 <> url 2021 11.
Proof.
  apply (periods_do_not_collide "/work" 2021 1 2021 11). right. discriminate.
Defined.


(* ===================================================================== *)
(** * Further properties of the loader *)
(* ===================================================================== *)

(** Over blanks and line feeds the tokenizer stays at the start of a line
    or within a line of blanks, and reads no line. *)
Lemma blank_steps (text : list ascii) (t : parser_t) :
  forallb (fun c => Ascii.eqb c " " || Ascii.eqb c LF) text = true ->
  lines t = [] ->
  state t = START_RECORD \/ state t = WHITESPACE_LINE ->
  lines (fold_left step text t) = [] /\
  (state (fold_left step text t) = START_RECORD \/
   state (fold_left step text t) = WHITESPACE_LINE).
Proof.
  revert t. induction text as [| c text IH]; intros t H L S; [now split |].
  simpl in H. apply andb_prop in H. destruct H as [Hc Ht].
  simpl. apply IH; [exact Ht | |];
    apply orb_prop in Hc; destruct Hc as [Hc | Hc]; apply Ascii.eqb_eq in Hc; subst c;
    unfold step; destruct S as [-> | ->]; simpl; auto.
Qed.

(** X22.  A file without content, or with nothing but blank lines, has no
    header: [read_csv] raises [EmptyDataError]. *)
Theorem blank_file_raises (p : platform) (text : list ascii) :
  forallb (fun c => Ascii.eqb c " " || Ascii.eqb c LF) text = true ->
  read_csv p text = Raise EmptyDataError.
Proof.
  intro H. unfold read_csv.
  assert (U : has_nul text = false).
  { apply not_true_is_false. intro E. apply existsb_exists in E.
    destruct E as [c [Hc Hu]]. rewrite forallb_forall in H.
    specialize (H c Hc). apply orb_prop in H.
    destruct H as [Q | Q]; apply Ascii.eqb_eq in Q; subst c; discriminate Hu. }
  rewrite U. unfold tokenize.
  destruct (blank_steps text parser_init H eq_refl (or_introl eq_refl)) as [L S].
  unfold at_eof. destruct S as [-> | ->]; rewrite L; reflexivity.
Qed.

Lemma blank_file_raises_witness :
  read_csv notebook_platform [] = Raise EmptyDataError /\
  read_csv notebook_platform blank_tsv = Raise EmptyDataError /\
  read_csv recent_platform blank_tsv = Raise EmptyDataError.
Proof.
  split; [| split].
  - apply (blank_file_raises notebook_platform []). reflexivity.
  - apply (blank_file_raises notebook_platform blank_tsv). reflexivity.
  - apply (blank_file_raises recent_platform blank_tsv). reflexivity.
Defined.















